(** * PGVendorManager: reset timers, clustering and persistence

    A shallow embedding of the two application variants of the repository,
    [PGVendorManager.py] and [vendor_tracker7.py], and the proofs of the
    properties their specification states.

    Python values are dynamically typed; the embedding keeps them in one
    universe [pyval] and makes every exception explicit.  Points in time
    are naive [datetime] values, counted in microseconds (the resolution of
    [datetime] and [timedelta]).  [calculate_last_reset] of
    [PGVendorManager.py], where the override leaves the days without a
    cap, has the ranges of the library: its date arithmetic raises
    [OverflowError] outside the years 1..9999.  Elsewhere ([next_reset],
    and [vendor_tracker7.py], which caps the days at 6) the arithmetic is
    the one of unbounded integers.  Each reading of the clock is an
    argument [now] of the function that reads it.  JSON documents hold
    integers as their only numbers. *)

From Stdlib Require Import ZArith String Ascii List Bool Lia.
From stdpp Require Import base option list gmap strings.

Local Open Scope Z_scope.
Set Warnings "-register-all,-rewrite-rw".

(** ** The Python runtime, as far as the program uses it *)

Module Py.

Inductive exn :=
| ValueError | TypeError | AttributeError | KeyError
| OverflowError | OSError | FileNotFoundError | JSONDecodeError
| UnicodeDecodeError | RecursionError.

(** [FileNotFoundError] is a subclass of [OSError] (and [IOError] is
    [OSError]). *)
Definition is_OSError (e : exn) : bool :=
  match e with
  | OSError | FileNotFoundError => true
  | _ => false
  end.

Inductive result (A : Type) :=
| Ok (a : A)
| Raise (e : exn).
Arguments Ok {A} a.
Arguments Raise {A} e.

#[global] Instance result_ret : MRet result := @Ok.
#[global] Instance result_bind : MBind result := fun A B k r =>
  match r with
  | Ok a => k a
  | Raise e => Raise e
  end.

(** Values: what [json.load] returns, plus [datetime] objects.  A [str]
    is a sequence of characters with code points below 256; a [dict] has
    string keys and is searched from the left. *)
Inductive pyval :=
| PNone
| PBool (b : bool)
| PInt (z : Z)
| PStr (s : string)
| PDatetime (t : Z)
| PList (l : list pyval)
| PDict (d : list (string * pyval)).

(** Truth value of an object, and [a or b]. *)
Definition truthy (v : pyval) : bool :=
  match v with
  | PNone => false
  | PBool b => b
  | PInt z => negb (z =? 0)
  | PStr s => negb (String.eqb s "")
  | PDatetime _ => true
  | PList l => match l with [] => false | _ => true end
  | PDict d => match d with [] => false | _ => true end
  end.

Definition or_ (a b : pyval) : pyval := if truthy a then a else b.

(** [d.get(key, default)] and [d[key]] on the items of a [dict]. *)
Fixpoint dict_lookup (d : list (string * pyval)) (key : string)
  : option pyval :=
  match d with
  | [] => None
  | (k, v) :: d' => if String.eqb k key then Some v else dict_lookup d' key
  end.

Definition dict_get (d : list (string * pyval)) (key : string)
    (default : pyval) : pyval :=
  match dict_lookup d key with
  | Some v => v
  | None => default
  end.

(** [timedelta(days=d, hours=h, minutes=m)], in microseconds. *)
Definition timedelta (d h m : Z) : Z :=
  ((d * 24 + h) * 60 + m) * 60 * 1000000.

(** [divmod a b]: floor division and its remainder. *)
Definition divmod (a b : Z) : Z * Z := (a / b, a mod b).

(** The ranges of the library.  A [timedelta] holds from -999999999 days
    to just under 1000000000 days; a [datetime] lies in the years 1 to
    9999, counted here from 0001-01-01T00:00:00, the day of ordinal 1.
    Outside these the constructors and the arithmetic raise
    [OverflowError]: [new_timedelta] is the check on the [timedelta] a
    constructor or an operation makes, [new_datetime] the one on the
    [datetime] an addition or subtraction makes. *)
Definition _MAXORDINAL : Z := 3652059.

Definition new_timedelta (microseconds : Z) : result Z :=
  if (timedelta (-999999999) 0 0 <=? microseconds)
     && (microseconds <? timedelta 1000000000 0 0)
  then Ok microseconds
  else Raise OverflowError.

Definition new_datetime (t : Z) : result Z :=
  if (0 <=? t) && (t <? timedelta _MAXORDINAL 0 0)
  then Ok t
  else Raise OverflowError.

(** Library functions whose results the program only passes on, and the
    installation directory.  [None] stands for [ValueError]. *)
Class Runtime := {
  (** [int(s)] for a [str] *)
  int_of_str : string -> option Z;
  (** [dt.isoformat()] *)
  isoformat : Z -> string;
  (** [datetime.fromisoformat(s)] *)
  fromisoformat : string -> option Z;
  (** [datetime.fromtimestamp(float(s))] *)
  fromtimestamp_float : string -> result Z;
  (** [c.isalnum()], [c.isspace()] *)
  isalnum : ascii -> bool;
  isspace : ascii -> bool;
  (** [a == b] for two lists or two dicts *)
  container_eq : pyval -> pyval -> bool;
  (** [a > b] for two lists *)
  list_gt : list pyval -> list pyval -> result bool;
  (** [os.path.dirname(os.path.abspath(__file__))] *)
  script_dir : string;
}.

(** [int(v)] *)
Definition py_int `{Runtime} (v : pyval) : result Z :=
  match v with
  | PInt z => Ok z
  | PBool b => Ok (if b then 1 else 0)
  | PStr s => match int_of_str s with
              | Some z => Ok z
              | None => Raise ValueError
              end
  | _ => Raise TypeError
  end.

(** The integer a [bool] or [int] stands for. *)
Definition as_number (v : pyval) : option Z :=
  match v with
  | PInt z => Some z
  | PBool b => Some (if b then 1 else 0)
  | _ => None
  end.

(** [a == b] *)
Definition py_eq `{Runtime} (a b : pyval) : bool :=
  match as_number a, as_number b with
  | Some x, Some y => x =? y
  | _, _ =>
      match a, b with
      | PNone, PNone => true
      | PStr s1, PStr s2 => String.eqb s1 s2
      | PDatetime t1, PDatetime t2 => t1 =? t2
      | PList _, PList _ | PDict _, PDict _ => container_eq a b
      | _, _ => false
      end
  end.

(** [a > b] *)
Definition py_gt `{Runtime} (a b : pyval) : result bool :=
  match as_number a, as_number b with
  | Some x, Some y => Ok (x >? y)
  | _, _ =>
      match a, b with
      | PStr s1, PStr s2 =>
          Ok (match String.compare s1 s2 with Gt => true | _ => false end)
      | PDatetime t1, PDatetime t2 => Ok (t1 >? t2)
      | PList l1, PList l2 => list_gt l1 l2
      | _, _ => Raise TypeError
      end
  end.

(** [max(a, b)]: the first of the two unless the second is greater. *)
Definition py_max `{Runtime} (a b : pyval) : result pyval :=
  g ← py_gt b a; mret (if g : bool then b else a).

(** [for x in v]: the items a value yields when iterated. *)
Definition py_iter (v : pyval) : result (list pyval) :=
  match v with
  | PList l => Ok l
  | PDict d => Ok (map (fun kv => PStr (fst kv)) d)
  | PStr s => Ok (map (fun c => PStr (String c "")) (list_ascii_of_string s))
  | _ => Raise TypeError
  end.

(** [s.rstrip()] *)
Fixpoint rstrip `{Runtime} (s : string) : string :=
  match s with
  | EmptyString => EmptyString
  | String c s' =>
      match rstrip s' with
      | EmptyString => if isspace c then EmptyString else String c EmptyString
      | r => String c r
      end
  end.

(** ["".join(c for c in s if keep c)] *)
Fixpoint filter_chars (keep : ascii -> bool) (s : string) : string :=
  match s with
  | EmptyString => EmptyString
  | String c s' =>
      if keep c then String c (filter_chars keep s') else filter_chars keep s'
  end.

(** [os.path.join(a, b)] (POSIX). *)
Definition path_join (a b : string) : string :=
  if String.prefix "/" b then b
  else if String.eqb a "" then b
  else if String.eqb (String.substring (String.length a - 1) 1 a) "/"
       then (a ++ b)%string
       else (a ++ "/" ++ b)%string.

(** Whether [json.dump] accepts a value. *)
Fixpoint json_serializable (v : pyval) : bool :=
  match v with
  | PDatetime _ => false
  | PList l => forallb json_serializable l
  | PDict d =>
      (fix items (d : list (string * pyval)) : bool :=
         match d with
         | [] => true
         | (_, x) :: d' => json_serializable x && items d'
         end) d
  | _ => true
  end.

(** A file, seen through [open] and [json.load]: a JSON document, text
    that is not JSON, a file that cannot be read, bytes that the encoding
    of [open] cannot decode ([json.load] raises [UnicodeDecodeError] when
    it reads them), or a JSON document nested deeper than the parser goes
    ([RecursionError]).  [json.load] returns the document [json.dump]
    wrote.  The file system is a map from paths to files; directories are
    not part of it, so creating the data directory changes nothing. *)
Inductive file :=
| JsonDocument (data : pyval)
| MalformedText
| Unreadable
| Undecodable
| NestedTooDeep.

(** What the program prints and the dialogs it shows. *)
Inductive message :=
| InvalidLastResetFormat (name : pyval)
| UnknownLastResetType (name : pyval)
| ErrorLoadingVendor (name : pyval) (e : exn)
| UnexpectedFileFormat (file_path : string)
| ErrorParsingJson (file_path : string)
| CouldNotParseVendorFile (character_name : string)
| ErrorReadingFile (file_path : string)
| CouldNotReadVendorFile (character_name : string)
| VendorNameEmpty
| ResetTimeExceeds
| ErrorAddingVendor (e : exn)
| ErrorUpdatingVendor (e : exn)
| ErrorResettingVendor (e : exn)
| ErrorDeletingVendor (e : exn)
| VendorAdded (name : pyval)
| VendorUpdated (name : pyval)
| VendorReset (name : pyval)
| VendorDeleted (name : pyval).

Inductive event :=
| print (m : message)
| showerror (m : message)
| showinfo (m : message).

(** Computations that print and may raise. *)
Definition M (A : Type) : Type := list event * result A.

#[global] Instance M_ret : MRet M := fun A a => ([], Ok a).
#[global] Instance M_bind : MBind M := fun A B k m =>
  match m with
  | (out, Ok a) => let '(out', r) := k a in (out ++ out', r)
  | (out, Raise e) => (out, Raise e)
  end.

Definition raise {A} (e : exn) : M A := ([], Raise e).
Definition tell (ev : event) : M unit := ([ev], Ok tt).
Definition lift {A} (r : result A) : M A := ([], r).

(** [try: m except ...: handler]; [handler e = None] when no clause
    matches [e]. *)
Definition try_except {A} (m : M A) (handler : exn -> option (M A)) : M A :=
  match m with
  | (out, Ok a) => (out, Ok a)
  | (out, Raise e) =>
      match handler e with
      | Some h => let '(out', r) := h in (out ++ out', r)
      | None => (out, Raise e)
      end
  end.

End Py.

Import Py.

(** ** Clustering

    [_group_vendors_by_reset_time] has the same text in both files, up to
    the names of its local variables, and reads nothing of a vendor but
    [next_reset]; it is embedded once, over the vendor type. *)

Section Clustering.
Context {V : Type} (next_reset : V -> Z).

Definition THRESH : Z := timedelta 0 1 0.

(** The loop [for i in range(1, len(vendors))]; [prev] is [vendors[i-1]]
    and [rest] is [vendors[i:]]. *)
Fixpoint group_loop (prev : V) (rest : list V)
    (clusters : list (list V)) (current : list V)
  : list (list V) * list V :=
  match rest with
  | [] => (clusters, current)
  | v :: rest' =>
      let td := next_reset v - next_reset prev in
      if td >? THRESH
      then group_loop v rest' (clusters ++ [current]) [v]
      else group_loop v rest' clusters (current ++ [v])
  end.

Definition _group_vendors_by_reset_time (vendors : list V)
  : list (list V) :=
  match vendors with
  | [] => []
  | v0 :: rest =>
      let '(clusters, current) := group_loop v0 rest [] [v0] in
      match current with
      | [] => clusters
      | _ => clusters ++ [current]
      end
  end.

End Clustering.

(** The de-duplication loop of the add and update dialogs:
    [seen] is a set, [final_cats] keeps the order of first occurrence. *)
Definition dedupe_step (acc : gset string * list string) (c : string)
  : gset string * list string :=
  let '(seen, final_cats) := acc in
  if decide (c ∈ seen) then (seen, final_cats)
  else ({[ c ]} ∪ seen, final_cats ++ [c]).

Definition dedupe (selected_cats : list string) : list string :=
  snd (fold_left dedupe_step selected_cats (∅, [])).

(** ** PGVendorManager.py *)

Module PGVendorManager.

Definition MAX_TOTAL_MINUTES : Z := 6 * 24 * 60 + 23 * 60 + 59.
Definition DEFAULT_CHARACTER : string := "Default".

Record Vendor := {
  name : pyval;
  zone : pyval;
  council_left : Z;
  last_reset : Z;
  reset_maximum : Z;
  categories : pyval;
}.

Definition next_reset (v : Vendor) : Z := last_reset v + timedelta 7 0 0.

Section WithRuntime.
Context `{Runtime}.

Definition DATA_DIR : string := path_join script_dir "character_data".

(** [Vendor.__init__] *)
Definition Vendor_init (now : Z)
    (name zone council_left last_reset reset_maximum categories : pyval)
  : M Vendor :=
  council_left' ← lift (py_int council_left);
  last_reset' ←
    match last_reset with
    | PStr s =>
        match fromisoformat s with
        | Some t => mret t
        | None =>
            match fromtimestamp_float s with
            | Ok t => mret t
            | Raise ValueError | Raise OverflowError =>
                _ ← tell (print (InvalidLastResetFormat name)); mret now
            | Raise e => raise e
            end
        end
    | PDatetime t => mret t
    | _ => _ ← tell (print (UnknownLastResetType name)); mret now
    end;
  reset_maximum' ← lift (py_int reset_maximum);
  mret {| name := name; zone := zone; council_left := council_left';
          last_reset := last_reset'; reset_maximum := reset_maximum';
          categories := or_ categories (PList []) |}.

Definition to_dict (v : Vendor) : pyval :=
  PDict [("name", name v);
         ("zone", zone v);
         ("council_left", PInt (council_left v));
         ("last_reset", PStr (isoformat (last_reset v)));
         ("reset_maximum", PInt (reset_maximum v));
         ("categories", categories v)]%string.

(** [Vendor.from_dict]; a value without [get] raises [AttributeError]. *)
Definition from_dict (now : Z) (d : pyval) : M Vendor :=
  match d with
  | PDict d =>
      Vendor_init now
        (dict_get d "name" (PStr ""))
        (dict_get d "zone" (PStr ""))
        (dict_get d "council_left" (PInt 0))
        (dict_get d "last_reset" (PStr (isoformat now)))
        (dict_get d "reset_maximum" (PInt 0))
        (dict_get d "categories" (PList []))
  | _ => raise AttributeError
  end.

Definition character_file_path (character_name : string) : string :=
  let safe_name :=
    rstrip (filter_chars
              (fun c => isalnum c
                        || Ascii.eqb c " " || Ascii.eqb c "-" || Ascii.eqb c "_")
              character_name) in
  path_join DATA_DIR (safe_name ++ "_vendors.json")%string.

(** [save_vendors].  Opening the file for writing empties it; when
    [json.dump] meets a value it cannot encode it raises [TypeError] with
    the document unfinished, and [save_vendors] handles [OSError] only.
    Writing itself does not fail in the embedding. *)
Definition save_vendors (files : gmap string file) (vendors : list Vendor)
    (character_name : string) : gmap string file * M unit :=
  let file_path := character_file_path character_name in
  let vendor_list := PList (map to_dict vendors) in
  if json_serializable vendor_list
  then (<[file_path := JsonDocument vendor_list]> files, mret tt)
  else (<[file_path := MalformedText]> files, raise TypeError).

(** The loop over the entries of a record: a vendor that cannot be built
    is reported and skipped; the report reads [vendor_data.get]. *)
Fixpoint load_entries (now : Z) (entries : list pyval) (vendors : list Vendor)
  : M (list Vendor) :=
  match entries with
  | [] => mret vendors
  | vendor_data :: entries' =>
      vendors' ←
        try_except (v ← from_dict now vendor_data; mret (vendors ++ [v]))
          (fun e => Some (
             match vendor_data with
             | PDict d =>
                 _ ← tell (print (ErrorLoadingVendor
                                    (dict_get d "name" (PStr "Unknown")) e));
                 mret vendors
             | _ => raise AttributeError
             end));
      load_entries now entries' vendors'
  end.

(** [load_vendors] *)
Definition load_vendors (files : gmap string file) (now : Z)
    (character_name : string) : M (list Vendor) :=
  let file_path := character_file_path character_name in
  match files !! file_path with
  | None => mret []
  | Some f =>
      try_except
        (data ← match f with
                 | JsonDocument data => mret data
                 | MalformedText => raise JSONDecodeError
                 | Unreadable => raise OSError
                 | Undecodable => raise UnicodeDecodeError
                 | NestedTooDeep => raise RecursionError
                 end;
         match data with
         | PList entries => load_entries now entries []
         | PDict d =>
             let vendors_blob :=
               or_ (or_ (dict_get d "vendors" PNone)
                        (dict_get d "vendor_list" PNone))
                   (PList []) in
             match vendors_blob with
             | PList entries => load_entries now entries []
             | _ => _ ← tell (print (UnexpectedFileFormat file_path)); mret []
             end
         | _ => _ ← tell (print (UnexpectedFileFormat file_path)); mret []
         end)
        (fun e =>
           match e with
           | JSONDecodeError => Some (
               _ ← tell (print (ErrorParsingJson file_path));
               _ ← tell (showerror (CouldNotParseVendorFile character_name));
               mret [])
           | _ =>
               if is_OSError e then Some (
                 _ ← tell (print (ErrorReadingFile file_path));
                 _ ← tell (showerror (CouldNotReadVendorFile character_name));
                 mret [])
               else None
           end)
  end.

Definition _clamp_reset_inputs (days hours minutes : pyval)
    (override_max_time : bool) : result (Z * Z * Z) :=
  let parsed :=
    d ← py_int (or_ days (PInt 0));
    h ← py_int (or_ hours (PInt 0));
    m ← py_int (or_ minutes (PInt 0));
    mret (Z.max 0 d, Z.max 0 h, Z.max 0 m) in
  match parsed with
  | Raise ValueError | Raise TypeError => Ok (0, 0, 0)
  | Raise e => Raise e
  | Ok (d, h, m) =>
      if negb override_max_time then
        let total_minutes := d * 24 * 60 + h * 60 + m in
        let total_minutes :=
          if total_minutes >? MAX_TOTAL_MINUTES
          then MAX_TOTAL_MINUTES else total_minutes in
        let '(d, remainder) := divmod total_minutes (24 * 60) in
        let '(h, m) := divmod remainder 60 in
        Ok (d, h, m)
      else
        let h := Z.min h 23 in
        let m := Z.min m 59 in
        Ok (d, h, m)
  end.

(** [now] is what [datetime.now()] returns, a [datetime]. *)
Definition calculate_last_reset (now : Z) (days hours minutes : pyval)
    (override_max_time : bool) : result Z :=
  '(d, h, m) ← _clamp_reset_inputs days hours minutes override_max_time;
  time_until_reset ← new_timedelta (timedelta d h m);
  if negb override_max_time then
    time_since_last_reset ← new_timedelta (timedelta 7 0 0 - time_until_reset);
    new_datetime (now - time_since_last_reset)
  else
    later ← new_datetime (now + time_until_reset);
    new_datetime (later - timedelta 7 0 0).


(** *** The application: the collection of the current character, the
    files, and what was printed or shown.  The redrawing of the widgets
    changes none of these and is left out; the dialogs' answers and the
    parsed contents of the entry fields are arguments. *)

Record App := {
  vendors : list Vendor;
  current_character : string;
  files : gmap string file;
  console : list event;
}.

Definition log (out : list event) (app : App) : App :=
  {| vendors := vendors app; current_character := current_character app;
     files := files app; console := console app ++ out |}.

Definition set_vendors (vs : list Vendor) (app : App) : App :=
  {| vendors := vs; current_character := current_character app;
     files := files app; console := console app |}.

(** [save_vendors(self.vendors, self.current_character)] followed by the
    success dialog, inside the [try] of the callbacks: any exception is
    printed and shown. *)
Definition save_and_report (done : list event) (failed : exn -> message)
    (app : App) : App :=
  let '(files', (out, r)) :=
    save_vendors (files app) (vendors app) (current_character app) in
  let app' :=
    {| vendors := vendors app; current_character := current_character app;
       files := files'; console := console app ++ out |} in
  match r with
  | Ok _ => log done app'
  | Raise e => log [print (failed e); showerror (failed e)] app'
  end.

(** [add_and_save]: [name] and [zone] are the stripped texts of the entry
    fields, [council], [d_raw], [h_raw], [m_raw] the numbers read from
    them, [selected_cats] the ticked categories followed by the custom
    one. *)
Definition add_and_save (now : Z) (name zone : string) (council : Z)
    (d_raw h_raw m_raw : Z) (override_flag : bool)
    (selected_cats : list string) (app : App) : App :=
  if String.eqb name "" then log [showerror VendorNameEmpty] app
  else
    let total_minutes := d_raw * 24 * 60 + h_raw * 60 + m_raw in
    if (total_minutes >? MAX_TOTAL_MINUTES) && negb override_flag
    then log [showerror ResetTimeExceeds] app
    else
      let built : M Vendor :=
        '(d, h, m) ← lift (_clamp_reset_inputs (PInt d_raw) (PInt h_raw)
                             (PInt m_raw) override_flag);
        last_reset ← lift (calculate_last_reset now (PInt d) (PInt h)
                             (PInt m) override_flag);
        let reset_maximum := council in
        let final_cats := dedupe selected_cats in
        Vendor_init now (PStr name) (PStr zone) (PInt council)
          (PDatetime last_reset) (PInt reset_maximum)
          (PList (map PStr final_cats)) in
      match built with
      | (out, Raise e) =>
          log (out ++ [print (ErrorAddingVendor e);
                       showerror (ErrorAddingVendor e)]) app
      | (out, Ok new_vendor) =>
          save_and_report
            [showinfo (VendorAdded (PStr name))]
            ErrorAddingVendor
            (log out (set_vendors (vendors app ++ [new_vendor]) app))
      end.

(** [delete_vendor]; [confirm] is the answer to the dialog. *)
Definition delete_vendor (vendor_to_delete : Vendor) (confirm : bool)
    (app : App) : App :=
  if confirm then
    save_and_report
      [showinfo (VendorDeleted (name vendor_to_delete))]
      ErrorDeletingVendor
      (set_vendors
         (filter (fun v => py_eq (name v) (name vendor_to_delete) = false)
                 (vendors app))
         app)
  else app.

(** The update dialog holds a reference to one vendor object of the
    collection; [i] is the position of that object in [self.vendors]. *)

(** [reset_now] *)
Definition reset_now (i : nat) (confirm : bool) (now : Z) (app : App) : App :=
  match vendors app !! i with
  | None => app
  | Some vendor =>
      if confirm then
        let vendor1 :=
          {| name := name vendor; zone := zone vendor;
             council_left := council_left vendor; last_reset := now;
             reset_maximum := reset_maximum vendor;
             categories := categories vendor |} in
        let vendor2 :=
          if reset_maximum vendor1 >? 0 then
            {| name := name vendor1; zone := zone vendor1;
               council_left := reset_maximum vendor1;
               last_reset := last_reset vendor1;
               reset_maximum := reset_maximum vendor1;
               categories := categories vendor1 |}
          else vendor1 in
        save_and_report
          [showinfo (VendorReset (name vendor))]
          ErrorResettingVendor
          (set_vendors (<[i := vendor2]> (vendors app)) app)
      else app
  end.

(** [update_vendor_action]; [selected_cats] are the ticked categories
    followed by the comma-separated custom ones. *)
Definition update_vendor_action (i : nat) (now : Z) (new_council : Z)
    (d_raw h_raw m_raw : Z) (override_flag : bool)
    (selected_cats : list string) (app : App) : App :=
  match vendors app !! i with
  | None => app
  | Some vendor =>
      let total_minutes := d_raw * 24 * 60 + h_raw * 60 + m_raw in
      if (total_minutes >? MAX_TOTAL_MINUTES) && negb override_flag
      then log [showerror ResetTimeExceeds] app
      else
        match _clamp_reset_inputs (PInt d_raw) (PInt h_raw) (PInt m_raw)
                override_flag with
        | Raise e =>
            log [print (ErrorUpdatingVendor e);
                 showerror (ErrorUpdatingVendor e)] app
        | Ok (d, h, m) =>
            let vendor1 :=
              {| name := name vendor; zone := zone vendor;
                 council_left := new_council;
                 last_reset := last_reset vendor;
                 reset_maximum :=
                   if new_council >? reset_maximum vendor
                   then new_council else reset_maximum vendor;
                 categories := categories vendor |} in
            match calculate_last_reset now (PInt d) (PInt h) (PInt m)
                    override_flag with
            | Raise e =>
                log [print (ErrorUpdatingVendor e);
                     showerror (ErrorUpdatingVendor e)]
                    (set_vendors (<[i := vendor1]> (vendors app)) app)
            | Ok last_reset' =>
                let vendor2 :=
                  {| name := name vendor1; zone := zone vendor1;
                     council_left := council_left vendor1;
                     last_reset := last_reset';
                     reset_maximum := reset_maximum vendor1;
                     categories := PList (map PStr (dedupe selected_cats)) |} in
                save_and_report
                  [showinfo (VendorUpdated (name vendor))]
                  ErrorUpdatingVendor
                  (set_vendors (<[i := vendor2]> (vendors app)) app)
            end
        end
  end.

End WithRuntime.

End PGVendorManager.

(** ** vendor_tracker7.py *)

Module vendor_tracker7.

Definition DATA_DIR : string := "character_data".

Record Vendor := {
  name : pyval;
  zone : pyval;
  council_left : pyval;
  last_reset : Z;
  reset_maximum : pyval;
  categories : pyval;
}.

Definition next_reset (v : Vendor) : Z := last_reset v + timedelta 7 0 0.

Section WithRuntime.
Context `{Runtime}.

(** [Vendor.__init__] *)
Definition Vendor_init
    (name zone council_left last_reset reset_maximum categories : pyval)
  : result Vendor :=
  last_reset' ←
    match last_reset with
    | PStr s =>
        match fromisoformat s with
        | Some t => Ok t
        | None => Raise ValueError
        end
    | PDatetime t => Ok t
    | _ => Raise ValueError
    end;
  reset_maximum' ← py_max council_left reset_maximum;
  mret {| name := name; zone := zone; council_left := council_left;
          last_reset := last_reset'; reset_maximum := reset_maximum';
          categories := or_ categories (PList []) |}.

Definition to_dict (v : Vendor) : pyval :=
  PDict [("name", name v);
         ("zone", zone v);
         ("council_left", council_left v);
         ("last_reset", PStr (isoformat (last_reset v)));
         ("reset_maximum", reset_maximum v);
         ("categories", categories v)]%string.

(** [vendor_dict[key]] *)
Definition subscript (vendor_dict : pyval) (key : string) : result pyval :=
  match vendor_dict with
  | PDict d =>
      match dict_lookup d key with
      | Some v => Ok v
      | None => Raise KeyError
      end
  | _ => Raise TypeError
  end.

(** [vendor_dict.get(key, default)] *)
Definition get (vendor_dict : pyval) (key : string) (default : pyval)
  : result pyval :=
  match vendor_dict with
  | PDict d => Ok (dict_get d key default)
  | _ => Raise AttributeError
  end.

Definition from_dict (vendor_dict : pyval) : result Vendor :=
  name ← subscript vendor_dict "name";
  zone ← subscript vendor_dict "zone";
  council_left ← get vendor_dict "council_left" (PInt 0);
  last_reset ← subscript vendor_dict "last_reset";
  reset_maximum ← get vendor_dict "reset_maximum" (PInt 0);
  categories ← get vendor_dict "categories" (PList []);
  Vendor_init name zone council_left last_reset reset_maximum categories.

Definition file_path_of (character_name : string) : string :=
  path_join DATA_DIR (character_name ++ "_vendors.json")%string.

(** The list comprehension [[Vendor.from_dict(v) for v in data]]. *)
Fixpoint from_dicts (entries : list pyval) : result (list Vendor) :=
  match entries with
  | [] => Ok []
  | v :: entries' =>
      vendor ← from_dict v;
      vendors ← from_dicts entries';
      mret (vendor :: vendors)
  end.

(** [load_vendors] *)
Definition load_vendors (files : gmap string file) (character_name : string)
  : result (list Vendor) :=
  let file_path := file_path_of character_name in
  match files !! file_path with
  | None => Ok []
  | Some f =>
      let body :=
        data ← match f with
                 | JsonDocument data => Ok data
                 | MalformedText => Raise JSONDecodeError
                 | Unreadable => Raise OSError
                 | Undecodable => Raise UnicodeDecodeError
                 | NestedTooDeep => Raise RecursionError
                 end;
        entries ← py_iter data;
        from_dicts entries in
      match body with
      | Raise FileNotFoundError | Raise JSONDecodeError => Ok []
      | r => r
      end
  end.

(** [save_vendors]: nothing is handled. *)
Definition save_vendors (files : gmap string file) (vendors : list Vendor)
    (character_name : string) : gmap string file * result unit :=
  let file_path := file_path_of character_name in
  let vendor_list_of_dicts := PList (map to_dict vendors) in
  if json_serializable vendor_list_of_dicts
  then (<[file_path := JsonDocument vendor_list_of_dicts]> files, Ok tt)
  else (<[file_path := MalformedText]> files, Raise TypeError).

Definition _clamp_reset_inputs (days hours minutes : pyval)
  : result (Z * Z * Z) :=
  let parsed :=
    d ← py_int (or_ days (PInt 0));
    h ← py_int (or_ hours (PInt 0));
    m ← py_int (or_ minutes (PInt 0));
    mret (Z.max 0 (Z.min 6 d), Z.max 0 (Z.min 23 h), Z.max 0 (Z.min 59 m)) in
  match parsed with
  | Raise ValueError => Ok (0, 0, 0)
  | r => r
  end.

Definition calculate_last_reset (now : Z) (days hours minutes : pyval)
  : result Z :=
  '(d, h, m) ← _clamp_reset_inputs days hours minutes;
  let time_until_reset := timedelta d h m in
  let time_since_last_reset := timedelta 7 0 0 - time_until_reset in
  Ok (now - time_since_last_reset).

(** *** The application.  No callback handles an exception: it leaves the
    callback with the changes made so far in place. *)

Record App := {
  vendors : list Vendor;
  current_character : string;
  files : gmap string file;
  console : list event;
}.

Definition log (out : list event) (app : App) : App :=
  {| vendors := vendors app; current_character := current_character app;
     files := files app; console := console app ++ out |}.

Definition set_vendors (vs : list Vendor) (app : App) : App :=
  {| vendors := vs; current_character := current_character app;
     files := files app; console := console app |}.

Definition save_and_report (done : list event) (app : App)
  : App * result unit :=
  let '(files', r) :=
    save_vendors (files app) (vendors app) (current_character app) in
  let app' :=
    {| vendors := vendors app; current_character := current_character app;
       files := files'; console := console app |} in
  match r with
  | Ok _ => (log done app', Ok tt)
  | Raise e => (app', Raise e)
  end.

(** [add_and_save]: [d_raw], [h_raw], [m_raw] are the texts of the entry
    fields, [selected_cats] the ticked categories. *)
Definition add_and_save (now : Z) (name zone : string) (council : Z)
    (d_raw h_raw m_raw : string) (selected_cats : list string) (app : App)
  : App * result unit :=
  if String.eqb name "" then (log [showerror VendorNameEmpty] app, Ok tt)
  else
    let built :=
      '(d, h, m) ← _clamp_reset_inputs (PStr d_raw) (PStr h_raw) (PStr m_raw);
      last_reset ← calculate_last_reset now (PInt d) (PInt h) (PInt m);
      let reset_maximum := council in
      Vendor_init (PStr name) (PStr zone) (PInt council)
        (PDatetime last_reset) (PInt reset_maximum)
        (PList (map PStr selected_cats)) in
    match built with
    | Raise e => (app, Raise e)
    | Ok new_vendor =>
        save_and_report [showinfo (VendorAdded (PStr name))]
          (set_vendors (vendors app ++ [new_vendor]) app)
    end.

(** [delete_vendor] *)
Definition delete_vendor (vendor_to_delete : Vendor) (confirm : bool)
    (app : App) : App * result unit :=
  if confirm then
    save_and_report [showinfo (VendorDeleted (name vendor_to_delete))]
      (set_vendors
         (filter (fun v => py_eq (name v) (name vendor_to_delete) = false)
                 (vendors app))
         app)
  else (app, Ok tt).

(** [reset_now]; [i] is the position in [self.vendors] of the vendor
    object the dialog was opened for. *)
Definition reset_now (i : nat) (confirm : bool) (now : Z) (app : App)
  : App * result unit :=
  match vendors app !! i with
  | None => (app, Ok tt)
  | Some vendor =>
      if confirm then
        let vendor1 :=
          {| name := name vendor; zone := zone vendor;
             council_left := council_left vendor; last_reset := now;
             reset_maximum := reset_maximum vendor;
             categories := categories vendor |} in
        match py_gt (reset_maximum vendor1) (PInt 0) with
        | Raise e => (set_vendors (<[i := vendor1]> (vendors app)) app, Raise e)
        | Ok positive =>
            let vendor2 :=
              if positive then
                {| name := name vendor1; zone := zone vendor1;
                   council_left := reset_maximum vendor1;
                   last_reset := last_reset vendor1;
                   reset_maximum := reset_maximum vendor1;
                   categories := categories vendor1 |}
              else vendor1 in
            save_and_report [showinfo (VendorReset (name vendor))]
              (set_vendors (<[i := vendor2]> (vendors app)) app)
        end
      else (app, Ok tt)
  end.

(** [update_vendor]; [selected_cats] are the ticked categories followed by
    the custom one. *)
Definition update_vendor (i : nat) (now : Z) (new_council : Z)
    (d_raw h_raw m_raw : string) (selected_cats : list string) (app : App)
  : App * result unit :=
  match vendors app !! i with
  | None => (app, Ok tt)
  | Some vendor =>
      match _clamp_reset_inputs (PStr d_raw) (PStr h_raw) (PStr m_raw) with
      | Raise e => (app, Raise e)
      | Ok (d, h, m) =>
          let vendor1 :=
            {| name := name vendor; zone := zone vendor;
               council_left := PInt new_council;
               last_reset := last_reset vendor;
               reset_maximum := reset_maximum vendor;
               categories := categories vendor |} in
          match py_gt (PInt new_council) (reset_maximum vendor1) with
          | Raise e =>
              (set_vendors (<[i := vendor1]> (vendors app)) app, Raise e)
          | Ok larger =>
              let vendor2 :=
                {| name := name vendor1; zone := zone vendor1;
                   council_left := council_left vendor1;
                   last_reset := last_reset vendor1;
                   reset_maximum :=
                     if larger then PInt new_council
                     else reset_maximum vendor1;
                   categories := categories vendor1 |} in
              match calculate_last_reset now (PInt d) (PInt h) (PInt m) with
              | Raise e =>
                  (set_vendors (<[i := vendor2]> (vendors app)) app, Raise e)
              | Ok last_reset' =>
                  let vendor3 :=
                    {| name := name vendor2; zone := zone vendor2;
                       council_left := council_left vendor2;
                       last_reset := last_reset';
                       reset_maximum := reset_maximum vendor2;
                       categories :=
                         PList (map PStr (dedupe selected_cats)) |} in
                  save_and_report [showinfo (VendorUpdated (name vendor))]
                    (set_vendors (<[i := vendor3]> (vendors app)) app)
              end
          end
      end
  end.

End WithRuntime.

End vendor_tracker7.

(** ** A runtime to run the embedding on

    CPython on a POSIX system whose local time is UTC, as far as the
    examples below need it: [datetime] by the algorithms of the library's
    [datetime.py], counted from 0001-01-01T00:00:00; [fromisoformat]
    reads the format [isoformat] writes for naive values (CPython reads
    further spellings of a date); [int] and [float] read plain decimal
    integers (CPython reads further spellings of a number). *)

Module Reference.

Definition is_leap (year : Z) : bool :=
  (year mod 4 =? 0) && (negb (year mod 100 =? 0) || (year mod 400 =? 0)).

Definition days_before_year (year : Z) : Z :=
  let y := year - 1 in y * 365 + y / 4 - y / 100 + y / 400.

Definition DAYS_IN_MONTH (month : Z) : Z :=
  match month with
  | 1 => 31 | 2 => 28 | 3 => 31 | 4 => 30 | 5 => 31 | 6 => 30
  | 7 => 31 | 8 => 31 | 9 => 30 | 10 => 31 | 11 => 30 | 12 => 31
  | _ => -1
  end.

Definition DAYS_BEFORE_MONTH (month : Z) : Z :=
  match month with
  | 1 => 0 | 2 => 31 | 3 => 59 | 4 => 90 | 5 => 120 | 6 => 151
  | 7 => 181 | 8 => 212 | 9 => 243 | 10 => 273 | 11 => 304 | 12 => 334
  | _ => -1
  end.

Definition days_in_month (year month : Z) : Z :=
  if (month =? 2) && is_leap year then 29 else DAYS_IN_MONTH month.

Definition days_before_month (year month : Z) : Z :=
  DAYS_BEFORE_MONTH month + (if (month >? 2) && is_leap year then 1 else 0).

Definition ymd2ord (year month day : Z) : Z :=
  days_before_year year + days_before_month year month + day.

Definition DI400Y : Z := 146097.
Definition DI100Y : Z := 36524.
Definition DI4Y : Z := 1461.

Definition ord2ymd (n : Z) : Z * Z * Z :=
  let n := n - 1 in
  let n400 := n / DI400Y in
  let n := n mod DI400Y in
  let year := n400 * 400 + 1 in
  let n100 := n / DI100Y in
  let n := n mod DI100Y in
  let n4 := n / DI4Y in
  let n := n mod DI4Y in
  let n1 := n / 365 in
  let n := n mod 365 in
  let year := year + n100 * 100 + n4 * 4 + n1 in
  if (n1 =? 4) || (n100 =? 4) then (year - 1, 12, 31)
  else
    let leapyear := (n1 =? 3) && (negb (n4 =? 24) || (n100 =? 3)) in
    let month := Z.shiftr (n + 50) 5 in
    let preceding :=
      DAYS_BEFORE_MONTH month + (if (month >? 2) && leapyear then 1 else 0) in
    if preceding >? n
    then
      let month := month - 1 in
      let preceding :=
        preceding
        - (DAYS_IN_MONTH month + (if (month =? 2) && leapyear then 1 else 0)) in
      (year, month, n - preceding + 1)
    else (year, month, n - preceding + 1).

(** The checks of one ordinal of the first 400 years, and of [count]
    ordinals from [n] on. *)
Definition ordinal_ok (n : Z) : bool :=
  let '(y, m, d) := ord2ymd n in
  (1 <=? y) && (y <=? 400) && ((145731 <? n) || (y <=? 399))
  && (1 <=? m) && (m <=? 12) && (1 <=? d) && (d <=? days_in_month y m)
  && (ymd2ord y m d =? n).

Fixpoint ordinals_ok (count : nat) (n : Z) : bool :=
  match count with
  | O => true
  | S count' => if ordinal_ok n then ordinals_ok count' (n + 1) else false
  end.

(** Microseconds in a day, and the first instant after [datetime.max]. *)
Definition DAY : Z := 86400 * 1000000.
Definition MAXORDINAL : Z := 3652059.
Definition END_OF_TIME : Z := MAXORDINAL * DAY.

Definition digit_char (n : Z) : ascii := ascii_of_nat (48 + Z.to_nat n).

Definition digit_val (c : ascii) : option Z :=
  let k := Z.of_nat (nat_of_ascii c) in
  if (48 <=? k) && (k <=? 57) then Some (k - 48) else None.

(** [n] in [width] decimal digits, before [rest]. *)
Fixpoint fmt_digits (width : nat) (n : Z) (rest : string) : string :=
  match width with
  | O => rest
  | S w => fmt_digits w (n / 10) (String (digit_char (n mod 10)) rest)
  end.

(** Exactly [width] decimal digits off the front of [s]. *)
Fixpoint read_digits (width : nat) (acc : Z) (s : string)
  : option (Z * string) :=
  match width with
  | O => Some (acc, s)
  | S w =>
      match s with
      | String c s' =>
          match digit_val c with
          | Some d => read_digits w (acc * 10 + d) s'
          | None => None
          end
      | EmptyString => None
      end
  end.

Definition expect (c : ascii) (s : string) : option string :=
  match s with
  | String c' s' => if Ascii.eqb c c' then Some s' else None
  | EmptyString => None
  end.

(** [YYYY-MM-DDTHH:MM:SS], followed by [.ffffff] unless the microseconds
    are zero. *)
Definition isoformat (t : Z) : string :=
  let '(year, month, day) := ord2ymd (t / DAY + 1) in
  let r := t mod DAY in
  let hour := r / 3600000000 in
  let minute := r / 60000000 mod 60 in
  let second := r / 1000000 mod 60 in
  let microsecond := r mod 1000000 in
  fmt_digits 4 year (String "-" (
  fmt_digits 2 month (String "-" (
  fmt_digits 2 day (String "T" (
  fmt_digits 2 hour (String ":" (
  fmt_digits 2 minute (String ":" (
  fmt_digits 2 second (
    if microsecond =? 0 then EmptyString
    else String "." (fmt_digits 6 microsecond EmptyString)))))))))))).

Definition fromisoformat (s : string) : option Z :=
  '(year, s) ← read_digits 4 0 s;
  s ← expect "-" s;
  '(month, s) ← read_digits 2 0 s;
  s ← expect "-" s;
  '(day, s) ← read_digits 2 0 s;
  s ← expect "T" s;
  '(hour, s) ← read_digits 2 0 s;
  s ← expect ":" s;
  '(minute, s) ← read_digits 2 0 s;
  s ← expect ":" s;
  '(second, s) ← read_digits 2 0 s;
  microsecond ←
    match s with
    | EmptyString => Some 0
    | String "." s' =>
        '(us, s'') ← read_digits 6 0 s';
        match s'' with EmptyString => Some us | _ => None end
    | _ => None
    end;
  if (1 <=? year) && (1 <=? month) && (month <=? 12)
     && (1 <=? day) && (day <=? days_in_month year month)
     && (hour <=? 23) && (minute <=? 59) && (second <=? 59)
  then Some ((ymd2ord year month day - 1) * DAY
             + ((hour * 60 + minute) * 60 + second) * 1000000 + microsecond)
  else None.

(** Decimal integers: an optional sign and at least one digit. *)
Fixpoint read_all_digits (acc : Z) (s : string) : option Z :=
  match s with
  | EmptyString => Some acc
  | String c s' =>
      match digit_val c with
      | Some d => read_all_digits (acc * 10 + d) s'
      | None => None
      end
  end.

Definition int_of_str (s : string) : option Z :=
  match s with
  | EmptyString => None
  | String "-" (String c s') => Z.opp <$> read_all_digits 0 (String c s')
  | String "+" (String c s') => read_all_digits 0 (String c s')
  | _ => read_all_digits 0 s
  end.

(** 1970-01-01T00:00:00 *)
Definition EPOCH : Z := (ymd2ord 1970 1 1 - 1) * DAY.

Definition fromtimestamp_float (s : string) : result Z :=
  match int_of_str s with
  | None => Raise ValueError
  | Some seconds =>
      let t := EPOCH + seconds * 1000000 in
      if (0 <=? t) && (t <? END_OF_TIME) then Ok t else Raise ValueError
  end.

(** [str.isalnum] and [str.isspace] on code points below 256. *)
Definition isalnum (c : ascii) : bool :=
  let k := Z.of_nat (nat_of_ascii c) in
  ((48 <=? k) && (k <=? 57)) || ((65 <=? k) && (k <=? 90))
  || ((97 <=? k) && (k <=? 122))
  || (k =? 170) || (k =? 178) || (k =? 179) || (k =? 181) || (k =? 185)
  || (k =? 186) || ((188 <=? k) && (k <=? 190))
  || ((192 <=? k) && (k <=? 214)) || ((216 <=? k) && (k <=? 246))
  || (248 <=? k).

Definition isspace (c : ascii) : bool :=
  let k := Z.of_nat (nat_of_ascii c) in
  ((9 <=? k) && (k <=? 13)) || ((28 <=? k) && (k <=? 32))
  || (k =? 133) || (k =? 160).

(** [==] and [>], through the containers. *)
Fixpoint equal (a b : pyval) {struct a} : bool :=
  match as_number a, as_number b with
  | Some x, Some y => x =? y
  | _, _ =>
      match a, b with
      | PNone, PNone => true
      | PStr s1, PStr s2 => String.eqb s1 s2
      | PDatetime t1, PDatetime t2 => t1 =? t2
      | PList l1, PList l2 =>
          (fix items (l1 l2 : list pyval) : bool :=
             match l1, l2 with
             | [], [] => true
             | x :: l1', y :: l2' => equal x y && items l1' l2'
             | _, _ => false
             end) l1 l2
      | PDict d1, PDict d2 =>
          (length d1 =? length d2)%nat &&
          (fix items (d1 : list (string * pyval)) : bool :=
             match d1 with
             | [] => true
             | (k, x) :: d1' =>
                 match dict_lookup d2 k with
                 | Some y => equal x y
                 | None => false
                 end && items d1'
             end) d1
      | _, _ => false
      end
  end.

Fixpoint greater (a b : pyval) {struct a} : result bool :=
  match as_number a, as_number b with
  | Some x, Some y => Ok (x >? y)
  | _, _ =>
      match a, b with
      | PStr s1, PStr s2 =>
          Ok (match String.compare s1 s2 with Gt => true | _ => false end)
      | PDatetime t1, PDatetime t2 => Ok (t1 >? t2)
      | PList l1, PList l2 =>
          (fix items (l1 l2 : list pyval) : result bool :=
             match l1, l2 with
             | [], _ => Ok false
             | _ :: _, [] => Ok true
             | x :: l1', y :: l2' =>
                 if equal x y then items l1' l2' else greater x y
             end) l1 l2
      | _, _ => Raise TypeError
      end
  end.

Definition runtime : Runtime := {|
  Py.int_of_str := int_of_str;
  Py.isoformat := isoformat;
  Py.fromisoformat := fromisoformat;
  Py.fromtimestamp_float := fromtimestamp_float;
  Py.isalnum := isalnum;
  Py.isspace := isspace;
  Py.container_eq := equal;
  Py.list_gt := fun l1 l2 => greater (PList l1) (PList l2);
  Py.script_dir := "/home/player/PGVendorManager";
|}.

End Reference.

(** ** The rest of the two windows

    What the list, the timers, the dialogs and the character menu compute,
    on the definitions above.  Widgets are left out; what they show is
    returned. *)

Module PyText.

(** [s.lower()], and [str(v)] for a value that is not a [str]. *)
Class Text := {
  lower : string -> string;
  str_other : pyval -> string;
}.

(** [f"{v}"] *)
Definition py_str `{Text} (v : pyval) : string :=
  match v with
  | PStr s => s
  | _ => str_other v
  end.

(** [s.lstrip()] and [s.strip()] *)
Fixpoint lstrip `{Runtime} (s : string) : string :=
  match s with
  | EmptyString => EmptyString
  | String c s' => if isspace c then lstrip s' else s
  end.

Definition strip `{Runtime} (s : string) : string := lstrip (rstrip s).

(** [needle in hay] *)
Fixpoint contains (needle hay : string) : bool :=
  String.prefix needle hay ||
  match hay with
  | EmptyString => false
  | String _ hay' => contains needle hay'
  end.

(** [sep.join(v)]: every item has to be a [str]. *)
Fixpoint join_items (sep : string) (items : list pyval) : result string :=
  match items with
  | [] => Ok EmptyString
  | PStr s :: items' =>
      match items' with
      | [] => Ok s
      | _ => rest ← join_items sep items'; mret (s ++ sep ++ rest)%string
      end
  | _ => Raise TypeError
  end.

Definition join (sep : string) (v : pyval) : result string :=
  items ← py_iter v; join_items sep items.

(** [sorted(l, key=...)] and [l.sort()]: the one stable ascending order;
    [le a b] says that [b] is not less than [a]. *)
Section Sorted.
Context {A : Type} (le : A -> A -> bool).

Fixpoint insert_sorted (x : A) (l : list A) : list A :=
  match l with
  | [] => [x]
  | y :: l' => if le x y then x :: y :: l' else y :: insert_sorted x l'
  end.

Fixpoint sorted (l : list A) : list A :=
  match l with
  | [] => []
  | x :: l' => insert_sorted x (sorted l')
  end.

End Sorted.

(** [td.days] and [td.seconds] of a [timedelta] of [td] microseconds. *)
Definition DAY : Z := timedelta 1 0 0.
Definition td_days (td : Z) : Z := td / DAY.
Definition td_seconds (td : Z) : Z := td mod DAY / 1000000.

(** The text of a countdown: ["RESET PENDING!"] or
    ["{days} days, {hours}h, {minutes}m"]. *)
Inductive time_str :=
| RESET_PENDING
| time_left (days hours minutes : Z).

(** [time_diff.total_seconds() > 0] is [time_diff > 0]. *)
Definition countdown (time_diff : Z) : time_str :=
  if time_diff >? 0 then
    let days := td_days time_diff in
    let hours := td_seconds time_diff / 3600 in
    let minutes := td_seconds time_diff mod 3600 / 60 in
    time_left days hours minutes
  else RESET_PENDING.

(** Messages of the functions below. *)
Inductive ui_message :=
| ErrorUpdatingVendorList (e : exn)
| ErrorChangingCharacter (e : exn)
| CharacterNameEmpty
| CharacterNameNotAlphanumeric
| CharacterExists
| ErrorCopyingDefault (e : exn)
| ErrorSavingOnClose (e : exn).

Inductive ui_event :=
| ui_print (m : ui_message)
| ui_showerror (m : ui_message).

End PyText.

Import PyText.

Module PGVendorManagerUI.
Import PGVendorManager.

Section WithRuntime.
Context `{Runtime} `{Text}.

(** The name [character_file_path] puts into the file name. *)
Definition safe_name (character_name : string) : string :=
  rstrip (filter_chars
            (fun c => isalnum c
                      || Ascii.eqb c " " || Ascii.eqb c "-" || Ascii.eqb c "_")
            character_name).

(** The text of a vendor that the filter is looked for in. *)
Definition search_blob (v : Vendor) : result string :=
  cats ← join " " (categories v);
  mret (lower (py_str (name v) ++ " " ++ py_str (zone v) ++ " " ++ cats)).

(** The filter loop of [update_vendor_list]. *)
Fixpoint filter_loop (query : string) (vendors filtered : list Vendor)
  : result (list Vendor) :=
  match vendors with
  | [] => Ok filtered
  | v :: vendors' =>
      blob ← search_blob v;
      filter_loop query vendors'
        (if contains query blob then filtered ++ [v] else filtered)
  end.

(** One frame of the list: the border of its cluster, its background and
    the vendor it is for. *)
Record row := {
  border_color : option string;
  bg : string;
  row_vendor : Vendor;
}.

Definition cluster_border (total_clusters i : nat) : option string :=
  if (3 <=? total_clusters)%nat then
    if (i =? 0)%nat then Some "#32CD32"%string
    else if (i =? total_clusters - 1)%nat then Some "#8B0000"%string
    else None
  else None.

Definition row_bg (now : Z) (vendor : Vendor) : string :=
  if council_left vendor =? 0 then "#D3D3D3"
  else if next_reset vendor - now <=? 0 then "#90EE90"
  else "SystemButtonFace".

(** [update_vendor_list]: the frames it builds, top to bottom, and what it
    reports; [filter_text] is the text of the filter field. *)
Definition update_vendor_list (filter_text : string) (now : Z)
    (vendors : list Vendor) : list ui_event * list row :=
  let query := strip (lower filter_text) in
  match filter_loop query vendors [] with
  | Raise e =>
      ([ui_print (ErrorUpdatingVendorList e);
        ui_showerror (ErrorUpdatingVendorList e)], [])
  | Ok filtered =>
      let sorted_vendors :=
        sorted (fun x y => next_reset x <=? next_reset y) filtered in
      let clusters := _group_vendors_by_reset_time next_reset sorted_vendors in
      let total_clusters := length clusters in
      ([], concat (imap (fun i cluster =>
                           map (fun vendor =>
                                  {| border_color :=
                                       cluster_border total_clusters i;
                                     bg := row_bg now vendor;
                                     row_vendor := vendor |}) cluster)
                     clusters))
  end.

(** [update_timers]: the countdown of each frame, looked up by the name
    of its vendor ([None]: the label is left as it is), and the countdown
    to the earliest reset ([None]: ["--"]). *)
Definition frame_timer (now : Z) (vendors : list Vendor) (vname : pyval)
  : option time_str :=
  match find (fun x => py_eq (name x) vname) vendors with
  | Some vendor => Some (countdown (next_reset vendor - now))
  | None => None
  end.

Definition next_reset_timer (now : Z) (vendors : list Vendor)
  : option time_str :=
  match vendors with
  | [] => None
  | v :: vendors' =>
      let next_reset :=
        fold_left (fun m x => if next_reset x <? m then next_reset x else m)
          vendors' (next_reset v) in
      Some (countdown (next_reset - now))
  end.

Definition update_timers (now : Z) (frames : list row) (vendors : list Vendor)
  : list (option time_str) * option time_str :=
  (map (fun r => frame_timer now vendors (name (row_vendor r))) frames,
   next_reset_timer now vendors).

(** [update_total_values]: the two sums it shows. *)
Definition total_values (vendors : list Vendor) : Z * Z :=
  (fold_left Z.add (map council_left vendors) 0,
   fold_left Z.add (map reset_maximum vendors) 0).

(** The time fields [open_update_vendor_window] starts with. *)
Definition initial_time (now : Z) (vendor : Vendor) : Z * Z * Z :=
  let time_diff := next_reset vendor - now in
  let init_days := Z.max 0 (td_days time_diff) in
  let init_hours := Z.max 0 (td_seconds time_diff / 3600) in
  let init_minutes := Z.max 0 (td_seconds time_diff mod 3600 / 60) in
  (init_days, init_hours, init_minutes).

(** [on_char_change], run when the character variable is written;
    [selected] is its new value. *)
Definition on_char_change (now : Z) (selected : string) (app : App)
  : App * list ui_event :=
  let app1 :=
    {| vendors := vendors app; current_character := selected;
       files := files app; console := console app |} in
  match load_vendors (files app1) now selected with
  | (out, Ok loaded) => (log out (set_vendors loaded app1), [])
  | (out, Raise e) =>
      (log out app1,
       [ui_print (ErrorChangingCharacter e);
        ui_showerror (ErrorChangingCharacter e)])
  end.

(** [add_new_character]; [answer] is what the dialog returned, [None]
    when it was cancelled. *)
Definition add_new_character (now : Z) (answer : option string)
    (characters : list string) (app : App)
  : list string * App * list ui_event :=
  match answer with
  | None => (characters, app, [])
  | Some name =>
      if String.eqb name "" then (characters, app, [])
      else if String.eqb (strip name) ""
      then (characters, app, [ui_showerror CharacterNameEmpty])
      else
        let safe_name :=
          strip (filter_chars
                   (fun c => isalnum c || Ascii.eqb c " "
                             || Ascii.eqb c "-" || Ascii.eqb c "_")
                   name) in
        if String.eqb safe_name ""
        then (characters, app, [ui_showerror CharacterNameNotAlphanumeric])
        else if existsb (String.eqb safe_name) characters
        then (characters, app, [ui_showerror CharacterExists])
        else
          let characters' := sorted String.leb (characters ++ [safe_name]) in
          let '(app1, shown) := on_char_change now safe_name app in
          let default_path := character_file_path DEFAULT_CHARACTER in
          match files app1 !! default_path with
          | None => (characters', app1, shown)
          | Some _ =>
              match load_vendors (files app1) now DEFAULT_CHARACTER with
              | (out, Raise e) =>
                  (characters', log out app1,
                   shown ++ [ui_print (ErrorCopyingDefault e)])
              | (out, Ok default_vendors) =>
                  let '(files', (out', r)) :=
                    save_vendors (files app1) default_vendors safe_name in
                  let app2 :=
                    {| vendors := vendors app1;
                       current_character := current_character app1;
                       files := files';
                       console := console app1 ++ out ++ out' |} in
                  match r with
                  | Ok _ => (characters', app2, shown)
                  | Raise e =>
                      (characters', app2,
                       shown ++ [ui_print (ErrorCopyingDefault e)])
                  end
              end
          end
  end.

(** [on_closing] *)
Definition on_closing (app : App) : App * list ui_event :=
  let '(files', (out, r)) :=
    save_vendors (files app) (vendors app) (current_character app) in
  let app' :=
    {| vendors := vendors app; current_character := current_character app;
       files := files'; console := console app ++ out |} in
  match r with
  | Ok _ => (app', [])
  | Raise e => (app', [ui_print (ErrorSavingOnClose e)])
  end.

End WithRuntime.

End PGVendorManagerUI.

Module vendor_tracker7UI.
Import vendor_tracker7.

Section WithRuntime.
Context `{Runtime}.

(** [on_char_change], up to the load; the redrawing that follows changes
    nothing of the application and is left out, as above. *)
Definition on_char_change (selected : string) (app : App)
  : App * result unit :=
  let app1 :=
    {| vendors := vendors app; current_character := selected;
       files := files app; console := console app |} in
  match load_vendors (files app1) selected with
  | Ok loaded => (set_vendors loaded app1, Ok tt)
  | Raise e => (app1, Raise e)
  end.

(** [add_new_character]; [answer] is what the dialog returned. *)
Definition add_new_character (answer : option string)
    (characters : list string) (app : App)
  : list string * App * list ui_event * result unit :=
  match answer with
  | None => (characters, app, [], Ok tt)
  | Some new_char =>
      if String.eqb new_char "" then (characters, app, [], Ok tt)
      else if negb (forallb isalnum (list_ascii_of_string new_char))
      then (characters, app, [ui_showerror CharacterNameNotAlphanumeric],
            Ok tt)
      else if existsb (String.eqb new_char) characters
      then (characters, app, [ui_showerror CharacterExists], Ok tt)
      else
        let characters' := characters ++ [new_char] in
        let seeded : App * result unit :=
          if existsb (String.eqb "Default") characters'
             && negb (String.eqb new_char "Default")
          then
            match load_vendors (files app) "Default" with
            | Raise e => (app, Raise e)
            | Ok default_vendors =>
                let '(files', r) :=
                  save_vendors (files app) default_vendors new_char in
                ({| vendors := vendors app;
                    current_character := current_character app;
                    files := files'; console := console app |}, r)
            end
          else (app, Ok tt) in
        match seeded with
        | (app1, Raise e) => (characters', app1, [], Raise e)
        | (app1, Ok _) =>
            let '(app2, r) := on_char_change new_char app1 in
            (characters', app2, [], r)
        end
  end.

End WithRuntime.

End vendor_tracker7UI.

(** The texts of the runtime above: [lower] on code points below 256;
    [str] of [None], a [bool] and an [int] ([str] of other values is not
    spelled out, the examples have none). *)
Module ReferenceText.

Definition lower_char (c : ascii) : ascii :=
  let k := Z.of_nat (nat_of_ascii c) in
  if ((65 <=? k) && (k <=? 90)) || ((192 <=? k) && (k <=? 214))
     || ((216 <=? k) && (k <=? 222))
  then ascii_of_nat (nat_of_ascii c + 32)
  else c.

Fixpoint lower (s : string) : string :=
  match s with
  | EmptyString => EmptyString
  | String c s' => String (lower_char c) (lower s')
  end.

(** The decimal digits of a positive number, before [rest]; [fuel] bounds
    their number. *)
Fixpoint decimal (fuel : nat) (n : Z) (rest : string) : string :=
  match fuel with
  | O => rest
  | S fuel' =>
      let rest' := String (Reference.digit_char (n mod 10)) rest in
      if n <? 10 then rest' else decimal fuel' (n / 10) rest'
  end.

Definition str_int (z : Z) : string :=
  if z <? 0
  then String "-" (decimal (S (Z.to_nat (Z.log2 (- z)))) (- z) EmptyString)
  else decimal (S (Z.to_nat (Z.log2 z))) z EmptyString.

Definition str_other (v : pyval) : string :=
  match v with
  | PNone => "None"
  | PBool true => "True"
  | PBool false => "False"
  | PInt z => str_int z
  | _ => EmptyString
  end.

Definition text : Text := {|
  PyText.lower := lower;
  PyText.str_other := str_other;
|}.

End ReferenceText.

(** * Properties *)

From Stdlib Require Import ssreflect.

(** ** Clustering *)

Section ClusteringFacts.
Context {V : Type} (next_reset : V -> Z).

Local Abbreviation group_loop := (group_loop next_reset).
Local Abbreviation group := (_group_vendors_by_reset_time next_reset).

(** The accumulators only grow: the loop started from any [clusters] and
    [current] does what it does from scratch, after them. *)
Lemma group_loop_acc (rest : list V) : forall prev clusters current,
  group_loop prev rest clusters current =
  match group_loop prev rest [] [] with
  | ([], cur') => (clusters, current ++ cur')
  | (c :: cs', cur') => (clusters ++ (current ++ c) :: cs', cur')
  end.
Proof.
  induction rest as [|v rest IH]; intros prev clusters current; simpl.
  - by rewrite app_nil_r.
  - destruct (next_reset v - next_reset prev >? THRESH).
    + rewrite (IH v (clusters ++ [current]) [v]) (IH v [[]] [v]).
      destruct (group_loop v rest [] []) as [[|c cs'] cur']; simpl.
      * by rewrite app_nil_r.
      * rewrite app_nil_r. by rewrite <- app_assoc.
    + rewrite (IH v clusters (current ++ [v])) (IH v [] [v]).
      destruct (group_loop v rest [] []) as [[|c cs'] cur']; simpl.
      * by rewrite <- app_assoc.
      * by rewrite <- app_assoc.
Qed.

(** One more vendor at the end of the input: one more step of the loop. *)
Lemma group_loop_snoc (rest : list V) : forall prev a b clusters current,
  last (prev :: rest) = Some a ->
  group_loop prev (rest ++ [b]) clusters current =
  let '(clusters', current') := group_loop prev rest clusters current in
  if next_reset b - next_reset a >? THRESH
  then (clusters' ++ [current'], [b])
  else (clusters', current' ++ [b]).
Proof.
  induction rest as [|v rest IH]; intros prev a b clusters current Hlast.
  - simpl in Hlast. injection Hlast as ->. reflexivity.
  - simpl. destruct (next_reset v - next_reset prev >? THRESH);
      apply IH; exact Hlast.
Qed.

(** The current cluster is never empty. *)
Lemma group_loop_current (rest : list V) : forall prev clusters current,
  current <> [] -> snd (group_loop prev rest clusters current) <> [].
Proof.
  induction rest as [|v rest IH]; intros prev clusters current Hne; simpl.
  - exact Hne.
  - destruct (next_reset v - next_reset prev >? THRESH); apply IH.
    + discriminate.
    + by destruct current.
Qed.

Lemma group_cons (v0 : V) (rest : list V) :
  group (v0 :: rest) =
  fst (group_loop v0 rest [] [v0]) ++ [snd (group_loop v0 rest [] [v0])].
Proof.
  unfold _group_vendors_by_reset_time.
  pose proof (group_loop_current rest v0 [] [v0]) as Hne.
  destruct (group_loop v0 rest [] [v0]) as [clusters current]; simpl in *.
  destruct current; [exfalso; by apply Hne|reflexivity].
Qed.

Lemma last_snoc_cons (x : V) (l : list V) (a : V) :
  last (x :: l ++ [a]) = Some a.
Proof. by rewrite app_comm_cons last_snoc. Qed.

Lemma group_snoc (vs : list V) (a b : V) :
  group (vs ++ [a; b]) =
  let cs := fst (match vs ++ [a] with
                 | [] => ([], [])
                 | v0 :: rest => group_loop v0 rest [] [v0]
                 end) in
  let c := snd (match vs ++ [a] with
                | [] => ([], [])
                | v0 :: rest => group_loop v0 rest [] [v0]
                end) in
  if next_reset b - next_reset a >? THRESH
  then cs ++ [c] ++ [[b]]
  else cs ++ [c ++ [b]].
Proof.
  destruct vs as [|v0 vs]; simpl app.
  - rewrite group_cons. simpl.
    by destruct (next_reset b - next_reset a >? THRESH).
  - replace (vs ++ [a; b]) with ((vs ++ [a]) ++ [b])
      by (by rewrite -app_assoc).
    rewrite group_cons.
    rewrite (group_loop_snoc (vs ++ [a]) v0 a b [] [v0]
               (last_snoc_cons v0 vs a)).
    destruct (group_loop v0 (vs ++ [a]) [] [v0]) as [cs c]; simpl.
    destruct (next_reset b - next_reset a >? THRESH); simpl;
      by rewrite -?app_assoc.
Qed.

Lemma group_snoc_prefix (vs : list V) (a : V) :
  group (vs ++ [a]) =
  fst (match vs ++ [a] with
       | [] => ([], [])
       | v0 :: rest => group_loop v0 rest [] [v0]
       end) ++
  [snd (match vs ++ [a] with
        | [] => ([], [])
        | v0 :: rest => group_loop v0 rest [] [v0]
        end)].
Proof.
  destruct (vs ++ [a]) as [|v0 rest] eqn:E.
  - by destruct vs.
  - apply group_cons.
Qed.

(** The loop keeps every vendor, once, in its place. *)
Lemma group_loop_concat (rest : list V) : forall prev clusters current,
  concat (fst (group_loop prev rest clusters current))
    ++ snd (group_loop prev rest clusters current)
  = concat clusters ++ current ++ rest.
Proof.
  induction rest as [|v rest IH]; intros prev clusters current; simpl.
  - by rewrite app_nil_r.
  - destruct (next_reset v - next_reset prev >? THRESH); rewrite IH.
    + rewrite concat_app. simpl. by rewrite app_nil_r -app_assoc.
    + by rewrite -app_assoc.
Qed.

End ClusteringFacts.

(** C1.  The grouping walks the sequence of vendors (sorted by [next_reset]
    or not): the empty sequence gives no cluster, one vendor gives one
    cluster of that vendor, and each further vendor [b] after a vendor [a]
    opens a new cluster exactly when [next_reset b - next_reset a] is more
    than one hour, and is put at the end of the current cluster otherwise.
    Vendors whose next resets are [t], [t + 30 min], [t + 2 h] and
    [t + 2 h 10 min] come out as [[v0; v1]; [v2; v3]]. *)
Theorem group_by_reset_proximity {V : Type} (next_reset : V -> Z) :
  THRESH = 60 * 60 * 1000000 /\
  _group_vendors_by_reset_time next_reset [] = [] /\
  (forall v, _group_vendors_by_reset_time next_reset [v] = [[v]]) /\
  (forall vs a b,
     next_reset b - next_reset a > THRESH ->
     _group_vendors_by_reset_time next_reset (vs ++ [a; b]) =
     _group_vendors_by_reset_time next_reset (vs ++ [a]) ++ [[b]]) /\
  (forall vs a b,
     next_reset b - next_reset a <= THRESH ->
     exists clusters current,
       _group_vendors_by_reset_time next_reset (vs ++ [a]) =
         clusters ++ [current] /\
       _group_vendors_by_reset_time next_reset (vs ++ [a; b]) =
         clusters ++ [current ++ [b]]) /\
  (forall v0 v1 v2 v3 t,
     next_reset v0 = t ->
     next_reset v1 = t + timedelta 0 0 30 ->
     next_reset v2 = t + timedelta 0 2 0 ->
     next_reset v3 = t + timedelta 0 2 10 ->
     _group_vendors_by_reset_time next_reset [v0; v1; v2; v3] =
     [[v0; v1]; [v2; v3]]).
Proof.
  split; [reflexivity|].
  split; [reflexivity|].
  split; [reflexivity|].
  split; [|split].
  - intros vs a b Hgap.
    rewrite group_snoc group_snoc_prefix. cbv zeta.
    destruct (Z.gtb_spec (next_reset b - next_reset a) THRESH); [|lia].
    by rewrite -app_assoc.
  - intros vs a b Hgap.
    eexists _, _. split; [apply group_snoc_prefix|].
    rewrite group_snoc. cbv zeta.
    destruct (Z.gtb_spec (next_reset b - next_reset a) THRESH); [lia|].
    reflexivity.
  - intros v0 v1 v2 v3 t H0 H1 H2 H3.
    unfold _group_vendors_by_reset_time, group_loop.
    rewrite H0 H1 H2 H3. unfold THRESH, timedelta.
    repeat match goal with
           | |- context [?x >? ?y] => destruct (Z.gtb_spec x y); try lia
           end.
    reflexivity.
Qed.

(** The example of C1 on four vendors of [PGVendorManager.py]. *)
Lemma group_by_reset_proximity_witness :
  let v (n : string) (t : Z) :=
    PGVendorManager.Build_Vendor (PStr n) (PStr "Serbule") 0 t 0 (PList []) in
  _group_vendors_by_reset_time PGVendorManager.next_reset
    [v "a" 0; v "b" (timedelta 0 0 30); v "c" (timedelta 0 2 0);
     v "d" (timedelta 0 2 10)]
  = [[v "a" 0; v "b" (timedelta 0 0 30)];
     [v "c" (timedelta 0 2 0); v "d" (timedelta 0 2 10)]].
Proof.
  intros v.
  apply (proj2 (proj2 (proj2 (proj2 (proj2
           (group_by_reset_proximity PGVendorManager.next_reset)))))
           (v "a" 0) (v "b" (timedelta 0 0 30)) (v "c" (timedelta 0 2 0))
           (v "d" (timedelta 0 2 10)) (timedelta 7 0 0));
    reflexivity.
Defined.

(** C10.  Whatever the gaps, and whether the input is sorted or not, the
    clusters put one after the other are the input: no vendor is lost,
    repeated or moved. *)
Theorem group_concat {V : Type} (next_reset : V -> Z) (vendors : list V) :
  concat (_group_vendors_by_reset_time next_reset vendors) = vendors.
Proof.
  destruct vendors as [|v0 rest]; [reflexivity|].
  rewrite group_cons concat_app. simpl. rewrite app_nil_r.
  by rewrite group_loop_concat.
Qed.

(** ** Time normalisation *)

Section NormalizeFacts.
Context `{Runtime}.

Lemma int_or_PInt (z : Z) : py_int (or_ (PInt z) (PInt 0)) = Ok z.
Proof.
  unfold or_, truthy. destruct (Z.eqb_spec z 0) as [->|]; reflexivity.
Qed.

(** [int] raises nothing but [ValueError] and [TypeError]. *)
Lemma py_int_raises (v : pyval) (e : exn) :
  py_int v = Raise e -> e = ValueError \/ e = TypeError.
Proof.
  destruct v; simpl; try (intros [= <-]; by right); try discriminate.
  destruct (int_of_str s); [discriminate|]. intros [= <-]. by left.
Qed.

(** [PGVendorManager._clamp_reset_inputs] returns, whatever it is given. *)
Lemma PGVM_clamp_total (days hours minutes : pyval) (override : bool) :
  exists d h m,
    PGVendorManager._clamp_reset_inputs days hours minutes override
    = Ok (d, h, m).
Proof.
  unfold PGVendorManager._clamp_reset_inputs.
  destruct (py_int (or_ days (PInt 0))) as [d|e] eqn:Ed; simpl.
  2: { destruct (py_int_raises _ _ Ed) as [-> | ->]; by eexists _, _, _. }
  destruct (py_int (or_ hours (PInt 0))) as [h|e] eqn:Eh; simpl.
  2: { destruct (py_int_raises _ _ Eh) as [-> | ->]; by eexists _, _, _. }
  destruct (py_int (or_ minutes (PInt 0))) as [m|e] eqn:Em; simpl.
  2: { destruct (py_int_raises _ _ Em) as [-> | ->]; by eexists _, _, _. }
  destruct override; simpl; by eexists _, _, _.
Qed.

Lemma PGVM_clamp_no_override (d h m : Z) :
  PGVendorManager._clamp_reset_inputs (PInt d) (PInt h) (PInt m) false =
  let total_minutes :=
    Z.min (Z.max 0 d * 24 * 60 + Z.max 0 h * 60 + Z.max 0 m)
          PGVendorManager.MAX_TOTAL_MINUTES in
  Ok (total_minutes / (24 * 60),
      total_minutes mod (24 * 60) / 60,
      total_minutes mod (24 * 60) mod 60).
Proof.
  unfold PGVendorManager._clamp_reset_inputs.
  rewrite !int_or_PInt. simpl.
  set (total := Z.max 0 d * 24 * 60 + Z.max 0 h * 60 + Z.max 0 m).
  destruct (Z.gtb_spec total PGVendorManager.MAX_TOTAL_MINUTES).
  - rewrite Z.min_r; [lia|reflexivity].
  - rewrite Z.min_l; [lia|reflexivity].
Qed.

Lemma PGVM_clamp_override (d h m : Z) :
  PGVendorManager._clamp_reset_inputs (PInt d) (PInt h) (PInt m) true =
  Ok (Z.max 0 d, Z.min (Z.max 0 h) 23, Z.min (Z.max 0 m) 59).
Proof.
  unfold PGVendorManager._clamp_reset_inputs.
  rewrite !int_or_PInt. reflexivity.
Qed.

Lemma tracker7_clamp_ints (d h m : Z) :
  vendor_tracker7._clamp_reset_inputs (PInt d) (PInt h) (PInt m) =
  Ok (Z.max 0 (Z.min 6 d), Z.max 0 (Z.min 23 h), Z.max 0 (Z.min 59 m)).
Proof.
  unfold vendor_tracker7._clamp_reset_inputs.
  rewrite !int_or_PInt. reflexivity.
Qed.


Lemma PGVM_clamp_cases (days hours minutes : pyval) (override : bool) :
  PGVendorManager._clamp_reset_inputs days hours minutes override
    = Ok (0, 0, 0) \/
  exists a b c,
    PGVendorManager._clamp_reset_inputs days hours minutes override
    = PGVendorManager._clamp_reset_inputs (PInt a) (PInt b) (PInt c) override.
Proof.
  unfold PGVendorManager._clamp_reset_inputs at 1 2.
  destruct (py_int (or_ days (PInt 0))) as [a|e] eqn:Ea; simpl.
  2: { destruct (py_int_raises _ _ Ea) as [-> | ->]; by left. }
  destruct (py_int (or_ hours (PInt 0))) as [b|e] eqn:Eb; simpl.
  2: { destruct (py_int_raises _ _ Eb) as [-> | ->]; by left. }
  destruct (py_int (or_ minutes (PInt 0))) as [c|e] eqn:Ec; simpl.
  2: { destruct (py_int_raises _ _ Ec) as [-> | ->]; by left. }
  right. exists a, b, c.
  unfold PGVendorManager._clamp_reset_inputs. by rewrite !int_or_PInt.
Qed.

Lemma split_minutes (t : Z) :
  0 <= t <= 10079 ->
  0 <= t / 1440 <= 6 /\ 0 <= t mod 1440 / 60 <= 23 /\
  0 <= t mod 1440 mod 60 <= 59 /\
  t / 1440 * 1440 + t mod 1440 / 60 * 60 + t mod 1440 mod 60 = t.
Proof.
  intros Ht.
  pose proof (Z.div_mod t 1440 ltac:(lia)).
  pose proof (Z.mod_pos_bound t 1440 ltac:(lia)).
  pose proof (Z.div_mod (t mod 1440) 60 ltac:(lia)).
  pose proof (Z.mod_pos_bound (t mod 1440) 60 ltac:(lia)).
  lia.
Qed.

Lemma PGVM_clamp_canonical_ints (d h m : Z) :
  0 <= d -> 0 <= h <= 23 -> 0 <= m <= 59 ->
  (d * 1440 + h * 60 + m <= 10079 ->
   PGVendorManager._clamp_reset_inputs (PInt d) (PInt h) (PInt m) false
   = Ok (d, h, m)) /\
  PGVendorManager._clamp_reset_inputs (PInt d) (PInt h) (PInt m) true
  = Ok (d, h, m).
Proof.
  intros Hd Hh Hm. split.
  - intros Htotal. rewrite PGVM_clamp_no_override. cbv zeta.
    unfold PGVendorManager.MAX_TOTAL_MINUTES.
    change (6 * 24 * 60 + 23 * 60 + 59) with 10079.
    change (24 * 60) with 1440.
    rewrite !Z.max_r; try lia. rewrite Z.min_l; [lia|].
    replace (d * 24 * 60 + h * 60 + m) with (d * 1440 + h * 60 + m) by lia.
    assert ((d * 1440 + h * 60 + m) / 1440 = d) as ->
      by (symmetry; apply (Z.div_unique _ 1440 d (h * 60 + m)); lia).
    assert ((d * 1440 + h * 60 + m) mod 1440 = h * 60 + m) as ->
      by (symmetry; apply (Z.mod_unique _ 1440 d (h * 60 + m)); lia).
    assert ((h * 60 + m) / 60 = h) as ->
      by (symmetry; apply (Z.div_unique _ 60 h m); lia).
    assert ((h * 60 + m) mod 60 = m) as ->
      by (symmetry; apply (Z.mod_unique _ 60 h m); lia).
    reflexivity.
  - rewrite PGVM_clamp_override. do 2 f_equal; [f_equal|]; lia.
Qed.

Lemma PGVM_clamp_range (days hours minutes : pyval) (override : bool) :
  exists d h m,
    PGVendorManager._clamp_reset_inputs days hours minutes override
      = Ok (d, h, m) /\
    0 <= d /\ 0 <= h <= 23 /\ 0 <= m <= 59 /\
    (override = false -> d * 1440 + h * 60 + m <= 10079).
Proof.
  assert (forall a b c, exists d h m,
    PGVendorManager._clamp_reset_inputs (PInt a) (PInt b) (PInt c) override
      = Ok (d, h, m) /\
    0 <= d /\ 0 <= h <= 23 /\ 0 <= m <= 59 /\
    (override = false -> d * 1440 + h * 60 + m <= 10079)) as Hints.
  { intros a b c. destruct override.
    - eexists _, _, _. split; [apply PGVM_clamp_override|].
      repeat split; try lia; try discriminate.
    - eexists _, _, _. split; [apply PGVM_clamp_no_override|]. cbv zeta.
      unfold PGVendorManager.MAX_TOTAL_MINUTES.
      change (6 * 24 * 60 + 23 * 60 + 59) with 10079.
      change (24 * 60) with 1440.
      set (t := Z.min _ 10079).
      destruct (split_minutes t) as (? & ? & ? & ?); [unfold t; lia|].
      repeat split; try lia; try (intros _; unfold t in *; lia). }
  destruct (PGVM_clamp_cases days hours minutes override)
    as [E|(a & b & c & E)]; rewrite E.
  - exists 0, 0, 0. repeat split; try lia; reflexivity.
  - apply Hints.
Qed.

Lemma tracker7_clamp_cases (days hours minutes : pyval) :
  vendor_tracker7._clamp_reset_inputs days hours minutes = Ok (0, 0, 0) \/
  vendor_tracker7._clamp_reset_inputs days hours minutes = Raise TypeError \/
  exists a b c,
    vendor_tracker7._clamp_reset_inputs days hours minutes
    = vendor_tracker7._clamp_reset_inputs (PInt a) (PInt b) (PInt c).
Proof.
  unfold vendor_tracker7._clamp_reset_inputs at 1 2 3.
  destruct (py_int (or_ days (PInt 0))) as [a|e] eqn:Ea; simpl.
  2: { destruct (py_int_raises _ _ Ea) as [-> | ->]; [by left|by right; left]. }
  destruct (py_int (or_ hours (PInt 0))) as [b|e] eqn:Eb; simpl.
  2: { destruct (py_int_raises _ _ Eb) as [-> | ->]; [by left|by right; left]. }
  destruct (py_int (or_ minutes (PInt 0))) as [c|e] eqn:Ec; simpl.
  2: { destruct (py_int_raises _ _ Ec) as [-> | ->]; [by left|by right; left]. }
  right. right. exists a, b, c.
  unfold vendor_tracker7._clamp_reset_inputs. by rewrite !int_or_PInt.
Qed.


Lemma PGVM_clamp_idem (days hours minutes : pyval) (override : bool) d h m :
  PGVendorManager._clamp_reset_inputs days hours minutes override
  = Ok (d, h, m) ->
  PGVendorManager._clamp_reset_inputs (PInt d) (PInt h) (PInt m) override
  = Ok (d, h, m).
Proof.
  intros E.
  destruct (PGVM_clamp_range days hours minutes override)
    as (d0 & h0 & m0 & E0 & Hd & Hh & Hm & Htotal).
  rewrite E in E0. injection E0 as <- <- <-.
  destruct (PGVM_clamp_canonical_ints d h m Hd Hh Hm) as [Hno Hov].
  destruct override; [exact Hov|]. exact (Hno (Htotal eq_refl)).
Qed.

(** [PGVendorManager.calculate_last_reset] looks at its arguments through
    [_clamp_reset_inputs] only. *)
Lemma PGVM_calculate_eq (now : Z) (a b c a' b' c' : pyval) (override : bool) :
  PGVendorManager._clamp_reset_inputs a b c override
  = PGVendorManager._clamp_reset_inputs a' b' c' override ->
  PGVendorManager.calculate_last_reset now a b c override
  = PGVendorManager.calculate_last_reset now a' b' c' override.
Proof. unfold PGVendorManager.calculate_last_reset. by intros ->. Qed.

(** It returns when the next reset, [now + duration], is at least 7 days
    into the year 1 and, with override, not after the year 9999. *)
Lemma PGVM_calculate_ok (now : Z) (days hours minutes : pyval)
    (override : bool) (d h m : Z) :
  PGVendorManager._clamp_reset_inputs days hours minutes override
    = Ok (d, h, m) ->
  0 <= now < timedelta _MAXORDINAL 0 0 ->
  timedelta 7 0 0 <= now + timedelta d h m ->
  (override = true -> now + timedelta d h m < timedelta _MAXORDINAL 0 0) ->
  PGVendorManager.calculate_last_reset now days hours minutes override
  = Ok (now + timedelta d h m - timedelta 7 0 0).
Proof.
  intros E Hnow Hlow Hhigh.
  destruct (PGVM_clamp_range days hours minutes override)
    as (d' & h' & m' & E' & Hd & Hh & Hm & Htotal).
  rewrite E in E'. injection E' as <- <- <-.
  unfold PGVendorManager.calculate_last_reset. rewrite E. simpl.
  unfold new_timedelta, new_datetime, _MAXORDINAL, timedelta in *.
  destruct override; simpl.
  - specialize (Hhigh eq_refl).
    repeat (match goal with
            | |- context [?a <=? ?b] => destruct (Z.leb_spec a b); try lia
            | |- context [?a <? ?b] => destruct (Z.ltb_spec a b); try lia
            end; simpl).
    f_equal.
  - specialize (Htotal eq_refl).
    repeat (match goal with
            | |- context [?a <=? ?b] => destruct (Z.leb_spec a b); try lia
            | |- context [?a <? ?b] => destruct (Z.ltb_spec a b); try lia
            end; simpl).
    f_equal. lia.
Qed.

(** Otherwise it raises [OverflowError]. *)
Lemma PGVM_calculate_overflow (now : Z) (days hours minutes : pyval)
    (override : bool) (d h m : Z) :
  PGVendorManager._clamp_reset_inputs days hours minutes override
    = Ok (d, h, m) ->
  0 <= now < timedelta _MAXORDINAL 0 0 ->
  now + timedelta d h m < timedelta 7 0 0 \/
  (override = true /\ timedelta _MAXORDINAL 0 0 <= now + timedelta d h m) ->
  PGVendorManager.calculate_last_reset now days hours minutes override
  = Raise OverflowError.
Proof.
  intros E Hnow Hout.
  destruct (PGVM_clamp_range days hours minutes override)
    as (d' & h' & m' & E' & Hd & Hh & Hm & Htotal).
  rewrite E in E'. injection E' as <- <- <-.
  unfold PGVendorManager.calculate_last_reset. rewrite E. simpl.
  unfold new_timedelta, new_datetime, _MAXORDINAL, timedelta in *.
  destruct override; simpl.
  - repeat (match goal with
            | |- context [?a <=? ?b] => destruct (Z.leb_spec a b); simpl
            | |- context [?a <? ?b] => destruct (Z.ltb_spec a b); simpl
            end); try reflexivity; lia.
  - specialize (Htotal eq_refl).
    repeat (match goal with
            | |- context [?a <=? ?b] => destruct (Z.leb_spec a b); simpl
            | |- context [?a <? ?b] => destruct (Z.ltb_spec a b); simpl
            end); try reflexivity; lia.
Qed.

(** It raises nothing else. *)
Lemma PGVM_calculate_raises (now : Z) (days hours minutes : pyval)
    (override : bool) (e : exn) :
  PGVendorManager.calculate_last_reset now days hours minutes override
  = Raise e -> e = OverflowError.
Proof.
  destruct (PGVM_clamp_total days hours minutes override) as (d & h & m & E).
  unfold PGVendorManager.calculate_last_reset. rewrite E. simpl.
  unfold new_timedelta, new_datetime.
  destruct (_ && _); simpl; [|by intros [= <-]].
  destruct override; simpl.
  - destruct (_ && _); simpl; [|by intros [= <-]].
    destruct (_ && _); simpl; [discriminate|by intros [= <-]].
  - destruct (_ && _); simpl; [|by intros [= <-]].
    destruct (_ && _); simpl; [discriminate|by intros [= <-]].
Qed.

End NormalizeFacts.

(** C2, as the code has it.  The ceiling [MAX_TOTAL_MINUTES] of 6 d 23 h
    59 min is 10079 minutes.  On non-negative integers,
    [PGVendorManager._clamp_reset_inputs] without override computes the
    total of minutes, lowers it to 10079 when it is more, and splits it by
    floor division by 1440 and 60: the result is canonical, its total lies
    in 0..10079, is at most the total of the input, and is the total of the
    input when that is within the ceiling.
    [vendor_tracker7._clamp_reset_inputs], which has no override, caps
    days at 6, hours at 23 and minutes at 59 one by one: its total lies in
    0..10079 and is at most the total of the input as well, but it is the
    total of the input only when no field is over its own cap. *)
Theorem normalize_no_override `{Runtime} (d h m : Z) :
  0 <= d -> 0 <= h -> 0 <= m ->
  let total := d * 1440 + h * 60 + m in
  (exists d' h' m',
     PGVendorManager._clamp_reset_inputs (PInt d) (PInt h) (PInt m) false
       = Ok (d', h', m') /\
     PGVendorManager.MAX_TOTAL_MINUTES = 10079 /\
     d' = Z.min total 10079 / 1440 /\
     h' = Z.min total 10079 mod 1440 / 60 /\
     m' = Z.min total 10079 mod 1440 mod 60 /\
     0 <= d' <= 6 /\ 0 <= h' <= 23 /\ 0 <= m' <= 59 /\
     0 <= d' * 1440 + h' * 60 + m' <= 10079 /\
     d' * 1440 + h' * 60 + m' <= total /\
     d' * 1440 + h' * 60 + m' = Z.min total 10079 /\
     (total <= 10079 -> d' * 1440 + h' * 60 + m' = total)) /\
  (exists d' h' m',
     vendor_tracker7._clamp_reset_inputs (PInt d) (PInt h) (PInt m)
       = Ok (d', h', m') /\
     d' = Z.min d 6 /\ h' = Z.min h 23 /\ m' = Z.min m 59 /\
     0 <= d' * 1440 + h' * 60 + m' <= 10079 /\
     d' * 1440 + h' * 60 + m' <= total /\
     (d' * 1440 + h' * 60 + m' = total <-> d <= 6 /\ h <= 23 /\ m <= 59)).
Proof.
  intros Hd Hh Hm total. split.
  - eexists _, _, _. split; [apply PGVM_clamp_no_override|].
    cbv zeta. rewrite !Z.max_r; try lia.
    replace (d * 24 * 60 + h * 60 + m) with total by (unfold total; lia).
    unfold PGVendorManager.MAX_TOTAL_MINUTES.
    change (6 * 24 * 60 + 23 * 60 + 59) with 10079.
    change (24 * 60) with 1440.
    assert (0 <= Z.min total 10079 <= 10079) as Hc by (unfold total; lia).
    assert (Z.min total 10079 <= total) as Hle by lia.
    assert (total <= 10079 -> Z.min total 10079 = total) as Hmin by lia.
    revert Hc Hle Hmin. generalize (Z.min total 10079). intros c Hc Hle Hmin.
    pose proof (Z.div_mod c 1440 ltac:(lia)) as E1.
    pose proof (Z.mod_pos_bound c 1440 ltac:(lia)) as B1.
    pose proof (Z.div_mod (c mod 1440) 60 ltac:(lia)) as E2.
    pose proof (Z.mod_pos_bound (c mod 1440) 60 ltac:(lia)) as B2.
    revert E1 B1 E2 B2.
    generalize (c mod 1440 mod 60) (c mod 1440 / 60).
    generalize (c mod 1440) (c / 1440).
    intros r q m' h' E1 B1 E2 B2.
    repeat split; try reflexivity; try lia.
  - eexists _, _, _. split; [apply tracker7_clamp_ints|].
    unfold total. repeat split; try lia.
Qed.

(** C2 on an input over the ceiling, and on one within it whose hours are
    over 23. *)
Lemma normalize_no_override_witness :
  @PGVendorManager._clamp_reset_inputs Reference.runtime
    (PInt 8) (PInt 30) (PInt 0) false = Ok (6, 23, 59) /\
  @vendor_tracker7._clamp_reset_inputs Reference.runtime
    (PInt 0) (PInt 24) (PInt 0) = Ok (0, 23, 0).
Proof.
  destruct (@normalize_no_override Reference.runtime 8 30 0)
    as [(d1 & h1 & m1 & E1 & _ & -> & -> & -> & _) _]; [lia..|].
  destruct (@normalize_no_override Reference.runtime 0 24 0)
    as [_ (d2 & h2 & m2 & E2 & -> & -> & -> & _)]; [lia..|].
  split; [exact E1|exact E2].
Defined.

(** C2 as stated fails, on both variants.  The input (6, 23, 59) is left
    as it is by [PGVendorManager._clamp_reset_inputs]: its total, 10079
    minutes, is over 9959.  And [vendor_tracker7._clamp_reset_inputs]
    turns (0, 24, 0), which is 1440 minutes, into (0, 23, 0), which is
    1380 minutes and not the floor-division form (1, 0, 0). *)
Lemma normalize_no_override_counterexample :
  (@PGVendorManager._clamp_reset_inputs Reference.runtime
     (PInt 6) (PInt 23) (PInt 59) false = Ok (6, 23, 59) /\
   ~ 6 * 1440 + 23 * 60 + 59 <= 9959) /\
  (0 * 1440 + 24 * 60 + 0 <= 9959 /\
   @vendor_tracker7._clamp_reset_inputs Reference.runtime
     (PInt 0) (PInt 24) (PInt 0) = Ok (0, 23, 0) /\
   0 * 1440 + 23 * 60 + 0 <> 0 * 1440 + 24 * 60 + 0).
Proof. repeat split; lia. Qed.

(** C8.  With override, [PGVendorManager._clamp_reset_inputs] leaves the
    days as they are (a negative number counts as 0; there is no upper
    cap, so they may be more than 6), caps the hours at 23 and the minutes
    at 59, each field by itself: nothing is carried from one field to
    another, and 30 hours become 23 hours with the days unchanged. *)
Theorem normalize_override `{Runtime} (d h m : Z) :
  exists d' h' m',
    PGVendorManager._clamp_reset_inputs (PInt d) (PInt h) (PInt m) true
      = Ok (d', h', m') /\
    d' = Z.max 0 d /\ h' = Z.min (Z.max 0 h) 23 /\ m' = Z.min (Z.max 0 m) 59 /\
    (0 <= d -> d' = d) /\
    (0 <= h -> h' = Z.min h 23) /\
    (0 <= m -> m' = Z.min m 59) /\
    h' <= 23 /\ m' <= 59 /\
    (h = 30 -> h' = 23).
Proof.
  eexists _, _, _. split; [apply PGVM_clamp_override|].
  repeat split; lia.
Qed.

(** C8 on 9 days, 30 hours and 70 minutes. *)
Lemma normalize_override_witness :
  @PGVendorManager._clamp_reset_inputs Reference.runtime
    (PInt 9) (PInt 30) (PInt 70) true = Ok (9, 23, 59).
Proof.
  destruct (@normalize_override Reference.runtime 9 30 70)
    as (d' & h' & m' & E & _ & _ & _ & Hd & Hh & Hm & _).
  rewrite E. rewrite Hd; [lia|]. rewrite Hh; [lia|]. rewrite Hm; [lia|].
  reflexivity.
Defined.

(** C3, as the code has it.  The clock is a [datetime] at least 7 days
    after 0001-01-01 and at least 7 days before the end of the year 9999.
    For all integers, [calculate_last_reset] without
    override returns [now - (7 days - duration)], where the duration is
    the total of the fields (negative ones counting as 0) lowered to the
    ceiling of 10079 minutes: the next reset of a vendor with that last
    reset is away from the time of the call by exactly that duration, a
    whole number of minutes.  With override the duration is the days
    (uncapped), the hours (at most 23) and the minutes (at most 59): when
    [now + duration] is a [datetime], the result is
    [now + duration - 7 days], the same identity, also when the duration
    is over 7 days; when it is after the year 9999, [calculate_last_reset]
    raises [OverflowError].  Where it returns, the addition that reads the
    next reset back stays within [datetime].  Arguments that are not
    integers count as the integers [_clamp_reset_inputs] makes of them. *)
Theorem last_reset_round_trip `{Runtime} (now d h m : Z) :
  timedelta 7 0 0 <= now ->
  now + timedelta 7 0 0 <= timedelta _MAXORDINAL 0 0 ->
  (let duration :=
     Z.min (Z.max 0 d * 1440 + Z.max 0 h * 60 + Z.max 0 m) 10079
     * 60000000 in
   exists last_reset,
     PGVendorManager.calculate_last_reset now (PInt d) (PInt h) (PInt m)
       false = Ok last_reset /\
     last_reset = now - (timedelta 7 0 0 - duration) /\
     forall v : PGVendorManager.Vendor,
       PGVendorManager.last_reset v = last_reset ->
       new_datetime (PGVendorManager.last_reset v + timedelta 7 0 0)
       = Ok (PGVendorManager.next_reset v) /\
       PGVendorManager.next_reset v - now = duration) /\
  (let duration :=
     (Z.max 0 d * 1440 + Z.min (Z.max 0 h) 23 * 60 + Z.min (Z.max 0 m) 59)
     * 60000000 in
   (now + duration < timedelta _MAXORDINAL 0 0 ->
    exists last_reset,
      PGVendorManager.calculate_last_reset now (PInt d) (PInt h) (PInt m)
        true = Ok last_reset /\
      last_reset = now + duration - timedelta 7 0 0 /\
      last_reset = now - (timedelta 7 0 0 - duration) /\
      forall v : PGVendorManager.Vendor,
        PGVendorManager.last_reset v = last_reset ->
        new_datetime (PGVendorManager.last_reset v + timedelta 7 0 0)
        = Ok (PGVendorManager.next_reset v) /\
        PGVendorManager.next_reset v - now = duration) /\
   (timedelta _MAXORDINAL 0 0 <= now + duration ->
    PGVendorManager.calculate_last_reset now (PInt d) (PInt h) (PInt m) true
    = Raise OverflowError)) /\
  (forall (days hours minutes : pyval) (override : bool) d' h' m',
     PGVendorManager._clamp_reset_inputs days hours minutes override
     = Ok (d', h', m') ->
     PGVendorManager.calculate_last_reset now days hours minutes override
     = PGVendorManager.calculate_last_reset now (PInt d') (PInt h') (PInt m')
         override).
Proof.
  intros Hlow Hend.
  assert (0 <= now < timedelta _MAXORDINAL 0 0) as Hnow
    by (unfold timedelta in *; lia).
  assert (forall t, 0 <= t < timedelta _MAXORDINAL 0 0 ->
                    new_datetime t = Ok t) as Hin.
  { intros t Ht. unfold new_datetime.
    destruct (Z.leb_spec 0 t); [|lia].
    by destruct (Z.ltb_spec t (timedelta _MAXORDINAL 0 0)); [|lia]. }
  split; [|split].
  - cbv zeta.
    pose proof (PGVM_clamp_no_override d h m) as E. cbv zeta in E.
    unfold PGVendorManager.MAX_TOTAL_MINUTES in E.
    change (6 * 24 * 60 + 23 * 60 + 59) with 10079 in E.
    change (24 * 60) with 1440 in E.
    replace (Z.max 0 d * 24 * 60) with (Z.max 0 d * 1440) in E by lia.
    set (t := Z.min (Z.max 0 d * 1440 + Z.max 0 h * 60 + Z.max 0 m) 10079)
      in *.
    destruct (split_minutes t) as (Hd & Hh & Hm & Hsum); [unfold t; lia|].
    assert (timedelta (t / 1440) (t mod 1440 / 60) (t mod 1440 mod 60)
            = t * 60000000) as Htd.
    { unfold timedelta. generalize dependent (t / 1440).
      generalize dependent (t mod 1440 / 60).
      generalize dependent (t mod 1440 mod 60). intros. lia. }
    eexists. split.
    { apply (PGVM_calculate_ok now _ _ _ false _ _ _ E); rewrite ?Htd.
      - lia.
      - unfold t. lia.
      - discriminate. }
    rewrite Htd. split; [lia|].
    intros v Hv. unfold PGVendorManager.next_reset. rewrite Hv.
    split; [|lia]. apply Hin. unfold t, timedelta in *. lia.
  - cbv zeta.
    pose proof (PGVM_clamp_override d h m) as E.
    assert (timedelta (Z.max 0 d) (Z.min (Z.max 0 h) 23)
              (Z.min (Z.max 0 m) 59)
            = (Z.max 0 d * 1440 + Z.min (Z.max 0 h) 23 * 60
               + Z.min (Z.max 0 m) 59) * 60000000) as Htd
      by (unfold timedelta; lia).
    split.
    + intros Hhigh. eexists. split.
      { apply (PGVM_calculate_ok now _ _ _ true _ _ _ E); rewrite ?Htd;
          [lia|lia|by intros _]. }
      rewrite Htd. split; [reflexivity|]. split; [lia|].
      intros v Hv. unfold PGVendorManager.next_reset. rewrite Hv.
      split; [|lia]. apply Hin. unfold timedelta in *. lia.
    + intros Hhigh.
      apply (PGVM_calculate_overflow now _ _ _ true _ _ _ E); [lia|].
      right. split; [reflexivity|]. by rewrite Htd.
  - intros days hours minutes override d' h' m' E.
    apply PGVM_calculate_eq.
    by rewrite E (PGVM_clamp_idem _ _ _ _ _ _ _ E).
Qed.

(** C3 on 29 February 2024, 13:05:09.000042: a vendor set to reset in 2
    days, 3 hours and 4 minutes, and one set, with override, to 9 days. *)
Lemma last_reset_round_trip_witness :
  let now := 63844808709000042 in
  let v (t : Z) :=
    PGVendorManager.Build_Vendor (PStr "a") (PStr "z") 0 t 0 (PList []) in
  (exists t,
     @PGVendorManager.calculate_last_reset Reference.runtime now
       (PInt 2) (PInt 3) (PInt 4) false = Ok t /\
     PGVendorManager.next_reset (v t) - now = timedelta 2 3 4) /\
  (exists t,
     @PGVendorManager.calculate_last_reset Reference.runtime now
       (PInt 9) (PInt 0) (PInt 0) true = Ok t /\
     PGVendorManager.next_reset (v t) - now = timedelta 9 0 0).
Proof.
  intros now v.
  assert (timedelta 7 0 0 <= now) as Hlow by (vm_compute; discriminate).
  assert (now + timedelta 7 0 0 <= timedelta _MAXORDINAL 0 0) as Hend
    by (vm_compute; discriminate).
  split.
  - destruct (proj1 (@last_reset_round_trip Reference.runtime now 2 3 4
                       Hlow Hend))
      as (t & Et & _ & Hv).
    exists t. split; [exact Et|]. apply (Hv (v t)). reflexivity.
  - destruct (proj1 (proj1 (proj2 (@last_reset_round_trip Reference.runtime
                                     now 9 0 0 Hlow Hend)))
                ltac:(vm_compute; reflexivity))
      as (t & Et & _ & _ & Hv).
    exists t. split; [exact Et|]. apply (Hv (v t)). reflexivity.
Defined.

(** C3 as stated fails for an input with override: on 29 February 2024 a
    reset in 3000000 days would fall after the year 9999, and
    [calculate_last_reset] raises [OverflowError] where the claim has it
    return. *)
Lemma last_reset_round_trip_counterexample :
  @PGVendorManager._clamp_reset_inputs Reference.runtime
    (PInt 3000000) (PInt 0) (PInt 0) true = Ok (3000000, 0, 0) /\
  @PGVendorManager.calculate_last_reset Reference.runtime 63844808709000042
    (PInt 3000000) (PInt 0) (PInt 0) true = Raise OverflowError.
Proof. vm_compute. split; reflexivity. Qed.

(** ** The collection of a character *)

Section CollectionFacts.
Context `{Runtime}.

Lemma PGVM_save_and_report_vendors done failed (app : PGVendorManager.App) :
  PGVendorManager.vendors (PGVendorManager.save_and_report done failed app)
  = PGVendorManager.vendors app.
Proof.
  unfold PGVendorManager.save_and_report, PGVendorManager.save_vendors.
  by destruct (json_serializable _).
Qed.

Lemma tracker7_save_and_report_vendors done (app : vendor_tracker7.App) :
  vendor_tracker7.vendors (fst (vendor_tracker7.save_and_report done app))
  = vendor_tracker7.vendors app.
Proof.
  unfold vendor_tracker7.save_and_report, vendor_tracker7.save_vendors.
  by destruct (json_serializable _).
Qed.

(** What [add_and_save] builds in [PGVendorManager.py]: the vendor, or
    nothing when the date arithmetic overflows. *)
Lemma PGVM_built_vendor (now : Z) (name zone : string) (council : Z)
    (d_raw h_raw m_raw : Z) (override_flag : bool) (cats : list string) :
  let built : M PGVendorManager.Vendor :=
    '(d, h, m) ← lift (PGVendorManager._clamp_reset_inputs (PInt d_raw)
                         (PInt h_raw) (PInt m_raw) override_flag);
    last_reset ← lift (PGVendorManager.calculate_last_reset now (PInt d)
                         (PInt h) (PInt m) override_flag);
    PGVendorManager.Vendor_init now (PStr name) (PStr zone) (PInt council)
      (PDatetime last_reset) (PInt council) (PList (map PStr cats)) in
  exists d h m,
    PGVendorManager._clamp_reset_inputs (PInt d_raw) (PInt h_raw)
      (PInt m_raw) override_flag = Ok (d, h, m) /\
    ((exists last_reset,
        PGVendorManager.calculate_last_reset now (PInt d_raw) (PInt h_raw)
          (PInt m_raw) override_flag = Ok last_reset /\
        built = ([], Ok {| PGVendorManager.name := PStr name;
                           PGVendorManager.zone := PStr zone;
                           PGVendorManager.council_left := council;
                           PGVendorManager.last_reset := last_reset;
                           PGVendorManager.reset_maximum := council;
                           PGVendorManager.categories :=
                             PList (map PStr cats) |})) \/
     (PGVendorManager.calculate_last_reset now (PInt d_raw) (PInt h_raw)
        (PInt m_raw) override_flag = Raise OverflowError /\
      built = ([], Raise OverflowError))).
Proof.
  intros built.
  destruct (PGVM_clamp_total (PInt d_raw) (PInt h_raw) (PInt m_raw)
              override_flag) as (d & h & m & E).
  exists d, h, m. split; [exact E|].
  rewrite (PGVM_calculate_eq now (PInt d_raw) (PInt h_raw) (PInt m_raw)
             (PInt d) (PInt h) (PInt m) override_flag);
    [by rewrite E (PGVM_clamp_idem _ _ _ _ _ _ _ E)|].
  unfold built. rewrite E. simpl.
  destruct (PGVendorManager.calculate_last_reset now (PInt d) (PInt h)
              (PInt m) override_flag) as [last_reset|e] eqn:Ecalc.
  - left. exists last_reset. split; [reflexivity|]. simpl.
    by destruct cats.
  - right. rewrite (PGVM_calculate_raises _ _ _ _ _ _ Ecalc). by split.
Qed.

(** What [add_and_save] builds in [vendor_tracker7.py]. *)
Lemma tracker7_clamp_str (a b c : string) :
  exists d h m,
    vendor_tracker7._clamp_reset_inputs (PStr a) (PStr b) (PStr c)
    = Ok (d, h, m).
Proof.
  unfold vendor_tracker7._clamp_reset_inputs.
  assert (forall s, (exists z, py_int (or_ (PStr s) (PInt 0)) = Ok z)
                    \/ py_int (or_ (PStr s) (PInt 0)) = Raise ValueError)
    as Hint.
  { intros s. unfold or_. simpl. destruct (String.eqb s ""); simpl.
    - left. by eexists.
    - destruct (int_of_str s); [left; by eexists|by right]. }
  destruct (Hint a) as [[x ->]| ->]; simpl; [|by eexists _, _, _].
  destruct (Hint b) as [[y ->]| ->]; simpl; [|by eexists _, _, _].
  destruct (Hint c) as [[z ->]| ->]; simpl; by eexists _, _, _.
Qed.

Lemma tracker7_built_vendor (now : Z) (name zone : string) (council : Z)
    (d_raw h_raw m_raw : string) (cats : list string) :
  exists last_reset,
    ('(d, h, m) ← vendor_tracker7._clamp_reset_inputs (PStr d_raw)
                    (PStr h_raw) (PStr m_raw);
     last_reset ← vendor_tracker7.calculate_last_reset now (PInt d) (PInt h)
                    (PInt m);
     vendor_tracker7.Vendor_init (PStr name) (PStr zone) (PInt council)
       (PDatetime last_reset) (PInt council) (PList (map PStr cats)))
    = Ok {| vendor_tracker7.name := PStr name;
            vendor_tracker7.zone := PStr zone;
            vendor_tracker7.council_left := PInt council;
            vendor_tracker7.last_reset := last_reset;
            vendor_tracker7.reset_maximum := PInt council;
            vendor_tracker7.categories := PList (map PStr cats) |}.
Proof.
  destruct (tracker7_clamp_str d_raw h_raw m_raw) as (d & h & m & ->).
  simpl. unfold vendor_tracker7.calculate_last_reset.
  rewrite tracker7_clamp_ints. simpl. eexists.
  unfold vendor_tracker7.Vendor_init, py_max, py_gt. simpl.
  replace (council >? council) with false
    by (symmetry; rewrite Z.gtb_ltb; apply Z.ltb_irrefl).
  simpl. by destruct cats.
Qed.

End CollectionFacts.

(** C9.  A confirmed [reset_now] on the vendor at position [i] sets its
    [last_reset] to the time of the call and, exactly when its
    [reset_maximum] is more than 0, its [council_left] to [reset_maximum];
    with [reset_maximum] 0 the [council_left] stays.  Nothing else of the
    vendor and no other vendor changes.  In [vendor_tracker7.py] the
    numbers of a vendor are whatever was stored; the statement is for a
    vendor whose [reset_maximum] is an integer. *)
Theorem reset_now_effect `{Runtime} (i : nat) (now : Z) :
  (forall (app : PGVendorManager.App) (v : PGVendorManager.Vendor),
     PGVendorManager.vendors app !! i = Some v ->
     exists v',
       PGVendorManager.vendors (PGVendorManager.reset_now i true now app)
         = <[i := v']> (PGVendorManager.vendors app) /\
       PGVendorManager.last_reset v' = now /\
       (PGVendorManager.reset_maximum v > 0 ->
        PGVendorManager.council_left v' = PGVendorManager.reset_maximum v) /\
       (PGVendorManager.reset_maximum v <= 0 ->
        PGVendorManager.council_left v' = PGVendorManager.council_left v) /\
       (PGVendorManager.reset_maximum v = 5000 ->
        PGVendorManager.council_left v = 0 ->
        PGVendorManager.council_left v' = 5000) /\
       PGVendorManager.name v' = PGVendorManager.name v /\
       PGVendorManager.zone v' = PGVendorManager.zone v /\
       PGVendorManager.reset_maximum v' = PGVendorManager.reset_maximum v /\
       PGVendorManager.categories v' = PGVendorManager.categories v) /\
  (forall (app : vendor_tracker7.App) (v : vendor_tracker7.Vendor)
          (reset_maximum : Z),
     vendor_tracker7.vendors app !! i = Some v ->
     vendor_tracker7.reset_maximum v = PInt reset_maximum ->
     exists v',
       vendor_tracker7.vendors
         (fst (vendor_tracker7.reset_now i true now app))
         = <[i := v']> (vendor_tracker7.vendors app) /\
       vendor_tracker7.last_reset v' = now /\
       (reset_maximum > 0 ->
        vendor_tracker7.council_left v' = PInt reset_maximum) /\
       (reset_maximum <= 0 ->
        vendor_tracker7.council_left v' = vendor_tracker7.council_left v) /\
       (reset_maximum = 5000 ->
        vendor_tracker7.council_left v' = PInt 5000) /\
       vendor_tracker7.name v' = vendor_tracker7.name v /\
       vendor_tracker7.zone v' = vendor_tracker7.zone v /\
       vendor_tracker7.reset_maximum v' = vendor_tracker7.reset_maximum v /\
       vendor_tracker7.categories v' = vendor_tracker7.categories v).
Proof.
  split.
  - intros app v Hv. unfold PGVendorManager.reset_now. rewrite Hv.
    eexists. split.
    { rewrite PGVM_save_and_report_vendors. reflexivity. }
    simpl. destruct (Z.gtb_spec (PGVendorManager.reset_maximum v) 0); simpl;
      repeat split; try reflexivity; lia.
  - intros app v rm Hv Hrm. unfold vendor_tracker7.reset_now.
    rewrite Hv. simpl. rewrite Hrm. unfold py_gt. simpl.
    eexists. split.
    { rewrite tracker7_save_and_report_vendors. reflexivity. }
    destruct (Z.gtb_spec rm 0); simpl; rewrite ?Hrm;
      repeat split; try reflexivity; try lia; intros; by subst.
Qed.

(** C9 on a vendor with [reset_maximum] 5000 and nothing left. *)
Lemma reset_now_effect_witness :
  let v := PGVendorManager.Build_Vendor
             (PStr "Joeh") (PStr "Serbule") 0 0 5000 (PList []) in
  let app := PGVendorManager.Build_App [v] "Default" ∅ [] in
  exists v',
    PGVendorManager.vendors
      (@PGVendorManager.reset_now Reference.runtime 0 true 63844808709000042 app) = [v'] /\
    PGVendorManager.last_reset v' = 63844808709000042 /\
    PGVendorManager.council_left v' = 5000.
Proof.
  intros v app.
  destruct (proj1 (@reset_now_effect Reference.runtime 0 63844808709000042) app v eq_refl)
    as (v' & E & Hl & _ & _ & H5000 & _).
  exists v'. rewrite E. split; [reflexivity|]. split; [exact Hl|].
  apply H5000; reflexivity.
Defined.

Section NameFacts.
Context `{Runtime}.

Lemma PGVM_names_insert (l : list PGVendorManager.Vendor) i v v' :
  l !! i = Some v ->
  PGVendorManager.name v' = PGVendorManager.name v ->
  PGVendorManager.name <$> <[i := v']> l = PGVendorManager.name <$> l.
Proof.
  intros Hi Hn. rewrite list_fmap_insert Hn.
  apply list_insert_id. by rewrite list_lookup_fmap Hi.
Qed.

Lemma tracker7_names_insert (l : list vendor_tracker7.Vendor) i v v' :
  l !! i = Some v ->
  vendor_tracker7.name v' = vendor_tracker7.name v ->
  vendor_tracker7.name <$> <[i := v']> l = vendor_tracker7.name <$> l.
Proof.
  intros Hi Hn. rewrite list_fmap_insert Hn.
  apply list_insert_id. by rewrite list_lookup_fmap Hi.
Qed.

Lemma PGVM_reset_now_names i confirm now (app : PGVendorManager.App) :
  PGVendorManager.name
    <$> PGVendorManager.vendors (PGVendorManager.reset_now i confirm now app)
  = PGVendorManager.name <$> PGVendorManager.vendors app.
Proof.
  unfold PGVendorManager.reset_now.
  destruct (PGVendorManager.vendors app !! i) as [v|] eqn:Hv; [|reflexivity].
  destruct confirm; [|reflexivity].
  rewrite PGVM_save_and_report_vendors. simpl.
  apply (PGVM_names_insert _ _ v); [exact Hv|].
  by destruct (PGVendorManager.reset_maximum v >? 0).
Qed.

Lemma PGVM_update_names i now new_council d_raw h_raw m_raw override cats
    (app : PGVendorManager.App) :
  PGVendorManager.name
    <$> PGVendorManager.vendors
          (PGVendorManager.update_vendor_action i now new_council
             d_raw h_raw m_raw override cats app)
  = PGVendorManager.name <$> PGVendorManager.vendors app.
Proof.
  unfold PGVendorManager.update_vendor_action.
  destruct (PGVendorManager.vendors app !! i) as [v|] eqn:Hv; [|reflexivity].
  destruct (_ && _); [reflexivity|].
  destruct (PGVendorManager._clamp_reset_inputs _ _ _ _) as [[[d h] m]|e];
    [|reflexivity].
  destruct (PGVendorManager.calculate_last_reset _ _ _ _ _) as [t|e].
  - rewrite PGVM_save_and_report_vendors. simpl.
    by apply (PGVM_names_insert _ _ v).
  - simpl. by apply (PGVM_names_insert _ _ v).
Qed.

Lemma tracker7_reset_now_names i confirm now (app : vendor_tracker7.App) :
  vendor_tracker7.name
    <$> vendor_tracker7.vendors
          (fst (vendor_tracker7.reset_now i confirm now app))
  = vendor_tracker7.name <$> vendor_tracker7.vendors app.
Proof.
  unfold vendor_tracker7.reset_now.
  destruct (vendor_tracker7.vendors app !! i) as [v|] eqn:Hv; [|reflexivity].
  destruct confirm; [|reflexivity].
  destruct (py_gt _ _) as [positive|e].
  - rewrite tracker7_save_and_report_vendors. simpl.
    apply (tracker7_names_insert _ _ v); [exact Hv|]. by destruct positive.
  - simpl. by apply (tracker7_names_insert _ _ v).
Qed.

Lemma tracker7_update_names i now new_council d_raw h_raw m_raw cats
    (app : vendor_tracker7.App) :
  vendor_tracker7.name
    <$> vendor_tracker7.vendors
          (fst (vendor_tracker7.update_vendor i now new_council
                  d_raw h_raw m_raw cats app))
  = vendor_tracker7.name <$> vendor_tracker7.vendors app.
Proof.
  unfold vendor_tracker7.update_vendor.
  destruct (vendor_tracker7.vendors app !! i) as [v|] eqn:Hv; [|reflexivity].
  destruct (vendor_tracker7._clamp_reset_inputs _ _ _) as [[[d h] m]|e];
    [|reflexivity].
  destruct (py_gt _ _) as [larger|e]; simpl.
  - destruct (vendor_tracker7.calculate_last_reset _ _ _ _) as [t|e].
    + rewrite tracker7_save_and_report_vendors. simpl.
      by apply (tracker7_names_insert _ _ v).
    + simpl. by apply (tracker7_names_insert _ _ v).
  - by apply (tracker7_names_insert _ _ v).
Qed.

End NameFacts.

(** C7, as the code has it.  The name of a vendor is not kept unique.
    [add_and_save], when it accepts its input and the reset time it
    computes is a [datetime] (the clock at least 7 days after 0001-01-01
    and at least 7 days before the end of the year 9999 and, with
    override, the days typed not leading past the year 9999),
    puts the new vendor after the vendors already in the collection,
    whatever their names: a vendor of the same name stays where it is and
    as it is.  In no case does [add_and_save] of [PGVendorManager.py] do
    anything to the collection but leave it or put one vendor of the name
    typed at its end.  [reset_now] and the
    update change a vendor in place and leave every name where it was.
    [delete_vendor] keeps, in their order, the vendors whose name is not
    equal to the name of the vendor to delete, so it removes every vendor
    of that name. *)
Theorem names_in_collection `{Runtime} :
  (forall (app : PGVendorManager.App) now name zone council
          d_raw h_raw m_raw override_flag selected_cats,
     name <> EmptyString ->
     d_raw * 24 * 60 + h_raw * 60 + m_raw
       <= PGVendorManager.MAX_TOTAL_MINUTES \/ override_flag = true ->
     timedelta 7 0 0 <= now <= timedelta _MAXORDINAL 0 0 - timedelta 7 0 0 ->
     (override_flag = true ->
      now + timedelta (Z.max 0 d_raw + 1) 0 0
      <= timedelta _MAXORDINAL 0 0) ->
     exists v,
       PGVendorManager.vendors
         (PGVendorManager.add_and_save now name zone council d_raw h_raw
            m_raw override_flag selected_cats app)
       = PGVendorManager.vendors app ++ [v] /\
       PGVendorManager.name v = PStr name) /\
  (forall (app : PGVendorManager.App) now name zone council
          d_raw h_raw m_raw override_flag selected_cats,
     let app' :=
       PGVendorManager.add_and_save now name zone council d_raw h_raw
         m_raw override_flag selected_cats app in
     PGVendorManager.vendors app' = PGVendorManager.vendors app \/
     exists v,
       PGVendorManager.vendors app' = PGVendorManager.vendors app ++ [v] /\
       PGVendorManager.name v = PStr name) /\
  (forall (app : PGVendorManager.App) i confirm now,
     PGVendorManager.name
       <$> PGVendorManager.vendors
             (PGVendorManager.reset_now i confirm now app)
     = PGVendorManager.name <$> PGVendorManager.vendors app) /\
  (forall (app : PGVendorManager.App) i now new_council d_raw h_raw m_raw
          override_flag selected_cats,
     PGVendorManager.name
       <$> PGVendorManager.vendors
             (PGVendorManager.update_vendor_action i now new_council
                d_raw h_raw m_raw override_flag selected_cats app)
     = PGVendorManager.name <$> PGVendorManager.vendors app) /\
  (forall (app : PGVendorManager.App) vendor_to_delete,
     PGVendorManager.vendors
       (PGVendorManager.delete_vendor vendor_to_delete true app)
     = filter (fun v => py_eq (PGVendorManager.name v)
                          (PGVendorManager.name vendor_to_delete) = false)
         (PGVendorManager.vendors app)) /\
  (forall (app : vendor_tracker7.App) now name zone council
          d_raw h_raw m_raw selected_cats,
     name <> EmptyString ->
     timedelta 7 0 0 <= now <= timedelta _MAXORDINAL 0 0 - timedelta 7 0 0 ->
     exists v,
       vendor_tracker7.vendors
         (fst (vendor_tracker7.add_and_save now name zone council d_raw
                 h_raw m_raw selected_cats app))
       = vendor_tracker7.vendors app ++ [v] /\
       vendor_tracker7.name v = PStr name) /\
  (forall (app : vendor_tracker7.App) i confirm now,
     vendor_tracker7.name
       <$> vendor_tracker7.vendors
             (fst (vendor_tracker7.reset_now i confirm now app))
     = vendor_tracker7.name <$> vendor_tracker7.vendors app) /\
  (forall (app : vendor_tracker7.App) i now new_council d_raw h_raw m_raw
          selected_cats,
     vendor_tracker7.name
       <$> vendor_tracker7.vendors
             (fst (vendor_tracker7.update_vendor i now new_council
                     d_raw h_raw m_raw selected_cats app))
     = vendor_tracker7.name <$> vendor_tracker7.vendors app) /\
  (forall (app : vendor_tracker7.App) vendor_to_delete,
     vendor_tracker7.vendors
       (fst (vendor_tracker7.delete_vendor vendor_to_delete true app))
     = filter (fun v => py_eq (vendor_tracker7.name v)
                          (vendor_tracker7.name vendor_to_delete) = false)
         (vendor_tracker7.vendors app)).
Proof.
  repeat split.
  - intros app now name zone council d h m ov cats Hname Htime Hnow Hhigh.
    unfold PGVendorManager.add_and_save.
    destruct (String.eqb_spec name "") as [->|_]; [done|].
    replace ((d * 24 * 60 + h * 60 + m >? PGVendorManager.MAX_TOTAL_MINUTES)
             && negb ov) with false.
    2: { symmetry. destruct Htime as [Hle| ->].
         - destruct (Z.gtb_spec (d * 24 * 60 + h * 60 + m)
                       PGVendorManager.MAX_TOTAL_MINUTES); [lia|reflexivity].
         - apply andb_false_r. }
    destruct (PGVM_built_vendor now name zone council d h m ov (dedupe cats))
      as (d' & h' & m' & E & [(t & _ & ->)|[Hraise _]]).
    + eexists. rewrite PGVM_save_and_report_vendors. simpl.
      split; reflexivity.
    + exfalso.
      destruct (PGVM_clamp_range (PInt d) (PInt h) (PInt m) ov)
        as (d0 & h0 & m0 & E0 & Hd & Hh & Hm & _).
      rewrite E in E0. injection E0 as <- <- <-.
      rewrite (PGVM_calculate_ok now _ _ _ ov _ _ _ E) in Hraise;
        try discriminate.
      * unfold timedelta in *. lia.
      * unfold timedelta in *. lia.
      * intros ->. specialize (Hhigh eq_refl).
        rewrite PGVM_clamp_override in E. injection E as <- <- <-.
        unfold timedelta in *. lia.
  - intros app now name zone council d h m ov cats.
    unfold PGVendorManager.add_and_save.
    destruct (String.eqb name ""); [by left|].
    destruct (_ && _); [by left|].
    destruct (PGVM_built_vendor now name zone council d h m ov (dedupe cats))
      as (d' & h' & m' & E & [(t & _ & ->)|[_ ->]]).
    + right. eexists. rewrite PGVM_save_and_report_vendors. simpl.
      split; reflexivity.
    + by left.
  - intros. apply PGVM_reset_now_names.
  - intros. apply PGVM_update_names.
  - intros app vd. unfold PGVendorManager.delete_vendor.
    by rewrite PGVM_save_and_report_vendors.
  - intros app now name zone council d h m cats Hname Hnow.
    unfold vendor_tracker7.add_and_save.
    destruct (String.eqb_spec name "") as [->|_]; [done|].
    destruct (tracker7_built_vendor now name zone council d h m cats)
      as (t & ->).
    eexists. rewrite tracker7_save_and_report_vendors. simpl.
    split; reflexivity.
  - intros. apply tracker7_reset_now_names.
  - intros. apply tracker7_update_names.
  - intros app vd. unfold vendor_tracker7.delete_vendor.
    by rewrite tracker7_save_and_report_vendors.
Qed.

(** C7 on one vendor added to an empty collection on 29 February 2024,
    13:05:09.000042. *)
Lemma names_in_collection_witness :
  let now := 63844808709000042 in
  let app := PGVendorManager.Build_App [] "Default" ∅ [] in
  exists v,
    PGVendorManager.vendors
      (@PGVendorManager.add_and_save Reference.runtime now "Elahil" "Serbule"
         5000 1 0 0 false [] app) = [v] /\
    PGVendorManager.name v = PStr "Elahil".
Proof.
  intros now app.
  destruct (proj1 (@names_in_collection Reference.runtime) app now
              "Elahil"%string "Serbule"%string 5000 1 0 0 false [])
    as (v & E & Hn).
  - discriminate.
  - left. vm_compute. discriminate.
  - vm_compute. split; discriminate.
  - discriminate.
  - exists v. split; [exact E|exact Hn].
Defined.

(** C7 as stated fails, in both variants: a vendor added under the name of
    a vendor of the collection does not replace it; afterwards the
    collection holds two vendors of that name, the earlier one with the
    amount it had.  The vendors are added on 29 February 2024 at
    13:05:09.000042 and one second later. *)
Lemma names_in_collection_counterexample :
  (let app0 := PGVendorManager.Build_App [] "Default" ∅ [] in
   let app1 := @PGVendorManager.add_and_save Reference.runtime
                 63844808709000042
                 "Elahil" "Serbule" 5000 1 0 0 false [] app0 in
   let app2 := @PGVendorManager.add_and_save Reference.runtime
                 63844808710000042
                 "Elahil" "Eltibule" 9000 2 0 0 false [] app1 in
   PGVendorManager.name <$> PGVendorManager.vendors app2
     = [PStr "Elahil"; PStr "Elahil"] /\
   PGVendorManager.council_left <$> PGVendorManager.vendors app2
     = [5000; 9000]) /\
  (let app0 := vendor_tracker7.Build_App [] "Default" ∅ [] in
   let app1 := fst (@vendor_tracker7.add_and_save Reference.runtime
                      63844808709000042
                      "Elahil" "Serbule" 5000 "1" "0" "0" [] app0) in
   let app2 := fst (@vendor_tracker7.add_and_save Reference.runtime
                      63844808710000042
                      "Elahil" "Eltibule" 9000 "2" "0" "0" [] app1) in
   vendor_tracker7.name <$> vendor_tracker7.vendors app2
     = [PStr "Elahil"; PStr "Elahil"] /\
   vendor_tracker7.council_left <$> vendor_tracker7.vendors app2
     = [PInt 5000; PInt 9000]).
Proof. vm_compute. repeat split. Qed.

(** ** Construction of a vendor *)

(** C6, as the code has it.  With [council_left] and [reset_maximum] that
    convert, [Vendor] of [PGVendorManager.py] is built for every
    [last_reset] handled here: a [datetime] is taken as it is, a string in
    ISO format as the instant it names, a string that is not in ISO
    format as the epoch seconds it spells, and when that conversion
    raises [ValueError] or [OverflowError], or [last_reset] is neither a
    string nor a [datetime], as the current time after a printed warning.
    [Vendor] of [vendor_tracker7.py] takes a [datetime] or a string in ISO
    format and raises [ValueError] for any other string and any other
    value. *)
Theorem vendor_construction `{Runtime}
    (now : Z) (name zone council_left last_reset reset_maximum categories
       : pyval) :
  (forall c rm,
     py_int council_left = Ok c ->
     py_int reset_maximum = Ok rm ->
     let built t :=
       {| PGVendorManager.name := name; PGVendorManager.zone := zone;
          PGVendorManager.council_left := c;
          PGVendorManager.last_reset := t;
          PGVendorManager.reset_maximum := rm;
          PGVendorManager.categories := or_ categories (PList []) |} in
     let init :=
       PGVendorManager.Vendor_init now name zone council_left last_reset
         reset_maximum categories in
     (forall t, last_reset = PDatetime t -> init = ([], Ok (built t))) /\
     (forall s t,
        last_reset = PStr s -> fromisoformat s = Some t ->
        init = ([], Ok (built t))) /\
     (forall s t,
        last_reset = PStr s -> fromisoformat s = None ->
        fromtimestamp_float s = Ok t ->
        init = ([], Ok (built t))) /\
     (forall s e,
        last_reset = PStr s -> fromisoformat s = None ->
        fromtimestamp_float s = Raise e ->
        e = ValueError \/ e = OverflowError ->
        init = ([print (InvalidLastResetFormat name)], Ok (built now))) /\
     ((forall s, last_reset <> PStr s) ->
      (forall t, last_reset <> PDatetime t) ->
      init = ([print (UnknownLastResetType name)], Ok (built now)))) /\
  (forall mx,
     py_max council_left reset_maximum = Ok mx ->
     let built t :=
       {| vendor_tracker7.name := name; vendor_tracker7.zone := zone;
          vendor_tracker7.council_left := council_left;
          vendor_tracker7.last_reset := t;
          vendor_tracker7.reset_maximum := mx;
          vendor_tracker7.categories := or_ categories (PList []) |} in
     let init :=
       vendor_tracker7.Vendor_init name zone council_left last_reset
         reset_maximum categories in
     (forall t, last_reset = PDatetime t -> init = Ok (built t)) /\
     (forall s t,
        last_reset = PStr s -> fromisoformat s = Some t ->
        init = Ok (built t)) /\
     (forall s,
        last_reset = PStr s -> fromisoformat s = None ->
        init = Raise ValueError) /\
     ((forall s, last_reset <> PStr s) ->
      (forall t, last_reset <> PDatetime t) ->
      init = Raise ValueError)).
Proof.
  split.
  - intros c rm Hc Hrm built init. subst init.
    unfold PGVendorManager.Vendor_init. rewrite Hc Hrm.
    repeat split.
    + by intros t ->.
    + intros s t -> Hs. simpl. by rewrite Hs.
    + intros s t -> Hs Ht. simpl. by rewrite Hs Ht.
    + intros s e -> Hs He [-> | ->]; simpl; by rewrite Hs He.
    + intros Hstr Hdt.
      destruct last_reset; try reflexivity; [by destruct (Hstr s)|].
      by destruct (Hdt t).
  - intros mx Hmx built init. subst init.
    unfold vendor_tracker7.Vendor_init. rewrite Hmx.
    repeat split.
    + by intros t ->.
    + intros s t -> Hs. simpl. by rewrite Hs.
    + intros s -> Hs. simpl. by rewrite Hs.
    + intros Hstr Hdt.
      destruct last_reset; try reflexivity; [by destruct (Hstr s)|].
      by destruct (Hdt t).
Qed.

(** C6 on a string that is neither in ISO format nor a number. *)
Lemma vendor_construction_witness :
  @PGVendorManager.Vendor_init Reference.runtime 63844808709000042 (PStr "Joeh")
    (PStr "Serbule") (PInt 5) (PStr "yesterday") (PInt 9) (PList [])
  = ([print (InvalidLastResetFormat (PStr "Joeh"))],
     Ok (PGVendorManager.Build_Vendor (PStr "Joeh") (PStr "Serbule") 5 63844808709000042 9
           (PList []))) /\
  @vendor_tracker7.Vendor_init Reference.runtime (PStr "Joeh")
    (PStr "Serbule") (PInt 5) (PStr "yesterday") (PInt 9) (PList [])
  = Raise ValueError.
Proof.
  destruct (@vendor_construction Reference.runtime 63844808709000042 (PStr "Joeh")
              (PStr "Serbule") (PInt 5) (PStr "yesterday") (PInt 9)
              (PList [])) as [HP HT].
  destruct (HP 5 9 eq_refl eq_refl) as (_ & _ & _ & Hwarn & _).
  destruct (HT (PInt 9) eq_refl) as (_ & _ & Hraise & _).
  split.
  - apply (Hwarn "yesterday"%string ValueError); try reflexivity. by left.
  - apply (Hraise "yesterday"%string); reflexivity.
Defined.

(** C6 as stated fails on [Vendor] of [vendor_tracker7.py]: a string that
    is not in ISO format, and a value that is neither a string nor a
    [datetime], make the construction raise [ValueError]. *)
Lemma vendor_construction_counterexample :
  @vendor_tracker7.Vendor_init Reference.runtime (PStr "Joeh")
    (PStr "Serbule") (PInt 5) (PStr "yesterday") (PInt 9) (PList [])
  = Raise ValueError /\
  @vendor_tracker7.Vendor_init Reference.runtime (PStr "Joeh")
    (PStr "Serbule") (PInt 5) (PInt 1700000000) (PInt 9) (PList [])
  = Raise ValueError.
Proof. split; reflexivity. Qed.

(** [datetime.fromtimestamp] is documented to raise [OSError] as well, when
    the C library cannot convert the number.  [Vendor.__init__] of
    [PGVendorManager.py] handles [ValueError] and [OverflowError] only: on
    such a string the construction ends with [OSError]. *)
Lemma PGVM_Vendor_init_OSError `{Runtime}
    (now : Z) (name zone council_left reset_maximum categories : pyval)
    (s : string) (c : Z) :
  py_int council_left = Ok c ->
  fromisoformat s = None ->
  fromtimestamp_float s = Raise OSError ->
  snd (PGVendorManager.Vendor_init now name zone council_left (PStr s)
         reset_maximum categories) = Raise OSError.
Proof.
  intros Hc Hiso Hts. unfold PGVendorManager.Vendor_init.
  rewrite Hc. simpl. by rewrite Hiso Hts.
Qed.

(** ** The ISO format of the runtime *)

Section IsoFacts.
Import Reference.

Lemma digit_val_char (n : Z) : 0 <= n <= 9 -> digit_val (digit_char n) = Some n.
Proof.
  intros Hn. unfold digit_val, digit_char.
  rewrite nat_ascii_embedding; [lia|].
  replace (Z.of_nat (48 + Z.to_nat n)) with (48 + n) by lia.
  destruct (Z.leb_spec 48 (48 + n)); [|lia].
  destruct (Z.leb_spec (48 + n) 57); [|lia].
  simpl. f_equal. lia.
Qed.

Lemma read_fmt_digits (w1 : nat) : forall (w2 : nat) n acc rest,
  0 <= n < 10 ^ Z.of_nat w1 ->
  read_digits (w1 + w2) acc (fmt_digits w1 n rest)
  = read_digits w2 (acc * 10 ^ Z.of_nat w1 + n) rest.
Proof.
  induction w1 as [|w1 IH]; intros w2 n acc rest Hn.
  - simpl in *. f_equal. lia.
  - cbn [fmt_digits].
    replace (S w1 + w2)%nat with (w1 + S w2)%nat by lia.
    assert (10 ^ Z.of_nat (S w1) = 10 * 10 ^ Z.of_nat w1) as Hpow.
    { rewrite Nat2Z.inj_succ. apply Z.pow_succ_r. lia. }
    rewrite IH.
    { rewrite Hpow in Hn. split; [apply Z.div_pos; lia|].
      apply Z.div_lt_upper_bound; lia. }
    cbn [read_digits]. rewrite digit_val_char.
    { pose proof (Z.mod_pos_bound n 10). lia. }
    f_equal. rewrite Hpow.
    pose proof (Z.div_mod n 10). lia.
Qed.

Lemma read_fmt (w : nat) n rest :
  0 <= n < 10 ^ Z.of_nat w ->
  read_digits w 0 (fmt_digits w n rest) = Some (n, rest).
Proof.
  intros Hn. replace w with (w + 0)%nat at 1 by lia.
  by rewrite read_fmt_digits.
Qed.

Lemma is_leap_period y q : is_leap (y + 400 * q) = is_leap y.
Proof.
  unfold is_leap.
  replace (y + 400 * q) with (y + (100 * q) * 4) at 1 by lia.
  replace (y + 400 * q) with (y + (4 * q) * 100) at 1 by lia.
  replace (y + 400 * q) with (y + q * 400) by lia.
  by rewrite !Z.mod_add.
Qed.

Lemma days_before_year_period y q :
  days_before_year (y + 400 * q) = days_before_year y + 146097 * q.
Proof.
  unfold days_before_year. cbv zeta.
  replace (y + 400 * q - 1) with (y - 1 + 400 * q) by lia.
  replace ((y - 1 + 400 * q) / 4) with ((y - 1) / 4 + 100 * q).
  2: { replace (y - 1 + 400 * q) with (y - 1 + (100 * q) * 4) by lia.
       by rewrite Z.div_add. }
  replace ((y - 1 + 400 * q) / 100) with ((y - 1) / 100 + 4 * q).
  2: { replace (y - 1 + 400 * q) with (y - 1 + (4 * q) * 100) by lia.
       by rewrite Z.div_add. }
  replace ((y - 1 + 400 * q) / 400) with ((y - 1) / 400 + q).
  2: { replace (y - 1 + 400 * q) with (y - 1 + q * 400) by lia.
       by rewrite Z.div_add. }
  lia.
Qed.

Lemma ymd2ord_period y m d q :
  ymd2ord (y + 400 * q) m d = ymd2ord y m d + 146097 * q.
Proof.
  unfold ymd2ord, days_before_month.
  rewrite days_before_year_period is_leap_period. lia.
Qed.

Lemma days_in_month_period y m q :
  days_in_month (y + 400 * q) m = days_in_month y m.
Proof. unfold days_in_month. by rewrite is_leap_period. Qed.

Lemma ord2ymd_period n q :
  ord2ymd (n + 146097 * q) =
  let '(y, m, d) := ord2ymd n in (y + 400 * q, m, d).
Proof.
  unfold ord2ymd. cbv zeta.
  replace (n + 146097 * q - 1) with (n - 1 + q * DI400Y)
    by (unfold DI400Y; lia).
  rewrite Z.div_add; [done|]. rewrite Z.mod_add; [done|].
  generalize ((n - 1) mod DI400Y). generalize ((n - 1) / DI400Y).
  intros n400 r.
  repeat match goal with
         | |- context [if ?b then _ else _] => destruct b
         end; f_equal; f_equal; lia.
Qed.

Lemma ordinals_ok_spec (count : nat) : forall n,
  ordinals_ok count n = true ->
  forall k, n <= k < n + Z.of_nat count -> ordinal_ok k = true.
Proof.
  induction count as [|count IH]; intros n Hall k Hk; [lia|].
  simpl in Hall. destruct (ordinal_ok n) eqn:En; [|discriminate].
  destruct (Z.eq_dec k n) as [->|Hne]; [exact En|].
  apply (IH (n + 1) Hall). lia.
Qed.

(** The 146097 days of the first 400 years, one by one. *)
Lemma cycle_ok : ordinals_ok (Z.to_nat 146097) 1 = true.
Proof. vm_cast_no_check (eq_refl true). Qed.

Lemma ord2ymd_ymd2ord (n : Z) :
  1 <= n <= MAXORDINAL ->
  exists y m d,
    ord2ymd n = (y, m, d) /\
    1 <= y <= 9999 /\ 1 <= m <= 12 /\ 1 <= d <= days_in_month y m /\
    ymd2ord y m d = n.
Proof.
  intros Hn. unfold MAXORDINAL in Hn.
  assert (exists q r, n = r + 146097 * q /\ 1 <= r <= 146097 /\ 0 <= q <= 24)
    as (q & r & -> & Hr & Hq).
  { exists ((n - 1) / 146097), ((n - 1) mod 146097 + 1).
    pose proof (Z.div_mod (n - 1) 146097 ltac:(lia)).
    pose proof (Z.mod_pos_bound (n - 1) 146097 ltac:(lia)).
    split; [lia|]. split; [lia|].
    split; [apply Z.div_pos; lia|].
    assert ((n - 1) / 146097 < 25); [|lia].
    apply Z.div_lt_upper_bound; lia. }
  assert (1 <= r < 1 + Z.of_nat (Z.to_nat 146097)) as Hr'
    by (rewrite Z2Nat.id; lia).
  pose proof (ordinals_ok_spec _ _ cycle_ok r Hr') as Hok.
  rewrite ord2ymd_period. unfold ordinal_ok in Hok.
  destruct (ord2ymd r) as [[y m] d].
  exists (y + 400 * q), m, d. split; [reflexivity|].
  rewrite days_in_month_period ymd2ord_period.
  repeat (apply andb_prop in Hok; destruct Hok as [Hok ?]).
  repeat match goal with
         | H : (_ <=? _) = true |- _ => apply Z.leb_le in H
         | H : (_ =? _) = true |- _ => apply Z.eqb_eq in H
         | H : (_ || _) = true |- _ => apply orb_prop in H
         end.
  assert (q = 24 -> y <= 399).
  { intros ->. destruct H4 as [Hlt|Hle]; [apply Z.ltb_lt in Hlt; lia|].
    by apply Z.leb_le. }
  repeat split; try lia.
Qed.

Lemma time_of_day (r : Z) :
  0 <= r < DAY ->
  0 <= r / 3600000000 <= 23 /\
  0 <= r / 60000000 mod 60 <= 59 /\
  0 <= r / 1000000 mod 60 <= 59 /\
  0 <= r mod 1000000 <= 999999 /\
  ((r / 3600000000 * 60 + r / 60000000 mod 60) * 60 + r / 1000000 mod 60)
    * 1000000 + r mod 1000000 = r.
Proof.
  unfold DAY. intros Hr.
  change 3600000000 with (1000000 * 60 * 60).
  change 60000000 with (1000000 * 60).
  rewrite <- !Z.div_div by lia.
  pose proof (Z.div_mod r 1000000 ltac:(lia)).
  pose proof (Z.mod_pos_bound r 1000000 ltac:(lia)).
  pose proof (Z.div_mod (r / 1000000) 60 ltac:(lia)).
  pose proof (Z.mod_pos_bound (r / 1000000) 60 ltac:(lia)).
  pose proof (Z.div_mod (r / 1000000 / 60) 60 ltac:(lia)).
  pose proof (Z.mod_pos_bound (r / 1000000 / 60) 60 ltac:(lia)).
  lia.
Qed.

Lemma days_in_month_le y m : days_in_month y m <= 31.
Proof.
  unfold days_in_month, DAYS_IN_MONTH.
  destruct (_ && _); [lia|].
  destruct m as [|p|p]; try lia.
  do 4 (destruct p as [p|p|]; try lia).
Qed.

(** [fromisoformat] reads back every [datetime] that [isoformat] wrote. *)
Lemma iso_round_trip (t : Z) :
  0 <= t < END_OF_TIME -> fromisoformat (isoformat t) = Some t.
Proof.
  intros Ht. unfold END_OF_TIME in Ht.
  assert (0 < DAY) as HD by (unfold DAY; lia).
  assert (1 <= t / DAY + 1 <= MAXORDINAL) as Hord.
  { split; [pose proof (Z.div_pos t DAY); lia|].
    assert (t / DAY < MAXORDINAL); [|lia].
    apply Z.div_lt_upper_bound; lia. }
  destruct (ord2ymd_ymd2ord _ Hord) as (y & m & d & Eymd & Hy & Hm & Hd & Hback).
  pose proof (days_in_month_le y m) as Hdim.
  destruct (time_of_day (t mod DAY) (Z.mod_pos_bound t DAY HD))
    as (Hh & Hmi & Hs & Hus & Hsum).
  unfold isoformat, fromisoformat. rewrite Eymd.
  do 6 (rewrite read_fmt; [simpl; lia|];
        cbn [mbind option_bind expect Ascii.eqb Bool.eqb]).
  assert (t = (ymd2ord y m d - 1) * DAY + t mod DAY) as Hsplit.
  { rewrite Hback. pose proof (Z.div_mod t DAY). lia. }
  destruct (Z.eqb_spec (t mod DAY mod 1000000) 0) as [Hzero|Hnonzero].
  - cbn [mbind option_bind].
    repeat match goal with
           | |- context [?a <=? ?b] => destruct (Z.leb_spec a b); [|lia]
           end.
    cbn [andb]. f_equal. lia.
  - rewrite read_fmt; [simpl; lia|]. cbn [mbind option_bind].
    repeat match goal with
           | |- context [?a <=? ?b] => destruct (Z.leb_spec a b); [|lia]
           end.
    cbn [andb]. f_equal. lia.
Qed.
End IsoFacts.

(** ** Persistence *)

Section LoadFacts.
Context `{Runtime}.

Lemma M_bind_ok {A B} (m : M A) (k : A -> M B) (a : A) :
  snd m = Ok a -> snd (m ≫= k) = snd (k a).
Proof.
  destruct m as [out r]. simpl. intros ->. simpl. by destruct (k a).
Qed.

Lemma M_bind_nil {A B} (m : M A) (k : A -> M B) (a : A) :
  m = ([], Ok a) -> m ≫= k = k a.
Proof. intros ->. simpl. by destruct (k a). Qed.

Lemma try_except_ok {A} (m : M A) handler (a : A) :
  snd m = Ok a -> snd (try_except m handler) = Ok a.
Proof. destruct m as [out r]. simpl. by intros ->. Qed.

(** A record that is a list of objects: the vendors that can be built,
    in the order of their entries. *)
Lemma PGVM_load_entries_objects (now : Z) (entries : list pyval) :
  Forall (fun entry => exists d, entry = PDict d) entries ->
  forall vendors,
    snd (PGVendorManager.load_entries now entries vendors) =
    Ok (vendors ++
        omap (fun entry =>
                match snd (PGVendorManager.from_dict now entry) with
                | Ok v => Some v
                | Raise _ => None
                end) entries).
Proof.
  induction 1 as [|entry entries [d ->] _ IH]; intros vendors.
  - simpl. by rewrite app_nil_r.
  - cbn [PGVendorManager.load_entries omap list_omap].
    destruct (PGVendorManager.from_dict now (PDict d)) as [out [v|e]].
    + rewrite (M_bind_ok _ _ (vendors ++ [v])); [reflexivity|].
      rewrite IH. simpl. by rewrite <- app_assoc.
    + rewrite (M_bind_ok _ _ vendors); [reflexivity|]. apply IH.
Qed.

Lemma PGVM_from_dict_to_dict (now : Z) (v : PGVendorManager.Vendor) :
  (exists n z cs,
     PGVendorManager.name v = PStr n /\ PGVendorManager.zone v = PStr z /\
     PGVendorManager.categories v = PList (map PStr cs)) ->
  fromisoformat (isoformat (PGVendorManager.last_reset v))
    = Some (PGVendorManager.last_reset v) ->
  PGVendorManager.from_dict now (PGVendorManager.to_dict v) = ([], Ok v).
Proof.
  intros (n & z & cs & Hn & Hz & Hc) Hiso. destruct v as [nm zn cl lr rm ct].
  simpl in *. subst. unfold PGVendorManager.Vendor_init, dict_get. simpl.
  rewrite Hiso. simpl. by destruct cs.
Qed.

Lemma PGVM_load_entries_to_dict (now : Z)
    (vendors : list PGVendorManager.Vendor) :
  Forall (fun v =>
            (exists n z cs,
               PGVendorManager.name v = PStr n /\
               PGVendorManager.zone v = PStr z /\
               PGVendorManager.categories v = PList (map PStr cs)) /\
            fromisoformat (isoformat (PGVendorManager.last_reset v))
              = Some (PGVendorManager.last_reset v)) vendors ->
  forall acc,
    PGVendorManager.load_entries now (map PGVendorManager.to_dict vendors) acc
    = ([], Ok (acc ++ vendors)).
Proof.
  induction 1 as [|v vendors [Hty Hiso] _ IH]; intros acc.
  - simpl. by rewrite app_nil_r.
  - change (map PGVendorManager.to_dict (v :: vendors))
      with (PGVendorManager.to_dict v :: map PGVendorManager.to_dict vendors).
    cbn [PGVendorManager.load_entries].
    rewrite (PGVM_from_dict_to_dict now v Hty Hiso). simpl.
    rewrite IH. by rewrite <- app_assoc.
Qed.

Lemma str_list_serializable (cs : list string) :
  forallb json_serializable (map PStr cs) = true.
Proof. induction cs as [|c cs IH]; [reflexivity|exact IH]. Qed.

Lemma PGVM_to_dict_serializable (vendors : list PGVendorManager.Vendor) :
  Forall (fun v =>
            exists n z cs,
              PGVendorManager.name v = PStr n /\
              PGVendorManager.zone v = PStr z /\
              PGVendorManager.categories v = PList (map PStr cs)) vendors ->
  json_serializable (PList (map PGVendorManager.to_dict vendors)) = true.
Proof.
  induction 1 as [|v vendors (n & z & cs & Hn & Hz & Hc) _ IH];
    [reflexivity|].
  simpl in *. rewrite Hn Hz Hc. simpl.
  by rewrite str_list_serializable IH.
Qed.

Lemma tracker7_from_dicts_ok (entries : list pyval) vendors :
  vendor_tracker7.from_dicts entries = Ok vendors ->
  Forall2 (fun entry v => vendor_tracker7.from_dict entry = Ok v)
    entries vendors.
Proof.
  revert vendors. induction entries as [|entry entries IH]; intros vendors.
  - intros [= <-]. constructor.
  - simpl. destruct (vendor_tracker7.from_dict entry) as [v|e] eqn:E;
      [|discriminate].
    simpl. destruct (vendor_tracker7.from_dicts entries) as [vs|e];
      [|discriminate].
    intros [= <-]. constructor; [exact E|by apply IH].
Qed.

End LoadFacts.

Lemma PGVM_save_then_load `{Runtime} (files : gmap string file)
    (vendors : list PGVendorManager.Vendor) (character_name : string)
    (now : Z) :
  Forall (fun v =>
            (exists n z cs,
               PGVendorManager.name v = PStr n /\
               PGVendorManager.zone v = PStr z /\
               PGVendorManager.categories v = PList (map PStr cs)) /\
            fromisoformat (isoformat (PGVendorManager.last_reset v))
              = Some (PGVendorManager.last_reset v)) vendors ->
  exists files',
    PGVendorManager.save_vendors files vendors character_name
      = (files', ([], Ok tt)) /\
    PGVendorManager.load_vendors files' now character_name
      = ([], Ok vendors).
Proof.
  intros Hv. unfold PGVendorManager.save_vendors.
  rewrite PGVM_to_dict_serializable.
  { eapply Forall_impl; [exact Hv|]. by intros v [Hty _]. }
  eexists. split; [reflexivity|].
  unfold PGVendorManager.load_vendors. rewrite lookup_insert_eq. simpl.
  by rewrite (PGVM_load_entries_to_dict now vendors Hv []).
Qed.

(** C4.  For vendors as the data model types them (name and zone strings,
    categories a list of strings) whose [last_reset] the ISO format gives
    back, [save_vendors] returns, and [load_vendors] of the same character
    then returns, without a diagnostic, the collection that was saved:
    as many vendors, in the same order, equal in name, zone, amount left,
    maximum and categories, and equal in [last_reset] to the
    microsecond. *)
Theorem save_load_round_trip `{Runtime} (files : gmap string file)
    (vendors : list PGVendorManager.Vendor) (character_name : string)
    (now : Z) :
  Forall (fun v =>
            (exists n z cs,
               PGVendorManager.name v = PStr n /\
               PGVendorManager.zone v = PStr z /\
               PGVendorManager.categories v = PList (map PStr cs)) /\
            fromisoformat (isoformat (PGVendorManager.last_reset v))
              = Some (PGVendorManager.last_reset v)) vendors ->
  exists files' loaded,
    PGVendorManager.save_vendors files vendors character_name
      = (files', ([], Ok tt)) /\
    PGVendorManager.load_vendors files' now character_name
      = ([], Ok loaded) /\
    loaded = vendors /\
    length loaded = length vendors /\
    (forall i v,
       vendors !! i = Some v ->
       exists v',
         loaded !! i = Some v' /\
         PGVendorManager.name v' = PGVendorManager.name v /\
         PGVendorManager.zone v' = PGVendorManager.zone v /\
         PGVendorManager.council_left v' = PGVendorManager.council_left v /\
         PGVendorManager.reset_maximum v' = PGVendorManager.reset_maximum v /\
         PGVendorManager.categories v' = PGVendorManager.categories v /\
         PGVendorManager.last_reset v' = PGVendorManager.last_reset v).
Proof.
  intros Hv.
  destruct (PGVM_save_then_load files vendors character_name now Hv)
    as (files' & Hsave & Hload).
  exists files', vendors. repeat split; try done.
  intros i v Hi. by exists v.
Qed.

(** With the ISO format of the runtime above the condition on
    [last_reset] is met by every [datetime], from 0001-01-01T00:00:00 to
    9999-12-31T23:59:59.999999. *)
Corollary save_load_round_trip_iso (files : gmap string file)
    (vendors : list PGVendorManager.Vendor) (character_name : string)
    (now : Z) :
  Forall (fun v =>
            (exists n z cs,
               PGVendorManager.name v = PStr n /\
               PGVendorManager.zone v = PStr z /\
               PGVendorManager.categories v = PList (map PStr cs)) /\
            0 <= PGVendorManager.last_reset v < Reference.END_OF_TIME)
    vendors ->
  exists files',
    @PGVendorManager.save_vendors Reference.runtime files vendors
      character_name = (files', ([], Ok tt)) /\
    @PGVendorManager.load_vendors Reference.runtime files' now
      character_name = ([], Ok vendors).
Proof.
  intros Hv. apply (@PGVM_save_then_load Reference.runtime).
  eapply Forall_impl; [exact Hv|].
  intros v [Hty Hrange]. split; [exact Hty|]. by apply iso_round_trip.
Qed.

(** C4 on two vendors, one with microseconds in its [last_reset]. *)
Lemma save_load_round_trip_witness :
  let vendors :=
    [PGVendorManager.Build_Vendor (PStr "Joeh") (PStr "Serbule") 0
       63844808709000042 5000 (PList [PStr "Armor"; PStr "Misc"]);
     PGVendorManager.Build_Vendor (PStr "Elahil") (PStr "Serbule") 1500
       63844808709000000 1500 (PList [])] in
  exists files',
    @PGVendorManager.save_vendors Reference.runtime ∅ vendors "Al!ce 2"
      = (files', ([], Ok tt)) /\
    @PGVendorManager.load_vendors Reference.runtime files' 63844808709000042 "Al!ce 2"
      = ([], Ok vendors).
Proof.
  intros vendors.
  destruct (@save_load_round_trip Reference.runtime ∅ vendors "Al!ce 2" 63844808709000042)
    as (files' & loaded & Hsave & Hload & -> & _);
    [|by exists files'].
  apply Forall_cons. split; [split|].
  - by exists "Joeh"%string, "Serbule"%string, ["Armor"; "Misc"]%string.
  - vm_compute. reflexivity.
  - apply Forall_cons. split; [split|apply Forall_nil_2].
    + by exists "Elahil"%string, "Serbule"%string, [].
    + vm_compute. reflexivity.
Defined.




(** In [PGVendorManager.py] the report on a skipped entry reads
    [vendor_data.get]: an entry that is not an object, here the number 42,
    makes the report itself raise [AttributeError], which no handler of
    [load_vendors] takes. *)
Lemma PGVM_load_entry_not_object :
  let good :=
    [("name", PStr "Joeh"); ("zone", PStr "Serbule");
     ("council_left", PInt 5000);
     ("last_reset", PStr "2024-02-29T13:05:09");
     ("reset_maximum", PInt 5000); ("categories", PList [])]%string in
  let files : gmap string file :=
    {[ @PGVendorManager.character_file_path Reference.runtime "Default"
         := JsonDocument (PList [PDict good; PInt 42]) ]} in
  snd (@PGVendorManager.load_vendors Reference.runtime files 63844808709000042 "Default")
  = Raise AttributeError.
Proof. vm_compute. reflexivity. Qed.

(** * Further properties of the code *)

From Stdlib Require Import Sorting.Sorted.
Set Warnings "-clear-no-such-hyp".

(** ** De-duplication and normalisation, once more *)

Lemma dedupe_fold (l : list string) : forall seen (final_cats : list string),
  (forall c, c ∈ seen <-> c ∈ final_cats) ->
  NoDup final_cats ->
  exists added,
    fold_left dedupe_step l (seen, final_cats)
    = (list_to_set added ∪ seen, final_cats ++ added) /\
    NoDup (final_cats ++ added) /\
    sublist added l /\
    (forall c, c ∈ l -> c ∈ final_cats ++ added).
Proof.
  induction l as [|c l IH]; intros seen fc Hseen Hnd.
  - exists []. simpl. rewrite app_nil_r. split; [f_equal; set_solver|].
    split; [done|]. split; [done|]. intros c Hc. by apply elem_of_nil in Hc.
  - simpl. destruct (decide (c ∈ seen)) as [Hin|Hnin].
    + destruct (IH seen fc Hseen Hnd) as (added & E & Hnd' & Hsub & Hall).
      exists added. split; [exact E|]. split; [exact Hnd'|].
      split; [by apply sublist_cons|].
      intros x [->|Hx]%elem_of_cons; [|by apply Hall].
      apply elem_of_app. left. by apply Hseen.
    + assert (c ∉ fc) as Hfc by (by rewrite <- Hseen).
      destruct (IH ({[c]} ∪ seen) (fc ++ [c])) as (added & E & Hnd' & Hsub & Hall).
      { intros x. rewrite elem_of_union elem_of_singleton elem_of_app
          list_elem_of_singleton Hseen. tauto. }
      { apply NoDup_app. split; [done|]. split; [|apply NoDup_singleton].
        intros x Hx ->%list_elem_of_singleton. done. }
      exists (c :: added). rewrite E. rewrite <- app_assoc in *. simpl in *.
      split; [f_equal; set_solver|]. split; [exact Hnd'|].
      split; [by apply sublist_skip|].
      intros x [->|Hx]%elem_of_cons; [|by apply Hall].
      apply elem_of_app. right. by left.
Qed.

Lemma sublist_full {A} (l1 l2 : list A) :
  sublist l1 l2 -> (length l2 <= length l1)%nat -> l1 = l2.
Proof.
  induction 1 as [|x l1 l2 Hsub IH|x l1 l2 Hsub IH]; simpl; intros Hlen.
  - reflexivity.
  - f_equal. apply IH. lia.
  - apply sublist_length in Hsub. lia.
Qed.

(** X1.  The de-duplication loop of the add and update dialogs keeps the
    first occurrence of every category and nothing else: its result has no
    category twice, is a sub-sequence of the selection, holds the same
    categories as the selection, is not changed by a category selected
    again at the end, is extended by a new one, and is the selection
    itself when that has no duplicates. *)
Theorem dedupe_first_occurrences (selected_cats : list string) :
  NoDup (dedupe selected_cats) /\
  sublist (dedupe selected_cats) selected_cats /\
  (forall c, c ∈ dedupe selected_cats <-> c ∈ selected_cats) /\
  (forall c, c ∈ selected_cats ->
             dedupe (selected_cats ++ [c]) = dedupe selected_cats) /\
  (forall c, c ∉ selected_cats ->
             dedupe (selected_cats ++ [c]) = dedupe selected_cats ++ [c]) /\
  (NoDup selected_cats -> dedupe selected_cats = selected_cats).
Proof.
  unfold dedupe.
  destruct (dedupe_fold selected_cats ∅ []) as (added & E & Hnd & Hsub & Hall).
  { intros c. set_solver. }
  { constructor. }
  simpl in *. rewrite E. simpl.
  split; [exact Hnd|]. split; [exact Hsub|].
  split. { intros c. split; [intros Hc; by apply (elem_of_sublist _ _ _ Hc)|by apply Hall]. }
  split.
  { intros c Hin'. rewrite fold_left_app E. simpl.
    destruct (decide (c ∈ list_to_set added ∪ ∅)) as [Hin|Hnin]; [done|].
    exfalso. apply Hnin. specialize (Hall c Hin'). set_solver. }
  split.
  - intros c Hnin'. rewrite fold_left_app E. simpl.
    destruct (decide (c ∈ list_to_set added ∪ ∅)) as [Hin|Hnin]; [|done].
    exfalso. apply Hnin'. apply (elem_of_sublist added); [set_solver|exact Hsub].
  - intros Hnd'. apply sublist_full; [exact Hsub|].
    apply submseteq_length, NoDup_submseteq; [exact Hnd'|exact Hall].
Qed.

(** X1 on the ticked categories [Armor], [Misc] and the custom one
    [Armor]. *)
Lemma dedupe_first_occurrences_witness :
  dedupe (["Armor"; "Misc"] ++ ["Armor"]) = dedupe ["Armor"; "Misc"] /\
  dedupe (["Armor"; "Misc"] ++ ["Fish"])
  = dedupe ["Armor"; "Misc"] ++ ["Fish"] /\
  dedupe ["Armor"; "Misc"] = ["Armor"; "Misc"].
Proof.
  destruct (dedupe_first_occurrences ["Armor"; "Misc"])
    as (_ & _ & _ & Hold & Hnew & Hid).
  split; [|split].
  - apply Hold. apply list_elem_of_In. simpl. by left.
  - apply Hnew. intros Hin%list_elem_of_In. simpl in Hin.
    by destruct Hin as [Hin|[Hin|[]]].
  - apply Hid. apply NoDup_ListNoDup. repeat constructor; simpl.
    + by intros [Hin|[]].
    + by intros [].
Defined.

(** X2.  [_clamp_reset_inputs] on the values of the embedding, that is
    [None], a [bool], an [int], a [str], a [datetime], a list or a dict
    (the dialogs pass it integers and the texts of entry fields; a
    [float] is not among them), returns a canonical triple that it maps
    to itself.  In [PGVendorManager.py] it returns for every three such
    values, with or without override: days not negative (at most 6
    without override), hours in 0..23 and minutes in 0..59.  In
    [vendor_tracker7.py] the triple it returns has days in 0..6, hours in
    0..23 and minutes in 0..59, and the only exception that leaves it on
    such values is [TypeError]. *)
Theorem clamp_canonical_idempotent `{Runtime}
    (days hours minutes : pyval) :
  (forall override, exists d h m,
     PGVendorManager._clamp_reset_inputs days hours minutes override
       = Ok (d, h, m) /\
     0 <= d /\ 0 <= h <= 23 /\ 0 <= m <= 59 /\
     (override = false -> d <= 6) /\
     PGVendorManager._clamp_reset_inputs (PInt d) (PInt h) (PInt m) override
       = Ok (d, h, m)) /\
  (forall d h m,
     vendor_tracker7._clamp_reset_inputs days hours minutes = Ok (d, h, m) ->
     0 <= d <= 6 /\ 0 <= h <= 23 /\ 0 <= m <= 59 /\
     vendor_tracker7._clamp_reset_inputs (PInt d) (PInt h) (PInt m)
       = Ok (d, h, m)) /\
  (forall e,
     vendor_tracker7._clamp_reset_inputs days hours minutes = Raise e ->
     e = TypeError).
Proof.
  split; [|split].
  - intros override.
    destruct (PGVM_clamp_range days hours minutes override)
      as (d & h & m & E & Hd & Hh & Hm & Htotal).
    exists d, h, m. split; [exact E|]. repeat split; try lia.
    + intros ->. specialize (Htotal eq_refl). lia.
    + destruct (PGVM_clamp_canonical_ints d h m Hd Hh Hm) as [Hno Hov].
      destruct override; [exact Hov|]. apply Hno. by apply Htotal.
  - intros d h m E.
    assert (0 <= d <= 6 /\ 0 <= h <= 23 /\ 0 <= m <= 59) as (Hd & Hh & Hm).
    { destruct (tracker7_clamp_cases days hours minutes)
        as [E'|[E'|(a & b & c & E')]]; rewrite E' in E.
      - injection E as <- <- <-. lia.
      - discriminate.
      - rewrite tracker7_clamp_ints in E. injection E as <- <- <-. lia. }
    repeat split; try lia.
    rewrite tracker7_clamp_ints. do 2 f_equal; [f_equal|]; lia.
  - intros e E.
    destruct (tracker7_clamp_cases days hours minutes)
      as [E'|[E'|(a & b & c & E')]]; rewrite E' in E; try discriminate.
    + by injection E as <-.
    + by rewrite tracker7_clamp_ints in E.
Qed.

(** X2 on 9 days and 30 hours typed into [vendor_tracker7.py]. *)
Lemma clamp_canonical_idempotent_witness :
  @vendor_tracker7._clamp_reset_inputs Reference.runtime
    (PInt 9) (PInt 30) (PInt 0) = Ok (6, 23, 0) /\
  @vendor_tracker7._clamp_reset_inputs Reference.runtime
    (PInt 6) (PInt 23) (PInt 0) = Ok (6, 23, 0).
Proof.
  split; [reflexivity|].
  apply (proj1 (proj2 (@clamp_canonical_idempotent Reference.runtime
                         (PInt 9) (PInt 30) (PInt 0))) 6 23 0).
  reflexivity.
Defined.
(** ** Sorting and clusters of a sorted list *)

Section SortedFacts.
Context {A : Type} (key : A -> Z).

Local Abbreviation le := (fun x y => key x <=? key y).

Lemma insert_sorted_perm (x : A) (l : list A) :
  insert_sorted le x l ≡ₚ x :: l.
Proof.
  induction l as [|y l IH]; simpl; [done|].
  destruct (key x <=? key y); [done|].
  rewrite IH. apply Permutation_swap.
Qed.

Lemma sorted_perm (l : list A) : sorted le l ≡ₚ l.
Proof.
  induction l as [|x l IH]; simpl; [done|].
  by rewrite insert_sorted_perm IH.
Qed.

Lemma insert_sorted_sorted (x : A) (l : list A) :
  StronglySorted (fun a b => key a <= key b) l ->
  StronglySorted (fun a b => key a <= key b) (insert_sorted le x l).
Proof.
  induction 1 as [|y l Hl IH Hy]; simpl.
  - repeat constructor.
  - destruct (Z.leb_spec (key x) (key y)) as [Hle|Hlt].
    + constructor; [by constructor|]. constructor; [exact Hle|].
      eapply Forall_impl; [exact Hy|]. intros z Hz. simpl in Hz. lia.
    + constructor; [exact IH|].
      rewrite insert_sorted_perm. constructor; [lia|exact Hy].
Qed.

Lemma sorted_sorted (l : list A) :
  StronglySorted (fun a b => key a <= key b) (sorted le l).
Proof.
  induction l as [|x l IH]; simpl; [constructor|].
  by apply insert_sorted_sorted.
Qed.

(** Vendors of one key stay in the order they had. *)
Lemma insert_sorted_stable (k : Z) (x : A) (l : list A) :
  filter (fun y => key y = k) (insert_sorted le x l)
  = filter (fun y => key y = k) (x :: l).
Proof.
  induction l as [|y l IH]; simpl; [done|].
  destruct (Z.leb_spec (key x) (key y)) as [Hle|Hlt]; [done|].
  rewrite filter_cons IH !filter_cons.
  destruct (decide (key y = k)) as [Hy|Hy];
    destruct (decide (key x = k)) as [Hx|Hx]; try done. lia.
Qed.

Lemma sorted_stable (k : Z) (l : list A) :
  filter (fun y => key y = k) (sorted le l) = filter (fun y => key y = k) l.
Proof.
  induction l as [|x l IH]; simpl; [done|].
  by rewrite insert_sorted_stable !filter_cons IH.
Qed.

End SortedFacts.

Section ClustersOfSorted.
Context {V : Type} (next_reset : V -> Z).

Local Abbreviation group := (_group_vendors_by_reset_time next_reset).

Lemma group_cons_cons (a b : V) (rest : list V) :
  group (a :: b :: rest) =
  if next_reset b - next_reset a >? THRESH
  then [a] :: group (b :: rest)
  else match group (b :: rest) with
       | c :: cs => (a :: c) :: cs
       | [] => [[a]]
       end.
Proof.
  rewrite !group_cons. simpl.
  rewrite (group_loop_acc next_reset rest b [] [b]).
  destruct (next_reset b - next_reset a >? THRESH).
  - rewrite (group_loop_acc next_reset rest b [[a]] [b]).
    by destruct (group_loop next_reset b rest [] []) as [[|c cs'] cur'].
  - rewrite (group_loop_acc next_reset rest b [] [a; b]).
    by destruct (group_loop next_reset b rest [] []) as [[|c cs'] cur'].
Qed.

Lemma group_concat_again (vendors : list V) : concat (group vendors) = vendors.
Proof.
  destruct vendors as [|v0 rest]; [reflexivity|].
  rewrite group_cons concat_app. simpl. rewrite app_nil_r.
  by rewrite group_loop_concat.
Qed.

Lemma group_head (a : V) (rest : list V) :
  exists c cs, group (a :: rest) = (a :: c) :: cs.
Proof.
  revert a. induction rest as [|b rest IH]; intros a.
  - by exists [], [].
  - rewrite group_cons_cons. destruct (IH b) as (c & cs & E).
    destruct (_ >? _); [by eexists _, _|].
    rewrite E. by eexists _, _.
Qed.

Lemma group_nonempty (vendors : list V) :
  Forall (fun c => c <> []) (group vendors).
Proof.
  induction vendors as [|a [|b rest] IH].
  - constructor.
  - by repeat constructor.
  - rewrite group_cons_cons. destruct (_ >? _); [by constructor|].
    destruct (group_head b rest) as (c & cs & E). rewrite E in IH |- *.
    apply Forall_cons in IH as [_ Hcs]. by constructor.
Qed.

(** Inside a cluster neighbours are at most one hour apart. *)
Lemma group_chain (vendors : list V) :
  Forall (fun c => forall k a b,
            c !! k = Some a -> c !! S k = Some b ->
            next_reset b - next_reset a <= THRESH) (group vendors).
Proof.
  induction vendors as [|a [|b rest] IH].
  - constructor.
  - repeat constructor. intros k x y Hx Hy. by destruct k.
  - rewrite group_cons_cons.
    destruct (Z.gtb_spec (next_reset b - next_reset a) THRESH) as [Hgt|Hle].
    + constructor; [|exact IH]. intros k x y Hx Hy. by destruct k.
    + destruct (group_head b rest) as (c & cs & E). rewrite E in IH |- *.
      apply Forall_cons in IH as [Hc Hcs]. constructor; [|exact Hcs].
      intros [|k] x y Hx Hy; simpl in *.
      * injection Hx as <-. injection Hy as <-. exact Hle.
      * by apply (Hc k).
Qed.

(** In a sorted list, vendors of different clusters are more than one
    hour apart. *)
Lemma group_separated (vendors : list V) :
  StronglySorted (fun a b => next_reset a <= next_reset b) vendors ->
  forall i j ci cj u w,
    group vendors !! i = Some ci -> group vendors !! j = Some cj ->
    (i < j)%nat -> u ∈ ci -> w ∈ cj ->
    next_reset w - next_reset u > THRESH.
Proof.
  induction 1 as [|a rest Hrest IH Ha]; [intros i j ci cj u w Hi; done|].
  destruct rest as [|b rest].
  { intros i j ci cj u w Hi Hj Hij. destruct j; [lia|done]. }
  assert (forall j cj w, group (b :: rest) !! j = Some cj -> w ∈ cj ->
                         w ∈ b :: rest) as Hmem.
  { intros j cj w Hj Hw. rewrite <- (group_concat_again (b :: rest)).
    apply list_elem_of_In, in_concat. exists cj.
    split; apply list_elem_of_In; [|exact Hw].
    exact (list_elem_of_lookup_2 _ j _ Hj). }
  rewrite group_cons_cons.
  destruct (Z.gtb_spec (next_reset b - next_reset a) THRESH) as [Hgt|Hle].
  - intros [|i] [|j] ci cj u w Hi Hj Hij Hu Hw; simpl in *; try lia.
    + injection Hi as <-. apply list_elem_of_singleton in Hu as ->.
      pose proof (Hmem j cj w Hj Hw) as Hw'.
      apply elem_of_cons in Hw' as [->|Hw']; [lia|].
      apply StronglySorted_inv in Hrest as [_ Hb].
      rewrite Forall_forall in Hb. specialize (Hb w Hw'). simpl in Hb. lia.
    + apply (IH i j ci cj); [done|done|lia|done|done].
  - destruct (group_head b rest) as (c & cs & E). rewrite E in IH, Hmem |- *.
    intros [|i] [|j] ci cj u w Hi Hj Hij Hu Hw; simpl in *; try lia.
    + injection Hi as <-.
      assert (next_reset w - next_reset b > THRESH) as Hwb.
      { apply (IH 0%nat (S j) (b :: c) cj); [done|done|lia|by left|done]. }
      apply elem_of_cons in Hu as [->|Hu].
      * rewrite Forall_forall in Ha.
        specialize (Ha b ltac:(by left)). simpl in Ha. lia.
      * apply (IH 0%nat (S j) (b :: c) cj); [done|done|lia|done|done].
    + apply (IH (S i) (S j) ci cj); [done|done|lia|done|done].
Qed.

End ClustersOfSorted.

(** X3.  [_group_vendors_by_reset_time] on any list: no cluster is empty,
    and inside a cluster each vendor resets at most one hour after the one
    before it.  On a list in ascending order of [next_reset], as
    [update_vendor_list] passes it, two vendors of different clusters are
    more than one hour apart, the one of the later cluster being the later
    one. *)
Theorem clusters_of_sorted {V : Type} (next_reset : V -> Z)
    (vendors : list V) :
  let clusters := _group_vendors_by_reset_time next_reset vendors in
  Forall (fun c => c <> []) clusters /\
  Forall (fun c => forall k a b,
            c !! k = Some a -> c !! S k = Some b ->
            next_reset b - next_reset a <= THRESH) clusters /\
  (StronglySorted (fun a b => next_reset a <= next_reset b) vendors ->
   forall i j ci cj u w,
     clusters !! i = Some ci -> clusters !! j = Some cj ->
     (i < j)%nat -> u ∈ ci -> w ∈ cj ->
     next_reset w - next_reset u > THRESH).
Proof.
  split; [apply group_nonempty|].
  split; [apply group_chain|apply group_separated].
Qed.

(** X3 on resets at 0:00, 0:30 and 2:00: the third vendor is alone in the
    second cluster, more than an hour after the first one. *)
Lemma clusters_of_sorted_witness :
  let vendors := [0; 1800000000; 7200000000] in
  StronglySorted (fun a b : Z => id a <= id b) vendors /\
  _group_vendors_by_reset_time id vendors
  = [[0; 1800000000]; [7200000000]] /\
  id 7200000000 - id 0 > THRESH.
Proof.
  intros vendors.
  assert (StronglySorted (fun a b : Z => id a <= id b) vendors) as Hsorted.
  { unfold vendors, id. repeat constructor; lia. }
  split; [exact Hsorted|]. split; [reflexivity|].
  apply (proj2 (proj2 (clusters_of_sorted id vendors)) Hsorted
           0%nat 1%nat [0; 1800000000] [7200000000]).
  - reflexivity.
  - reflexivity.
  - lia.
  - apply list_elem_of_In. simpl. by left.
  - apply list_elem_of_In. simpl. by left.
Defined.

(** ** The vendor list *)

Section VendorListFacts.
Context `{Runtime} `{Text}.
Import PGVendorManager PGVendorManagerUI.

Lemma join_items_raises sep items e :
  join_items sep items = Raise e -> e = TypeError.
Proof.
  induction items as [|x items IH]; [discriminate|].
  destruct x; simpl; try by intros [= <-].
  destruct items as [|y items]; [discriminate|].
  destruct (join_items sep (y :: items)) as [r|e']; simpl; [discriminate|].
  intros [= <-]. by apply IH.
Qed.

Lemma join_raises sep v e : join sep v = Raise e -> e = TypeError.
Proof.
  unfold join. destruct v; simpl; try by intros [= <-].
  all: apply join_items_raises.
Qed.

Lemma join_items_strs sep (cs : list string) :
  exists s, join_items sep (map PStr cs) = Ok s.
Proof.
  induction cs as [|c cs [s IH]]; [by exists ""%string|].
  destruct cs as [|c' cs]; [by exists c|].
  change (map PStr (c :: c' :: cs)) with (PStr c :: map PStr (c' :: cs)).
  cbn [join_items]. change (map PStr (c' :: cs)) with (PStr c' :: map PStr cs) in *.
  rewrite IH. by eexists.
Qed.

Lemma contains_empty hay : contains "" hay = true.
Proof. by destruct hay. Qed.

Local Abbreviation shown query :=
  (fun v => match search_blob v with
            | Ok blob => contains query blob
            | Raise _ => false
            end).

Lemma filter_loop_ok query vendors :
  Forall (fun v => exists cats, join " " (categories v) = Ok cats) vendors ->
  forall filtered,
    filter_loop query vendors filtered
    = Ok (filtered ++ List.filter (shown query) vendors).
Proof.
  induction 1 as [|v vendors [cats Hv] _ IH]; intros filtered; simpl.
  - by rewrite app_nil_r.
  - unfold search_blob. rewrite Hv. simpl. rewrite IH.
    destruct (contains _ _); [by rewrite <- app_assoc|done].
Qed.

Lemma filter_loop_raise query vendors v e :
  v ∈ vendors -> join " " (categories v) = Raise e ->
  forall filtered, filter_loop query vendors filtered = Raise TypeError.
Proof.
  intros Hin Hv. induction vendors as [|x vendors IH]; intros filtered.
  - by apply elem_of_nil in Hin.
  - simpl. unfold search_blob.
    destruct (join " " (categories x)) as [cats|e'] eqn:Ex; simpl.
    + apply elem_of_cons in Hin as [->|Hin]; [congruence|]. by apply IH.
    + by rewrite (join_raises _ _ _ Ex).
Qed.

Local Abbreviation rows_of g now clusters :=
  (concat (imap (fun i cluster =>
                   map (fun vendor =>
                          {| border_color := g i;
                             bg := row_bg now vendor;
                             row_vendor := vendor |}) cluster)
             clusters)).

Lemma rows_vendors now (clusters : list (list Vendor)) :
  forall g : nat -> option string,
    map row_vendor (rows_of g now clusters) = concat clusters.
Proof.
  induction clusters as [|c clusters IH]; intros g; [reflexivity|].
  rewrite imap_cons. simpl. rewrite map_app. f_equal.
  - rewrite map_map. simpl. apply map_id.
  - apply (IH (fun i => g (S i))).
Qed.

Lemma rows_bg now (clusters : list (list Vendor)) :
  forall g : nat -> option string,
    Forall (fun r => bg r = row_bg now (row_vendor r))
      (rows_of g now clusters).
Proof.
  induction clusters as [|c clusters IH]; intros g; [constructor|].
  rewrite imap_cons. simpl. apply Forall_app. split.
  - apply Forall_forall. intros r Hr. apply list_elem_of_In, in_map_iff in Hr.
    by destruct Hr as (v & <- & _).
  - apply (IH (fun i => g (S i))).
Qed.

Lemma rows_border now (clusters : list (list Vendor)) :
  forall g : nat -> option string,
    map border_color (rows_of g now clusters)
    = concat (imap (fun i c => replicate (length c) (g i)) clusters).
Proof.
  induction clusters as [|c clusters IH]; intros g; [reflexivity|].
  rewrite !imap_cons. simpl. rewrite map_app. f_equal.
  - rewrite map_map. simpl. clear. induction c as [|v c IH]; [done|].
    simpl. by rewrite IH.
  - apply (IH (fun i => g (S i))).
Qed.

Lemma borders_const {A} (g : nat -> option string) (x : option string)
    (l : list (list A)) :
  (forall i c, l !! i = Some c -> g i = x) ->
  concat (imap (fun i c => replicate (length c) (g i)) l)
  = replicate (length (concat l)) x.
Proof.
  revert g. induction l as [|c l IH]; intros g Hg; [reflexivity|].
  rewrite imap_cons. simpl. rewrite length_app replicate_add.
  f_equal; [by rewrite (Hg 0%nat c)|].
  apply (IH (fun i => g (S i))). intros i c' Hi. by apply (Hg (S i) c').
Qed.

(** The list when no vendor makes the filter fail. *)
Lemma update_vendor_list_ok filter_text now vendors :
  Forall (fun v => exists cats, join " " (categories v) = Ok cats) vendors ->
  let sorted_vendors :=
    sorted (fun x y => next_reset x <=? next_reset y)
      (List.filter (shown (strip (lower filter_text))) vendors) in
  let clusters := _group_vendors_by_reset_time next_reset sorted_vendors in
  update_vendor_list filter_text now vendors
  = ([], rows_of (cluster_border (length clusters)) now clusters).
Proof.
  intros Hv. unfold update_vendor_list.
  by rewrite (filter_loop_ok _ _ Hv []).
Qed.

(** The vendors of the frames, in either case, are clustered as the
    frames are. *)
Lemma update_vendor_list_clusters filter_text now vendors :
  exists clusters,
    snd (update_vendor_list filter_text now vendors)
    = rows_of (cluster_border (length clusters)) now clusters /\
    _group_vendors_by_reset_time next_reset
      (map row_vendor (snd (update_vendor_list filter_text now vendors)))
    = clusters.
Proof.
  unfold update_vendor_list.
  destruct (filter_loop _ vendors []) as [filtered|e]; simpl.
  - eexists. split; [reflexivity|].
    by rewrite rows_vendors group_concat_again.
  - by exists [].
Qed.

End VendorListFacts.





(** X6.  One vendor whose categories cannot be joined (a number among
    them, or not a sequence at all) makes [update_vendor_list] fail for
    the whole collection, whatever the filter: the [TypeError] is printed
    and shown and no frame is left. *)
Theorem update_vendor_list_error `{Runtime} `{Text} (filter_text : string)
    (now : Z) (vendors : list PGVendorManager.Vendor)
    (v : PGVendorManager.Vendor) (e : exn) :
  v ∈ vendors ->
  join " " (PGVendorManager.categories v) = Raise e ->
  PGVendorManagerUI.update_vendor_list filter_text now vendors
  = ([ui_print (ErrorUpdatingVendorList TypeError);
      ui_showerror (ErrorUpdatingVendorList TypeError)], []).
Proof.
  intros Hin Hv. unfold PGVendorManagerUI.update_vendor_list.
  by rewrite (filter_loop_raise _ vendors v e Hin Hv).
Qed.

(** X6 on a record that [load_vendors] accepts: the second vendor has
    the number 7 among its categories, and the filter asks for the first
    vendor only. *)
Lemma update_vendor_list_error_witness :
  let entry n cats :=
    PDict [("name", PStr n); ("zone", PStr "Serbule");
           ("council_left", PInt 5000);
           ("last_reset", PStr "2024-02-29T13:05:09");
           ("reset_maximum", PInt 5000); ("categories", cats)]%string in
  let files : gmap string file :=
    {[ @PGVendorManager.character_file_path Reference.runtime "Default"
         := JsonDocument (PList [entry "Joeh" (PList [PStr "Armor"]);
                                 entry "Elahil" (PList [PInt 7])]) ]} in
  exists joeh elahil,
    @PGVendorManager.load_vendors Reference.runtime files 63844808709000042 "Default"
    = ([], Ok [joeh; elahil]) /\
    @PGVendorManagerUI.update_vendor_list Reference.runtime
      ReferenceText.text "joeh" 63844808709000042 [joeh; elahil]
    = ([ui_print (ErrorUpdatingVendorList TypeError);
        ui_showerror (ErrorUpdatingVendorList TypeError)], []).
Proof.
  intros entry files. eexists _, _. split; [vm_compute; reflexivity|].
  eapply (@update_vendor_list_error Reference.runtime ReferenceText.text).
  - apply list_elem_of_In. simpl. right. left. reflexivity.
  - reflexivity.
Defined.

(** ** Countdowns *)

Lemma split_timedelta (td : Z) :
  let seconds := td_seconds td in
  0 <= seconds / 3600 <= 23 /\
  0 <= seconds mod 3600 / 60 <= 59 /\
  timedelta 0 (seconds / 3600) (seconds mod 3600 / 60) <= td mod DAY
    < timedelta 0 (seconds / 3600) (seconds mod 3600 / 60) + timedelta 0 0 1 /\
  td = td_days td * DAY + td mod DAY.
Proof.
  unfold td_seconds, td_days, DAY, timedelta. simpl.
  change ((1 * 24 + 0) * 60 + 0) with 1440.
  change (1440 * 60 * 1000000) with 86400000000.
  pose proof (Z.div_mod td 86400000000 ltac:(lia)) as Htd.
  pose proof (Z.mod_pos_bound td 86400000000 ltac:(lia)) as Hr.
  set (r := td mod 86400000000) in *.
  pose proof (Z.div_mod r 1000000 ltac:(lia)) as Hs.
  pose proof (Z.mod_pos_bound r 1000000 ltac:(lia)) as Hus.
  set (s := r / 1000000) in *.
  pose proof (Z.div_mod s 3600 ltac:(lia)) as Hh.
  pose proof (Z.mod_pos_bound s 3600 ltac:(lia)) as Hhr.
  set (h := s / 3600) in *.
  pose proof (Z.div_mod (s mod 3600) 60 ltac:(lia)) as Hm.
  pose proof (Z.mod_pos_bound (s mod 3600) 60 ltac:(lia)) as Hmr.
  set (m := s mod 3600 / 60) in *.
  generalize dependent (td / 86400000000). intros q Htd.
  generalize dependent (s mod 3600 mod 60). intros sec Hm Hmr.
  generalize dependent (s mod 3600). intros hr Hh Hhr Hm.
  generalize dependent (r mod 1000000). intros us Hs Hus.
  lia.
Qed.

Lemma countdown_positive (time_diff : Z) :
  0 < time_diff ->
  exists d h m,
    countdown time_diff = time_left d h m /\
    0 <= d /\ 0 <= h <= 23 /\ 0 <= m <= 59 /\
    timedelta d h m <= time_diff < timedelta d h m + timedelta 0 0 1.
Proof.
  intros Hpos. unfold countdown.
  destruct (Z.gtb_spec time_diff 0) as [_|]; [|lia].
  eexists _, _, _. split; [reflexivity|].
  destruct (split_timedelta time_diff) as (Hh & Hm & Hr & Htd).
  cbv zeta in *.
  assert (0 <= td_days time_diff) as Hd.
  { unfold td_days, DAY, timedelta. apply Z.div_pos; lia. }
  generalize dependent (time_diff mod DAY).
  generalize dependent (td_seconds time_diff mod 3600 / 60).
  generalize dependent (td_seconds time_diff / 3600).
  generalize dependent (td_days time_diff).
  unfold DAY, timedelta. intros. lia.
Qed.

Lemma countdown_pending (td : Z) : countdown td = RESET_PENDING <-> td <= 0.
Proof.
  unfold countdown. destruct (Z.gtb_spec td 0); split; try done; lia.
Qed.

Lemma countdown_timedelta (d h m : Z) :
  0 <= d -> 0 <= h <= 23 -> 0 <= m <= 59 ->
  0 < timedelta d h m ->
  countdown (timedelta d h m) = time_left d h m.
Proof.
  intros Hd Hh Hm Hpos.
  destruct (countdown_positive (timedelta d h m) Hpos)
    as (d' & h' & m' & -> & Hd' & Hh' & Hm' & Hr).
  unfold timedelta in Hr.
  assert (d' = d) as -> by nia. assert (h' = h) as -> by nia.
  by assert (m' = m) as -> by nia.
Qed.

(** X7.  The countdown of [update_timers]: a difference that is not
    positive reads ["RESET PENDING!"]; a positive one reads the days,
    hours (0..23) and minutes (0..59) of the difference cut down to whole
    minutes, so the last minute before a reset reads
    ["0 days, 0h, 0m"]. *)
Theorem countdown_whole_minutes (time_diff : Z) :
  (time_diff <= 0 -> countdown time_diff = RESET_PENDING) /\
  (0 < time_diff ->
   exists d h m,
     countdown time_diff = time_left d h m /\
     0 <= d /\ 0 <= h <= 23 /\ 0 <= m <= 59 /\
     timedelta d h m <= time_diff < timedelta d h m + timedelta 0 0 1) /\
  (0 < time_diff < timedelta 0 0 1 -> countdown time_diff = time_left 0 0 0).
Proof.
  split; [|split; [apply countdown_positive|]].
  - apply countdown_pending.
  - intros [H0 H1].
    destruct (countdown_positive time_diff H0)
      as (d & h & m & -> & Hd & Hh & Hm & Hr).
    unfold timedelta in *.
    assert (d = 0) as -> by nia. assert (h = 0) as -> by nia.
    by assert (m = 0) as -> by nia.
Qed.

(** X7 on 59.999999 seconds, and on 1 day, 1 hour, 1 minute and a
    second. *)
Lemma countdown_whole_minutes_witness :
  countdown 59999999 = time_left 0 0 0 /\
  exists d h m,
    countdown 90061000000 = time_left d h m /\
    timedelta d h m <= 90061000000.
Proof.
  split.
  - apply (proj2 (proj2 (countdown_whole_minutes 59999999))).
    unfold timedelta. lia.
  - destruct (proj1 (proj2 (countdown_whole_minutes 90061000000)))
      as (d & h & m & E & _ & _ & _ & Hle & _); [lia|].
    by exists d, h, m.
Defined.

Section TimerFacts.
Context `{Runtime}.
Import PGVendorManager PGVendorManagerUI.

Lemma min_loop (vendors : list Vendor) : forall m0,
  let m := fold_left (fun m x => if next_reset x <? m then next_reset x else m)
             vendors m0 in
  m <= m0 /\ Forall (fun x => m <= next_reset x) vendors /\
  (m = m0 \/ exists x, x ∈ vendors /\ m = next_reset x).
Proof.
  induction vendors as [|v vendors IH]; intros m0; simpl.
  - split; [lia|]. split; [constructor|by left].
  - destruct (IH (if next_reset v <? m0 then next_reset v else m0))
      as (Hle & Hall & Hfrom).
    cbv zeta in *.
    destruct (Z.ltb_spec (next_reset v) m0) as [Hlt|Hge].
    + split; [lia|]. split; [constructor; [lia|exact Hall]|].
      right. destruct Hfrom as [->|(x & Hx & ->)].
      * exists v. split; [by left|done].
      * exists x. split; [by right|done].
    + split; [lia|]. split; [constructor; [lia|exact Hall]|].
      destruct Hfrom as [->|(x & Hx & ->)]; [by left|].
      right. exists x. split; [by right|done].
Qed.

Lemma next_reset_timer_min now (v0 : Vendor) (rest : list Vendor) :
  exists v,
    v ∈ v0 :: rest /\
    Forall (fun x => next_reset v <= next_reset x) (v0 :: rest) /\
    next_reset_timer now (v0 :: rest)
    = Some (countdown (next_reset v - now)).
Proof.
  unfold next_reset_timer.
  destruct (min_loop rest (next_reset v0)) as (Hle & Hall & Hfrom).
  cbv zeta in *.
  destruct Hfrom as [E|(x & Hx & E)].
  - exists v0. split; [by left|]. rewrite E in Hall |- *.
    split; [constructor; [lia|exact Hall]|done].
  - exists x. split; [by right|]. rewrite E in Hle, Hall |- *.
    split; [constructor; [lia|exact Hall]|done].
Qed.

End TimerFacts.

(** X8.  The timers of [update_timers].  A frame shows the countdown of
    the first vendor of the collection that has the name of the frame, so
    two vendors of one name show the same countdown, and a frame whose
    name no vendor has is left as it is.  The countdown in the info bar is
    ["--"] for the empty collection and otherwise the one of a vendor that
    resets earliest; it reads ["RESET PENDING!"] exactly when some vendor
    is due. *)
Theorem update_timers_shown `{Runtime} (now : Z)
    (frames : list PGVendorManagerUI.row)
    (vendors : list PGVendorManager.Vendor) :
  let timers := PGVendorManagerUI.update_timers now frames vendors in
  length (fst timers) = length frames /\
  (forall k r before v after,
     frames !! k = Some r ->
     vendors = before ++ v :: after ->
     Forall (fun x =>
               py_eq (PGVendorManager.name x)
                 (PGVendorManager.name (PGVendorManagerUI.row_vendor r))
               = false) before ->
     py_eq (PGVendorManager.name v)
       (PGVendorManager.name (PGVendorManagerUI.row_vendor r)) = true ->
     fst timers !! k
     = Some (Some (countdown (PGVendorManager.next_reset v - now)))) /\
  (forall k r,
     frames !! k = Some r ->
     Forall (fun x =>
               py_eq (PGVendorManager.name x)
                 (PGVendorManager.name (PGVendorManagerUI.row_vendor r))
               = false) vendors ->
     fst timers !! k = Some None) /\
  (vendors = [] -> snd timers = None) /\
  (vendors <> [] ->
   exists v,
     v ∈ vendors /\
     Forall (fun x => PGVendorManager.next_reset v
                      <= PGVendorManager.next_reset x) vendors /\
     snd timers
     = Some (countdown (PGVendorManager.next_reset v - now)) /\
     (snd timers = Some RESET_PENDING <->
      exists x, x ∈ vendors /\ PGVendorManager.next_reset x <= now)).
Proof.
  intros timers. unfold timers, PGVendorManagerUI.update_timers. simpl.
  split; [by rewrite length_map|]. split; [|split; [|split]].
  - intros k r before v after Hk -> Hbefore Hv.
    rewrite list_lookup_fmap Hk. simpl. f_equal.
    unfold PGVendorManagerUI.frame_timer.
    induction Hbefore as [|x before Hx _ IH]; simpl.
    + by rewrite Hv.
    + rewrite Hx. apply IH.
  - intros k r Hk Hnone. rewrite list_lookup_fmap Hk. simpl. f_equal.
    unfold PGVendorManagerUI.frame_timer.
    induction Hnone as [|x vendors' Hx _ IH]; simpl; [done|].
    rewrite Hx. apply IH.
  - by intros ->.
  - intros Hne. destruct vendors as [|v0 rest]; [done|].
    destruct (next_reset_timer_min now v0 rest) as (v & Hin & Hmin & E).
    exists v. split; [exact Hin|]. split; [exact Hmin|].
    split; [exact E|]. rewrite E. split.
    + intros [= Hp]. apply countdown_pending in Hp. exists v. split; [done|lia].
    + intros (x & Hx & Hdue). f_equal. apply countdown_pending.
      rewrite Forall_forall in Hmin. specialize (Hmin x Hx). lia.
Qed.

(** X8 on two vendors called Joeh: both frames show the countdown of the
    first. *)
Lemma update_timers_shown_witness :
  let first :=
    PGVendorManager.Build_Vendor (PStr "Joeh") (PStr "Serbule") 0
      0 5000 (PList []) in
  let second :=
    PGVendorManager.Build_Vendor (PStr "Joeh") (PStr "Eltibule") 1500
      86400000000 1500 (PList []) in
  let frames :=
    [PGVendorManagerUI.Build_row None "SystemButtonFace" first;
     PGVendorManagerUI.Build_row None "SystemButtonFace" second] in
  fst (@PGVendorManagerUI.update_timers Reference.runtime 63844808709000042 frames
         [first; second]) !! 1%nat
  = Some (Some (countdown (PGVendorManager.next_reset first - 63844808709000042))).
Proof.
  intros first second frames.
  apply (proj1 (proj2 (@update_timers_shown Reference.runtime
                         63844808709000042 frames [first; second]))
           1%nat (PGVendorManagerUI.Build_row None "SystemButtonFace" second)
           [] first [second]).
  - reflexivity.
  - reflexivity.
  - constructor.
  - reflexivity.
Defined.

(** X9.  The time fields the update dialog starts with.  They are never
    negative, hours at most 23 and minutes at most 59.  For a vendor that
    is not due they are the time left, cut down to whole minutes.  For a
    vendor that is due the day field is 0 and the hours and minutes are
    those of the time of day part of the negative difference: a vendor
    one hour overdue starts with 0 days, 23 hours, 0 minutes. *)
Theorem initial_time_prefill (now : Z) (vendor : PGVendorManager.Vendor) :
  let time_diff := PGVendorManager.next_reset vendor - now in
  exists d h m,
    PGVendorManagerUI.initial_time now vendor = (d, h, m) /\
    0 <= d /\ 0 <= h <= 23 /\ 0 <= m <= 59 /\
    (0 <= time_diff ->
     timedelta d h m <= time_diff < timedelta d h m + timedelta 0 0 1) /\
    (time_diff < 0 ->
     d = 0 /\
     timedelta 0 h m <= time_diff mod DAY
       < timedelta 0 h m + timedelta 0 0 1) /\
    (time_diff = - timedelta 0 1 0 -> (d, h, m) = (0, 23, 0)).
Proof.
  intros time_diff. unfold PGVendorManagerUI.initial_time. fold time_diff.
  destruct (split_timedelta time_diff) as (Hh & Hm & Hr & Htd).
  cbv zeta in *. eexists _, _, _. split; [reflexivity|].
  rewrite (Z.max_r 0 (td_seconds time_diff / 3600)); [lia|].
  rewrite (Z.max_r 0 (td_seconds time_diff mod 3600 / 60)); [lia|].
  split; [lia|]. split; [lia|]. split; [lia|].
  split; [|split].
  - intros Hpos.
    assert (0 <= td_days time_diff) as Hd.
    { unfold td_days, DAY, timedelta. apply Z.div_pos; lia. }
    rewrite Z.max_r; [lia|].
    generalize dependent (time_diff mod DAY).
    generalize dependent (td_seconds time_diff mod 3600 / 60).
    generalize dependent (td_seconds time_diff / 3600).
    generalize dependent (td_days time_diff).
    unfold DAY, timedelta. intros. lia.
  - intros Hneg.
    assert (td_days time_diff < 0) as Hd.
    { unfold td_days, DAY, timedelta. apply Z.div_lt_upper_bound; lia. }
    split; [lia|exact Hr].
  - intros ->. reflexivity.
Qed.

(** X9 on a vendor that is one hour overdue. *)
Lemma initial_time_prefill_witness :
  let vendor :=
    PGVendorManager.Build_Vendor (PStr "Joeh") (PStr "Serbule") 0
      0 5000 (PList []) in
  PGVendorManagerUI.initial_time (timedelta 7 1 0) vendor = (0, 23, 0).
Proof.
  intros vendor.
  destruct (initial_time_prefill (timedelta 7 1 0) vendor)
    as (d & h & m & E & _ & _ & _ & _ & _ & Hhour).
  rewrite E. apply Hhour. reflexivity.
Defined.

(** ** The dialogs of [PGVendorManager.py], once more *)

Section DialogFacts.
Context `{Runtime}.
Import PGVendorManager.

Lemma PGVM_save_and_report_files done failed (app : App) :
  files (save_and_report done failed app)
  = fst (save_vendors (files app) (vendors app) (current_character app)) /\
  current_character (save_and_report done failed app)
  = current_character app.
Proof.
  unfold save_and_report, save_vendors.
  by destruct (json_serializable _).
Qed.

(** What an accepted [add_and_save] does when the reset time is a
    [datetime]. *)
Lemma PGVM_add_accepted now (name zone : string) council d_raw h_raw m_raw
    override cats (app : App) d h m :
  name <> ""%string ->
  (d_raw * 24 * 60 + h_raw * 60 + m_raw >? MAX_TOTAL_MINUTES) && negb override
  = false ->
  _clamp_reset_inputs (PInt d_raw) (PInt h_raw) (PInt m_raw) override
  = Ok (d, h, m) ->
  0 <= now < timedelta _MAXORDINAL 0 0 ->
  timedelta 7 0 0 <= now + timedelta d h m ->
  (override = true -> now + timedelta d h m < timedelta _MAXORDINAL 0 0) ->
  add_and_save now name zone council d_raw h_raw m_raw override cats app
  = save_and_report [showinfo (VendorAdded (PStr name))] ErrorAddingVendor
      (log []
         (set_vendors
            (vendors app ++
             [{| PGVendorManager.name := PStr name; zone := PStr zone;
                 council_left := council;
                 last_reset := now + timedelta d h m - timedelta 7 0 0;
                 reset_maximum := council;
                 categories := PList (map PStr (dedupe cats)) |}])
            app)).
Proof.
  intros Hname Hok E Hnow Hlow Hhigh. unfold add_and_save.
  destruct (String.eqb_spec name "") as [|_]; [done|].
  rewrite Hok E. simpl.
  rewrite (PGVM_calculate_ok now _ _ _ _ _ _ _
             (PGVM_clamp_idem _ _ _ _ _ _ _ E) Hnow Hlow Hhigh). simpl.
  by destruct (dedupe cats).
Qed.

(** And when it is not: the error is printed and shown, nothing else. *)
Lemma PGVM_add_overflow now (name zone : string) council d_raw h_raw m_raw
    override cats (app : App) d h m :
  name <> ""%string ->
  (d_raw * 24 * 60 + h_raw * 60 + m_raw >? MAX_TOTAL_MINUTES) && negb override
  = false ->
  _clamp_reset_inputs (PInt d_raw) (PInt h_raw) (PInt m_raw) override
  = Ok (d, h, m) ->
  0 <= now < timedelta _MAXORDINAL 0 0 ->
  now + timedelta d h m < timedelta 7 0 0 \/
  (override = true /\ timedelta _MAXORDINAL 0 0 <= now + timedelta d h m) ->
  add_and_save now name zone council d_raw h_raw m_raw override cats app
  = log [print (ErrorAddingVendor OverflowError);
         showerror (ErrorAddingVendor OverflowError)] app.
Proof.
  intros Hname Hok E Hnow Hout. unfold add_and_save.
  destruct (String.eqb_spec name "") as [|_]; [done|].
  rewrite Hok E. simpl.
  by rewrite (PGVM_calculate_overflow now _ _ _ _ _ _ _
                (PGVM_clamp_idem _ _ _ _ _ _ _ E) Hnow Hout).
Qed.

(** What an accepted [update_vendor_action] does when the reset time is a
    [datetime]. *)
Lemma PGVM_update_accepted i now new_council d_raw h_raw m_raw override cats
    (app : App) vendor d h m :
  vendors app !! i = Some vendor ->
  (d_raw * 24 * 60 + h_raw * 60 + m_raw >? MAX_TOTAL_MINUTES) && negb override
  = false ->
  _clamp_reset_inputs (PInt d_raw) (PInt h_raw) (PInt m_raw) override
  = Ok (d, h, m) ->
  0 <= now < timedelta _MAXORDINAL 0 0 ->
  timedelta 7 0 0 <= now + timedelta d h m ->
  (override = true -> now + timedelta d h m < timedelta _MAXORDINAL 0 0) ->
  update_vendor_action i now new_council d_raw h_raw m_raw override cats app
  = save_and_report [showinfo (VendorUpdated (name vendor))]
      ErrorUpdatingVendor
      (set_vendors
         (<[i := {| name := name vendor; zone := zone vendor;
                    council_left := new_council;
                    last_reset := now + timedelta d h m - timedelta 7 0 0;
                    reset_maximum := Z.max new_council (reset_maximum vendor);
                    categories := PList (map PStr (dedupe cats)) |}]>
            (vendors app))
         app).
Proof.
  intros Hi Hok E Hnow Hlow Hhigh. unfold update_vendor_action.
  rewrite Hi Hok E.
  rewrite (PGVM_calculate_ok now _ _ _ _ _ _ _
             (PGVM_clamp_idem _ _ _ _ _ _ _ E) Hnow Hlow Hhigh). simpl.
  do 4 f_equal.
  destruct (Z.gtb_spec new_council (reset_maximum vendor)); f_equal; lia.
Qed.

(** And when [calculate_last_reset] raises: the amounts have been set,
    the error is printed and shown, and nothing is saved. *)
Lemma PGVM_update_failed i now new_council d_raw h_raw m_raw override cats
    (app : App) vendor e :
  vendors app !! i = Some vendor ->
  (d_raw * 24 * 60 + h_raw * 60 + m_raw >? MAX_TOTAL_MINUTES) && negb override
  = false ->
  calculate_last_reset now (PInt d_raw) (PInt h_raw) (PInt m_raw) override
  = Raise e ->
  update_vendor_action i now new_council d_raw h_raw m_raw override cats app
  = log [print (ErrorUpdatingVendor e); showerror (ErrorUpdatingVendor e)]
      (set_vendors
         (<[i := {| name := name vendor; zone := zone vendor;
                    council_left := new_council;
                    last_reset := last_reset vendor;
                    reset_maximum := Z.max new_council (reset_maximum vendor);
                    categories := categories vendor |}]>
            (vendors app))
         app).
Proof.
  intros Hi Hok Hraise. unfold update_vendor_action. rewrite Hi Hok.
  destruct (PGVM_clamp_total (PInt d_raw) (PInt h_raw) (PInt m_raw) override)
    as (d & h & m & E).
  rewrite E.
  rewrite (PGVM_calculate_eq now (PInt d) (PInt h) (PInt m)
             (PInt d_raw) (PInt h_raw) (PInt m_raw) override);
    [by rewrite E (PGVM_clamp_idem _ _ _ _ _ _ _ E)|].
  rewrite Hraise. do 4 f_equal.
  destruct (Z.gtb_spec new_council (reset_maximum vendor)); f_equal; lia.
Qed.

(** Without override the dialogs pass on what was typed: the clamp of an
    accepted input changes its total by nothing. *)
Lemma PGVM_accepted_total d_raw h_raw m_raw d h m :
  0 <= d_raw -> 0 <= h_raw -> 0 <= m_raw ->
  (d_raw * 24 * 60 + h_raw * 60 + m_raw >? MAX_TOTAL_MINUTES) = false ->
  _clamp_reset_inputs (PInt d_raw) (PInt h_raw) (PInt m_raw) false
  = Ok (d, h, m) ->
  timedelta d h m = timedelta d_raw h_raw m_raw.
Proof.
  intros Hd Hh Hm Hok. rewrite PGVM_clamp_no_override. cbv zeta.
  unfold MAX_TOTAL_MINUTES in *.
  change (6 * 24 * 60 + 23 * 60 + 59) with 10079 in *.
  change (24 * 60) with 1440.
  rewrite !Z.max_r; try lia.
  destruct (Z.gtb_spec (d_raw * 24 * 60 + h_raw * 60 + m_raw) 10079);
    [done|].
  rewrite Z.min_l; [lia|].
  set (t := d_raw * 24 * 60 + h_raw * 60 + m_raw) in *.
  intros [= <- <- <-].
  destruct (split_minutes t) as (_ & _ & _ & Hsum); [lia|].
  unfold timedelta.
  generalize dependent (t / 1440). generalize dependent (t mod 1440 / 60).
  generalize dependent (t mod 1440 mod 60). intros. lia.
Qed.


(** The four callbacks either leave collection and files as they are, or
    end in [save_vendors] of the collection they leave, or are an update
    whose [calculate_last_reset] raised. *)
Lemma PGVM_saved_or_unchanged (app app' : App) :
  (exists now name zone council d_raw h_raw m_raw override cats,
     app' = add_and_save now name zone council d_raw h_raw m_raw override
              cats app) \/
  (exists vendor_to_delete confirm,
     app' = delete_vendor vendor_to_delete confirm app) \/
  (exists i confirm now, app' = reset_now i confirm now app) \/
  (exists i now new_council d_raw h_raw m_raw override cats,
     app' = update_vendor_action i now new_council d_raw h_raw m_raw
              override cats app) ->
  current_character app' = current_character app /\
  ((vendors app' = vendors app /\ files app' = files app) \/
   files app'
   = fst (save_vendors (files app) (vendors app') (current_character app)) \/
   (exists i now new_council d_raw h_raw m_raw override cats vendor,
      app' = update_vendor_action i now new_council d_raw h_raw m_raw
               override cats app /\
      vendors app !! i = Some vendor /\
      calculate_last_reset now (PInt d_raw) (PInt h_raw) (PInt m_raw)
        override = Raise OverflowError /\
      files app' = files app /\
      vendors app'
      = <[i := {| name := name vendor; zone := zone vendor;
                  council_left := new_council;
                  last_reset := last_reset vendor;
                  reset_maximum := Z.max new_council (reset_maximum vendor);
                  categories := categories vendor |}]> (vendors app))).
Proof.
  assert (forall done failed app1,
            files app1 = files app ->
            current_character app1 = current_character app ->
            let app' := save_and_report done failed app1 in
            current_character app' = current_character app /\
            files app'
            = fst (save_vendors (files app) (vendors app')
                     (current_character app))) as Hsaved.
  { intros done failed app1 Hfiles Hchar app2.
    destruct (PGVM_save_and_report_files done failed app1) as [Hf Hc].
    split; [by rewrite Hc|]. unfold app2.
    by rewrite Hf PGVM_save_and_report_vendors Hfiles Hchar. }
  intros [(now & name & zone & council & d_raw & h_raw & m_raw & override
           & cats & ->)
         |[(v & confirm & ->)
          |[(i & confirm & now & ->)
           |(i & now & new_council & d_raw & h_raw & m_raw & override
             & cats & ->)]]].
  - unfold add_and_save. destruct (String.eqb name ""); [by split; [|left]|].
    destruct (_ && _); [by split; [|left]|].
    destruct (PGVM_built_vendor now name zone council d_raw h_raw m_raw
                override (dedupe cats))
      as (d & h & m & _ & [(lr & _ & ->)|[_ ->]]).
    + match goal with
      | |- context [save_and_report ?done ?failed ?app1] =>
          destruct (Hsaved done failed app1 eq_refl eq_refl) as [Hc Hf]
      end.
      split; [exact Hc|]. right. left. exact Hf.
    + by split; [|left].
  - unfold delete_vendor. destruct confirm; [|by split; [|left]].
    destruct (Hsaved [showinfo (VendorDeleted (name v))] ErrorDeletingVendor
                (set_vendors (filter (fun x => py_eq (name x) (name v) = false)
                                (vendors app)) app)
                eq_refl eq_refl) as [Hc Hf].
    split; [exact Hc|]. right. left. exact Hf.
  - unfold reset_now.
    destruct (vendors app !! i) as [vendor|]; [|by split; [|left]].
    destruct confirm; [|by split; [|left]].
    match goal with
    | |- context [save_and_report ?done ?failed ?app1] =>
        destruct (Hsaved done failed app1 eq_refl eq_refl) as [Hc Hf]
    end.
    split; [exact Hc|]. right. left. exact Hf.
  - destruct (vendors app !! i) as [vendor|] eqn:Hi;
      [|unfold update_vendor_action; rewrite Hi; by split; [|left]].
    destruct ((d_raw * 24 * 60 + h_raw * 60 + m_raw >? MAX_TOTAL_MINUTES)
              && negb override) eqn:Hok;
      [unfold update_vendor_action; rewrite Hi Hok; by split; [|left]|].
    destruct (calculate_last_reset now (PInt d_raw) (PInt h_raw) (PInt m_raw)
                override) as [lr|e] eqn:Ecalc.
    + unfold update_vendor_action. rewrite Hi Hok.
      destruct (PGVM_clamp_total (PInt d_raw) (PInt h_raw) (PInt m_raw)
                  override) as (d & h & m & E).
      rewrite E.
      rewrite (PGVM_calculate_eq now (PInt d) (PInt h) (PInt m)
                 (PInt d_raw) (PInt h_raw) (PInt m_raw) override);
        [by rewrite E (PGVM_clamp_idem _ _ _ _ _ _ _ E)|].
      rewrite Ecalc.
      match goal with
      | |- context [save_and_report ?done ?failed ?app1] =>
          destruct (Hsaved done failed app1 eq_refl eq_refl) as [Hc Hf]
      end.
      split; [exact Hc|]. right. left. exact Hf.
    + pose proof (PGVM_calculate_raises _ _ _ _ _ _ Ecalc) as ->.
      rewrite (PGVM_update_failed i now new_council d_raw h_raw m_raw
                 override cats app vendor OverflowError Hi Hok Ecalc).
      split; [reflexivity|]. right. right.
      exists i, now, new_council, d_raw, h_raw, m_raw, override, cats, vendor.
      split.
      { symmetry.
        apply (PGVM_update_failed i now new_council d_raw h_raw m_raw
                 override cats app vendor OverflowError Hi Hok Ecalc). }
      by repeat split.
Qed.

(** What the four callbacks do to the amounts. *)
Lemma PGVM_amounts_kept (app app' : App) :
  (exists now name zone council d_raw h_raw m_raw override cats,
     app' = add_and_save now name zone council d_raw h_raw m_raw override
              cats app) \/
  (exists vendor_to_delete confirm,
     app' = delete_vendor vendor_to_delete confirm app) \/
  (exists i confirm now, app' = reset_now i confirm now app) \/
  (exists i now new_council d_raw h_raw m_raw override cats,
     app' = update_vendor_action i now new_council d_raw h_raw m_raw
              override cats app) ->
  Forall (fun v => council_left v <= reset_maximum v) (vendors app) ->
  Forall (fun v => council_left v <= reset_maximum v) (vendors app').
Proof.
  intros Hop Hinv.
  destruct Hop as [(now & name & zone & council & d_raw & h_raw & m_raw
                    & override & cats & ->)
                  |[(v & confirm & ->)
                   |[(i & confirm & now & ->)
                    |(i & now & new_council & d_raw & h_raw & m_raw
                      & override & cats & ->)]]].
  - unfold add_and_save. destruct (String.eqb name ""); [done|].
    destruct (_ && _); [done|].
    destruct (PGVM_built_vendor now name zone council d_raw h_raw m_raw
                override (dedupe cats))
      as (d & h & m & _ & [(lr & _ & ->)|[_ ->]]); [|done].
    rewrite PGVM_save_and_report_vendors. simpl.
    apply Forall_app. split; [done|]. constructor; [simpl; lia|constructor].
  - unfold delete_vendor. destruct confirm; [|done].
    rewrite PGVM_save_and_report_vendors. simpl.
    apply Forall_forall. intros x [_ Hx]%list_elem_of_filter.
    rewrite Forall_forall in Hinv. by apply Hinv.
  - unfold reset_now. destruct (vendors app !! i) as [vendor|] eqn:Hi; [|done].
    destruct confirm; [|done].
    rewrite PGVM_save_and_report_vendors. simpl.
    apply Forall_insert; [done|].
    pose proof (Forall_lookup_1 _ _ _ _ Hinv Hi) as Hv. simpl in Hv.
    destruct (Z.gtb_spec (reset_maximum vendor) 0); simpl; lia.
  - unfold update_vendor_action.
    destruct (vendors app !! i) as [vendor|] eqn:Hi; [|done].
    destruct (_ && _); [done|].
    destruct (PGVM_clamp_total (PInt d_raw) (PInt h_raw) (PInt m_raw)
                override) as (d & h & m & E).
    rewrite E.
    destruct (calculate_last_reset now (PInt d) (PInt h) (PInt m) override)
      as [lr|e].
    + rewrite PGVM_save_and_report_vendors. simpl.
      apply Forall_insert; [done|]. simpl.
      destruct (Z.gtb_spec new_council (reset_maximum vendor)); lia.
    + simpl. apply Forall_insert; [done|]. simpl.
      destruct (Z.gtb_spec new_council (reset_maximum vendor)); lia.
Qed.

Lemma sum_loop (l : list Z) : forall a, fold_left Z.add l a = a + fold_left Z.add l 0.
Proof.
  induction l as [|x l IH]; intros a; simpl; [lia|].
  rewrite (IH (a + x)) (IH x). lia.
Qed.

Lemma PGVM_pool_le_cash (vs : list Vendor) :
  Forall (fun v => council_left v <= reset_maximum v) vs ->
  fold_left Z.add (map council_left vs) 0
  <= fold_left Z.add (map reset_maximum vs) 0.
Proof.
  induction 1 as [|v vs Hv _ IH]; simpl; [lia|].
  rewrite (sum_loop _ (council_left v)) (sum_loop _ (reset_maximum v)). lia.
Qed.

End DialogFacts.

Lemma initial_time_not_due (now : Z) (vendor : PGVendorManager.Vendor)
    (d h m : Z) :
  PGVendorManagerUI.initial_time now vendor = (d, h, m) ->
  0 <= PGVendorManager.next_reset vendor - now ->
  0 <= d /\ 0 <= h <= 23 /\ 0 <= m <= 59 /\
  timedelta d h m <= PGVendorManager.next_reset vendor - now
    < timedelta d h m + timedelta 0 0 1.
Proof.
  unfold PGVendorManagerUI.initial_time.
  set (time_diff := PGVendorManager.next_reset vendor - now).
  destruct (split_timedelta time_diff) as (Hh & Hm & Hr & Htd).
  cbv zeta in *. intros [= <- <- <-] Hpos.
  assert (0 <= td_days time_diff) as Hd.
  { unfold td_days, DAY, timedelta. apply Z.div_pos; lia. }
  rewrite !Z.max_r; try lia.
  generalize dependent (time_diff mod DAY).
  generalize dependent (td_seconds time_diff mod 3600 / 60).
  generalize dependent (td_seconds time_diff / 3600).
  generalize dependent (td_days time_diff).
  unfold DAY, timedelta. intros. lia.
Qed.

(** X10.  The clock is a [datetime] at least 7 days after 0001-01-01
    and at least 7 days before the end of the year 9999.  An
    [add_and_save] that is accepted (a name, and a time within the
    ceiling or the override ticked) and whose days, with override, do not
    lead past the year 9999 appends one vendor: it has the name and zone
    typed, the amount as both [council_left] and [reset_maximum], the
    selected categories without duplicates, and its next reset is the
    normalised time from now, so at that instant its countdown reads the
    normalised days, hours and minutes.  Without override the normalised
    time is the time typed: the dialog refuses what it would have to
    lower.  With override and days that lead past the year 9999 the
    [OverflowError] of the date arithmetic is printed and shown and
    nothing is added. *)
Theorem add_and_save_stored `{Runtime} (now : Z) (name zone : string)
    (council d_raw h_raw m_raw : Z) (override_flag : bool)
    (selected_cats : list string) (app : PGVendorManager.App) :
  name <> ""%string ->
  timedelta 7 0 0 <= now ->
  now + timedelta 7 0 0 <= timedelta _MAXORDINAL 0 0 ->
  ((override_flag = false ->
    d_raw * 24 * 60 + h_raw * 60 + m_raw
    <= PGVendorManager.MAX_TOTAL_MINUTES) ->
   (override_flag = true ->
    now + timedelta (Z.max 0 d_raw + 1) 0 0 <= timedelta _MAXORDINAL 0 0) ->
   exists d h m new_vendor,
     PGVendorManager._clamp_reset_inputs (PInt d_raw) (PInt h_raw)
       (PInt m_raw) override_flag = Ok (d, h, m) /\
     PGVendorManager.vendors
       (PGVendorManager.add_and_save now name zone council d_raw h_raw m_raw
          override_flag selected_cats app)
     = PGVendorManager.vendors app ++ [new_vendor] /\
     PGVendorManager.name new_vendor = PStr name /\
     PGVendorManager.zone new_vendor = PStr zone /\
     PGVendorManager.council_left new_vendor = council /\
     PGVendorManager.reset_maximum new_vendor = council /\
     PGVendorManager.categories new_vendor
     = PList (map PStr (dedupe selected_cats)) /\
     PGVendorManager.next_reset new_vendor - now = timedelta d h m /\
     (0 < timedelta d h m ->
      countdown (PGVendorManager.next_reset new_vendor - now)
      = time_left d h m) /\
     (timedelta d h m = 0 ->
      countdown (PGVendorManager.next_reset new_vendor - now)
      = RESET_PENDING) /\
     (override_flag = false -> 0 <= d_raw -> 0 <= h_raw -> 0 <= m_raw ->
      timedelta d h m = timedelta d_raw h_raw m_raw)) /\
  (override_flag = true ->
   timedelta _MAXORDINAL 0 0 <= now + timedelta (Z.max 0 d_raw) 0 0 ->
   PGVendorManager.add_and_save now name zone council d_raw h_raw m_raw
     override_flag selected_cats app
   = PGVendorManager.log [print (ErrorAddingVendor OverflowError);
                          showerror (ErrorAddingVendor OverflowError)] app).
Proof.
  intros Hname Hnow Hend.
  assert (0 <= now < timedelta _MAXORDINAL 0 0) as Hnow0
    by (unfold timedelta in *; lia).
  destruct (PGVM_clamp_range (PInt d_raw) (PInt h_raw) (PInt m_raw)
              override_flag) as (d & h & m & E & Hd & Hh & Hm & _).
  split.
  - intros Hceiling Hhigh.
    assert ((d_raw * 24 * 60 + h_raw * 60 + m_raw
             >? PGVendorManager.MAX_TOTAL_MINUTES) && negb override_flag
            = false) as Hok.
    { destruct override_flag; [by rewrite andb_false_r|].
      specialize (Hceiling eq_refl).
      by destruct (Z.gtb_spec (d_raw * 24 * 60 + h_raw * 60 + m_raw)
                     PGVendorManager.MAX_TOTAL_MINUTES); [lia|]. }
    assert (timedelta 7 0 0 <= now + timedelta d h m) as Hlow
      by (unfold timedelta in *; lia).
    assert (override_flag = true ->
            now + timedelta d h m < timedelta _MAXORDINAL 0 0) as Hin.
    { intros ->. specialize (Hhigh eq_refl).
      rewrite PGVM_clamp_override in E. injection E as <- <- <-.
      unfold timedelta in *. lia. }
    eexists d, h, m, _. split; [exact E|]. split.
    { rewrite (PGVM_add_accepted now name zone council d_raw h_raw m_raw
                 override_flag selected_cats app d h m Hname Hok E Hnow0
                 Hlow Hin).
      by rewrite PGVM_save_and_report_vendors. }
    unfold PGVendorManager.next_reset. simpl.
    replace (now + timedelta d h m - timedelta 7 0 0 + timedelta 7 0 0 - now)
      with (timedelta d h m) by lia.
    repeat split; try done.
    + by apply countdown_timedelta.
    + intros ->. by apply countdown_pending.
    + intros -> Hd0 Hh0 Hm0. rewrite andb_true_r in Hok.
      by apply (PGVM_accepted_total d_raw h_raw m_raw).
  - intros -> Hhigh.
    apply (PGVM_add_overflow now name zone council d_raw h_raw m_raw true
             selected_cats app d h m Hname (andb_false_r _) E Hnow0).
    right. split; [reflexivity|].
    rewrite PGVM_clamp_override in E. injection E as <- <- <-.
    unfold timedelta in *. lia.
Qed.

(** X10 on 29 February 2024, 13:05:09.000042, with 2 hours and 90
    minutes: shown as 0 days, 3 hours, 30 minutes. *)
Lemma add_and_save_stored_witness :
  let now := 63844808709000042 in
  let app :=
    PGVendorManager.Build_App [] "Default" ∅ [] in
  exists new_vendor,
    PGVendorManager.vendors
      (@PGVendorManager.add_and_save Reference.runtime now "Joeh" "Serbule"
         5000 0 2 90 false ["Armor"; "Armor"] app)
    = [new_vendor] /\
    countdown (PGVendorManager.next_reset new_vendor - now)
    = time_left 0 3 30.
Proof.
  intros now app.
  destruct (proj1 (@add_and_save_stored Reference.runtime now "Joeh"
                     "Serbule" 5000 0 2 90 false ["Armor"; "Armor"] app
                     ltac:(discriminate)
                     ltac:(vm_compute; discriminate)
                     ltac:(vm_compute; discriminate)))
    as (d & h & m & v & E & Hv & _ & _ & _ & _ & _ & _ & Hcount & _).
  - intros _. vm_compute. discriminate.
  - discriminate.
  - exists v. split; [exact Hv|].
    injection E as <- <- <-. apply Hcount. reflexivity.
Defined.

(** X11.  Without override, a time over the ceiling is refused by both
    dialogs of [PGVendorManager.py]: one error is shown and neither the
    collection nor any file changes; so is an empty name by the add
    dialog, whatever else was typed. *)
Theorem over_ceiling_refused `{Runtime} (now : Z) (name zone : string)
    (council d_raw h_raw m_raw : Z) (selected_cats : list string)
    (i : nat) (app : PGVendorManager.App) :
  PGVendorManager.MAX_TOTAL_MINUTES < d_raw * 24 * 60 + h_raw * 60 + m_raw ->
  (name <> ""%string ->
   PGVendorManager.add_and_save now name zone council d_raw h_raw m_raw
     false selected_cats app
   = PGVendorManager.log [showerror ResetTimeExceeds] app) /\
  (forall override_flag,
     PGVendorManager.add_and_save now "" zone council d_raw h_raw m_raw
       override_flag selected_cats app
     = PGVendorManager.log [showerror VendorNameEmpty] app) /\
  (forall vendor,
     PGVendorManager.vendors app !! i = Some vendor ->
     PGVendorManager.update_vendor_action i now council d_raw h_raw m_raw
       false selected_cats app
     = PGVendorManager.log [showerror ResetTimeExceeds] app) /\
  (forall out,
     PGVendorManager.vendors (PGVendorManager.log out app)
     = PGVendorManager.vendors app /\
     PGVendorManager.files (PGVendorManager.log out app)
     = PGVendorManager.files app).
Proof.
  intros Hover.
  assert ((d_raw * 24 * 60 + h_raw * 60 + m_raw
           >? PGVendorManager.MAX_TOTAL_MINUTES) = true) as Hgt.
  { by destruct (Z.gtb_spec (d_raw * 24 * 60 + h_raw * 60 + m_raw)
                   PGVendorManager.MAX_TOTAL_MINUTES); [|lia]. }
  split; [|split; [|split]].
  - intros Hname. unfold PGVendorManager.add_and_save.
    destruct (String.eqb_spec name ""); [done|]. by rewrite Hgt.
  - reflexivity.
  - intros vendor Hi. unfold PGVendorManager.update_vendor_action.
    by rewrite Hi Hgt.
  - done.
Qed.

(** X11 on 7 days. *)
Lemma over_ceiling_refused_witness :
  let app := PGVendorManager.Build_App [] "Default" ∅ [] in
  @PGVendorManager.add_and_save Reference.runtime 63844808709000042 "Joeh" "Serbule"
    5000 7 0 0 false [] app
  = PGVendorManager.log [showerror ResetTimeExceeds] app.
Proof.
  intros app.
  apply (proj1 (@over_ceiling_refused Reference.runtime 63844808709000042 "Joeh" "Serbule"
                  5000 7 0 0 [] 0%nat app ltac:(vm_compute; reflexivity))).
  discriminate.
Defined.

(** X12.  The four callbacks of [PGVendorManager.py] keep the amount left
    of every vendor within its maximum, once it is: adding sets both to
    the amount typed, updating raises the maximum to a larger amount,
    resetting refills to the maximum, deleting only removes.  The pool in
    the info bar then never exceeds the total cash. *)
Theorem council_within_maximum `{Runtime}
    (app app' : PGVendorManager.App) :
  (exists now name zone council d_raw h_raw m_raw override cats,
     app' = PGVendorManager.add_and_save now name zone council d_raw h_raw
              m_raw override cats app) \/
  (exists vendor_to_delete confirm,
     app' = PGVendorManager.delete_vendor vendor_to_delete confirm app) \/
  (exists i confirm now, app' = PGVendorManager.reset_now i confirm now app) \/
  (exists i now new_council d_raw h_raw m_raw override cats,
     app' = PGVendorManager.update_vendor_action i now new_council d_raw
              h_raw m_raw override cats app) ->
  Forall (fun v => PGVendorManager.council_left v
                   <= PGVendorManager.reset_maximum v)
    (PGVendorManager.vendors app) ->
  Forall (fun v => PGVendorManager.council_left v
                   <= PGVendorManager.reset_maximum v)
    (PGVendorManager.vendors app') /\
  fst (PGVendorManagerUI.total_values (PGVendorManager.vendors app'))
  <= snd (PGVendorManagerUI.total_values (PGVendorManager.vendors app')).
Proof.
  intros Hop Hinv.
  pose proof (PGVM_amounts_kept app app' Hop Hinv) as Hinv'.
  split; [exact Hinv'|]. by apply PGVM_pool_le_cash.
Qed.

(** X12 on an update to a larger amount, on 29 February 2024. *)
Lemma council_within_maximum_witness :
  let joeh :=
    PGVendorManager.Build_Vendor (PStr "Joeh") (PStr "Serbule") 0
      63844808709000042 5000 (PList []) in
  let app := PGVendorManager.Build_App [joeh] "Default" ∅ [] in
  let app' :=
    @PGVendorManager.update_vendor_action Reference.runtime 0
      63844808709000042 8000 1 2 3 false [] app in
  fst (PGVendorManagerUI.total_values (PGVendorManager.vendors app'))
  <= snd (PGVendorManagerUI.total_values (PGVendorManager.vendors app')).
Proof.
  intros joeh app app'.
  apply (@council_within_maximum Reference.runtime app app').
  - right. right. right.
    by exists 0%nat, 63844808709000042, 8000, 1, 2, 3, false, [].
  - repeat constructor. simpl. lia.
Defined.

(** X13.  Collection and file.  Each of the four callbacks of
    [PGVendorManager.py] keeps the current character and touches no file
    but the one of the current character.  It leaves collection and files
    as they are, or it ends by writing the collection it leaves to that
    file, with one exception: an update whose [calculate_last_reset]
    raises [OverflowError] has by then set the amount left and the
    maximum of the vendor in memory, and writes nothing, so the collection
    is ahead of the file.  When the collection was written and its
    vendors are typed as in the data model, loading the character gives
    the collection in memory. *)
Theorem collection_saved `{Runtime} (app app' : PGVendorManager.App) :
  (exists now name zone council d_raw h_raw m_raw override cats,
     app' = PGVendorManager.add_and_save now name zone council d_raw h_raw
              m_raw override cats app) \/
  (exists vendor_to_delete confirm,
     app' = PGVendorManager.delete_vendor vendor_to_delete confirm app) \/
  (exists i confirm now, app' = PGVendorManager.reset_now i confirm now app) \/
  (exists i now new_council d_raw h_raw m_raw override cats,
     app' = PGVendorManager.update_vendor_action i now new_council d_raw
              h_raw m_raw override cats app) ->
  PGVendorManager.current_character app'
  = PGVendorManager.current_character app /\
  (forall path,
     path <> PGVendorManager.character_file_path
               (PGVendorManager.current_character app) ->
     PGVendorManager.files app' !! path
     = PGVendorManager.files app !! path) /\
  ((PGVendorManager.vendors app' = PGVendorManager.vendors app /\
    PGVendorManager.files app' = PGVendorManager.files app) \/
   PGVendorManager.files app'
   = fst (PGVendorManager.save_vendors (PGVendorManager.files app)
            (PGVendorManager.vendors app')
            (PGVendorManager.current_character app)) \/
   (exists i now new_council d_raw h_raw m_raw override cats vendor,
      app' = PGVendorManager.update_vendor_action i now new_council d_raw
               h_raw m_raw override cats app /\
      PGVendorManager.vendors app !! i = Some vendor /\
      PGVendorManager.calculate_last_reset now (PInt d_raw) (PInt h_raw)
        (PInt m_raw) override = Raise OverflowError /\
      PGVendorManager.files app' = PGVendorManager.files app /\
      PGVendorManager.vendors app'
      = <[i := {| PGVendorManager.name := PGVendorManager.name vendor;
                  PGVendorManager.zone := PGVendorManager.zone vendor;
                  PGVendorManager.council_left := new_council;
                  PGVendorManager.last_reset :=
                    PGVendorManager.last_reset vendor;
                  PGVendorManager.reset_maximum :=
                    Z.max new_council (PGVendorManager.reset_maximum vendor);
                  PGVendorManager.categories :=
                    PGVendorManager.categories vendor |}]>
          (PGVendorManager.vendors app))) /\
  (PGVendorManager.files app'
   = fst (PGVendorManager.save_vendors (PGVendorManager.files app)
            (PGVendorManager.vendors app')
            (PGVendorManager.current_character app)) ->
   Forall (fun v =>
             (exists n z cs,
                PGVendorManager.name v = PStr n /\
                PGVendorManager.zone v = PStr z /\
                PGVendorManager.categories v = PList (map PStr cs)) /\
             fromisoformat (isoformat (PGVendorManager.last_reset v))
             = Some (PGVendorManager.last_reset v))
     (PGVendorManager.vendors app') ->
   forall now,
     PGVendorManager.load_vendors (PGVendorManager.files app') now
       (PGVendorManager.current_character app')
     = ([], Ok (PGVendorManager.vendors app'))).
Proof.
  intros Hop.
  destruct (PGVM_saved_or_unchanged app app' Hop) as [Hchar Hfiles].
  split; [exact Hchar|]. split; [|split; [exact Hfiles|]].
  - intros path Hpath.
    destruct Hfiles as [[_ Hsame]|[Hsaved|Hfailed]].
    + by rewrite Hsame.
    + rewrite Hsaved. unfold PGVendorManager.save_vendors.
      assert (PGVendorManager.character_file_path
                (PGVendorManager.current_character app) <> path) as Hne
        by (intros E; apply Hpath; symmetry; exact E).
      destruct (json_serializable _); simpl;
        by rewrite (lookup_insert_ne _ _ _ _ Hne).
    + destruct Hfailed as (i & now & nc & d & h & m & ov & cats & vendor
                           & _ & _ & _ & Hsame & _).
      by rewrite Hsame.
  - intros Hsaved Htyped now. rewrite Hchar Hsaved.
    destruct (PGVM_save_then_load (PGVendorManager.files app)
                (PGVendorManager.vendors app')
                (PGVendorManager.current_character app) now Htyped)
      as (files' & -> & Hload).
    exact Hload.
Qed.

(** X13 on a vendor added for the character Alice on 29 February 2024:
    the file of Default is the one it was. *)
Lemma collection_saved_witness :
  let other := @PGVendorManager.character_file_path Reference.runtime
                 "Default" in
  let app :=
    PGVendorManager.Build_App [] "Alice" {[ other := MalformedText ]} [] in
  let app' :=
    @PGVendorManager.add_and_save Reference.runtime 63844808709000042
      "Joeh" "Serbule" 5000 0 2 90 false ["Armor"] app in
  PGVendorManager.files app' !! other = Some MalformedText.
Proof.
  intros other app app'.
  rewrite (proj1 (proj2 (@collection_saved Reference.runtime app app'
                           ltac:(left;
                                 by exists 63844808709000042, "Joeh"%string,
                                      "Serbule"%string, 5000, 0, 2,
                                      90, false, ["Armor"%string])))
             other).
  - vm_compute. discriminate.
  - reflexivity.
Defined.

(** X14.  Pressing Update with the time fields as the dialog filled
    them.  The clock is read when the dialog opens, for the fields, and
    again, not earlier, when Update is pressed, at a [datetime] at least
    7 days inside the range at both ends.  For a vendor that was not due and had
    less than seven days left when the dialog opened, the update is
    accepted and the next reset becomes the time of pressing plus the
    whole minutes of the fields: later than the old one by the time the
    dialog was open, less under a minute.  With seven days or more left
    (set with override) the same is refused. *)
Theorem update_unchanged_time `{Runtime} (i : nat)
    (opened pressed new_council : Z)
    (selected_cats : list string) (app : PGVendorManager.App)
    (vendor : PGVendorManager.Vendor) (d h m : Z) :
  PGVendorManager.vendors app !! i = Some vendor ->
  PGVendorManagerUI.initial_time opened vendor = (d, h, m) ->
  0 <= PGVendorManager.next_reset vendor - opened ->
  0 <= opened <= pressed ->
  timedelta 7 0 0 <= pressed ->
  pressed + timedelta 7 0 0 <= timedelta _MAXORDINAL 0 0 ->
  let app' :=
    PGVendorManager.update_vendor_action i pressed new_council d h m false
      selected_cats app in
  (PGVendorManager.next_reset vendor - opened < timedelta 7 0 0 ->
   exists vendor',
     PGVendorManager.vendors app' !! i = Some vendor' /\
     PGVendorManager.next_reset vendor' = pressed + timedelta d h m /\
     PGVendorManager.next_reset vendor + (pressed - opened) - timedelta 0 0 1
       < PGVendorManager.next_reset vendor'
       <= PGVendorManager.next_reset vendor + (pressed - opened)) /\
  (timedelta 7 0 0 <= PGVendorManager.next_reset vendor - opened ->
   app' = PGVendorManager.log [showerror ResetTimeExceeds] app).
Proof.
  intros Hi Hinit Hpos Hlater Hpressed Hend app'.
  destruct (initial_time_not_due opened vendor d h m Hinit Hpos)
    as (Hd & Hh & Hm & Hr).
  split.
  - intros Hweek.
    assert (d * 1440 + h * 60 + m <= 10079) as Htotal
      by (unfold timedelta in *; lia).
    destruct (PGVM_clamp_canonical_ints d h m Hd Hh Hm) as [Hno _].
    specialize (Hno Htotal).
    assert ((d * 24 * 60 + h * 60 + m >? PGVendorManager.MAX_TOTAL_MINUTES)
            && negb false = false) as Hok.
    { rewrite andb_true_r. unfold PGVendorManager.MAX_TOTAL_MINUTES.
      by destruct (Z.gtb_spec (d * 24 * 60 + h * 60 + m)
                     (6 * 24 * 60 + 23 * 60 + 59)); [lia|]. }
    unfold app'.
    rewrite (PGVM_update_accepted i pressed new_council d h m false
               selected_cats app vendor d h m Hi Hok Hno).
    { unfold timedelta in *. lia. }
    { unfold timedelta in *. lia. }
    { discriminate. }
    rewrite PGVM_save_and_report_vendors. simpl.
    eexists. split.
    { apply list_lookup_insert_eq. exact (lookup_lt_Some _ _ _ Hi). }
    unfold PGVendorManager.next_reset in *. simpl. lia.
  - intros Hweek. unfold app', PGVendorManager.update_vendor_action.
    rewrite Hi.
    assert ((d * 24 * 60 + h * 60 + m >? PGVendorManager.MAX_TOTAL_MINUTES)
            = true) as ->; [|done].
    unfold PGVendorManager.MAX_TOTAL_MINUTES.
    destruct (Z.gtb_spec (d * 24 * 60 + h * 60 + m)
                (6 * 24 * 60 + 23 * 60 + 59)); [done|].
    unfold timedelta in *. lia.
Qed.

(** X14 on a vendor with 1 hour, 30 minutes and 59 seconds left when the
    dialog opens on 29 February 2024 at 13:05:09; Update is pressed 30
    seconds later, and the next reset moves from 14:36:08 to 14:35:39 on
    the clock, 29 seconds earlier; pressed after 2 minutes it would move
    later. *)
Lemma update_unchanged_time_witness :
  let opened := 63844808709000000 in
  let pressed := opened + 30000000 in
  let joeh :=
    PGVendorManager.Build_Vendor (PStr "Joeh") (PStr "Serbule") 0
      (opened + timedelta 0 1 30 + 59000000 - timedelta 7 0 0) 5000
      (PList []) in
  let app := PGVendorManager.Build_App [joeh] "Default" ∅ [] in
  exists vendor',
    PGVendorManager.vendors
      (@PGVendorManager.update_vendor_action Reference.runtime 0 pressed 0
         0 1 30 false [] app) !! 0%nat = Some vendor' /\
    PGVendorManager.next_reset vendor' = pressed + timedelta 0 1 30.
Proof.
  intros opened pressed joeh app.
  destruct (proj1 (@update_unchanged_time Reference.runtime 0 opened pressed
                     0 [] app joeh 0 1 30 eq_refl eq_refl
                     ltac:(vm_compute; discriminate)
                     ltac:(vm_compute; split; discriminate)
                     ltac:(vm_compute; discriminate)
                     ltac:(vm_compute; discriminate))
              ltac:(vm_compute; reflexivity))
    as (vendor' & Hv & Hnext & _).
  by exists vendor'.
Defined.

(** ** Files *)

Section PathFacts.
Context `{Runtime}.
Import PGVendorManager PGVendorManagerUI.

Local Abbreviation chars := list_ascii_of_string.

Lemma filter_chars_kept (keep : ascii -> bool) (s : string) :
  Forall (fun c => keep c = true) (chars (filter_chars keep s)).
Proof.
  induction s as [|c s IH]; simpl; [constructor|].
  destruct (keep c) eqn:E; [|exact IH]. simpl. by constructor.
Qed.

Lemma filter_chars_id (keep : ascii -> bool) (s : string) :
  Forall (fun c => keep c = true) (chars s) -> filter_chars keep s = s.
Proof.
  induction s as [|c s IH]; simpl; [done|].
  intros [Hc Hs]%Forall_cons. rewrite Hc. by rewrite IH.
Qed.

Lemma rstrip_chars (P : ascii -> Prop) (s : string) :
  Forall P (chars s) -> Forall P (chars (rstrip s)).
Proof.
  induction s as [|c s IH]; simpl; [done|].
  intros [Hc Hs]%Forall_cons. specialize (IH Hs).
  destruct (rstrip s) as [|c' r].
  - destruct (isspace c); simpl; [constructor|by repeat constructor].
  - simpl. by constructor.
Qed.

Lemma rstrip_idempotent (s : string) : rstrip (rstrip s) = rstrip s.
Proof.
  induction s as [|c s IH]; [done|].
  cbn [rstrip]. destruct (rstrip s) as [|c' r] eqn:E.
  - destruct (isspace c) eqn:Ec; [exact IH|]. cbn [rstrip]. by rewrite Ec.
  - cbn [rstrip]. cbn [rstrip] in IH.
    destruct (rstrip r) as [|c'' r'] eqn:Er.
    + destruct (isspace c') eqn:Ec'; [discriminate|]. by rewrite IH.
    + by rewrite IH.
Qed.

Lemma safe_name_idempotent (character_name : string) :
  safe_name (safe_name character_name) = safe_name character_name.
Proof.
  unfold safe_name.
  rewrite (filter_chars_id _ (rstrip _)).
  { apply rstrip_chars, filter_chars_kept. }
  apply rstrip_idempotent.
Qed.

Lemma append_cons (c : ascii) (s t : string) :
  (String c s ++ t)%string = String c (s ++ t).
Proof. reflexivity. Qed.

Lemma prefix_slash (P : ascii -> Prop) (s t : string) :
  Forall P (chars s) -> ~ P "/"%char -> String.prefix "/" t = false ->
  String.prefix "/" (s ++ t) = false.
Proof.
  destruct s as [|c s]; [done|].
  intros [Hc _]%Forall_cons Hslash _.
  destruct (String.prefix "/" (String c s ++ t)) eqn:E; [|reflexivity].
  apply String.prefix_correct in E. simpl in E.
  injection E as E. by rewrite E in Hc.
Qed.

Lemma last_char_app (a : string) (c : ascii) (b : string) :
  String.substring (String.length (a ++ String c b) - 1) 1 (a ++ String c b)
  = String.substring (String.length (String c b) - 1) 1 (String c b).
Proof.
  induction a as [|x a IH]; [reflexivity|].
  change (String x a ++ String c b)%string with (String x (a ++ String c b)).
  cbn [String.length].
  assert (exists n, String.length (a ++ String c b) = S n) as [n Hn].
  { clear. induction a as [|y a [n IH]]; simpl; by eexists. }
  rewrite Hn in IH |- *. simpl in IH |- *. rewrite Nat.sub_0_r in IH.
  exact IH.
Qed.

Lemma DATA_DIR_join (file : string) :
  String.prefix "/" file = false ->
  path_join DATA_DIR file = (DATA_DIR ++ "/" ++ file)%string.
Proof.
  intros Hfile. unfold path_join at 1. rewrite Hfile.
  assert (exists a, DATA_DIR = (a ++ "character_data")%string) as [a Ea].
  { unfold DATA_DIR, path_join. simpl.
    destruct (String.eqb script_dir ""); [by exists ""%string|].
    destruct (String.eqb _ "/");
      [by exists script_dir|exists (script_dir ++ "/")%string].
    generalize script_dir. clear.
    induction s as [|c s IH]; [done|].
    by rewrite !append_cons IH. }
  rewrite Ea.
  assert (String.eqb (a ++ "character_data") "" = false) as ->.
  { by destruct a. }
  by rewrite (last_char_app a "c" "haracter_data").
Qed.

Lemma character_file_path_safe_name (character_name : string) :
  character_file_path character_name
  = path_join DATA_DIR (safe_name character_name ++ "_vendors.json").
Proof. reflexivity. Qed.

End PathFacts.

(** X15.  The file of a character.  When [/] is not alphanumeric the file
    lies directly in the data directory, whatever the name: the name is
    reduced to its letters, digits, spaces, hyphens and underscores, so
    it holds no [/].  A name and its reduced form have the same file. *)
Theorem character_file_in_data_dir `{Runtime} (character_name : string) :
  isalnum "/" = false ->
  let safe_name := PGVendorManagerUI.safe_name character_name in
  PGVendorManager.character_file_path character_name
  = (PGVendorManager.DATA_DIR ++ "/" ++ safe_name ++ "_vendors.json")%string /\
  Forall (fun c => c <> "/"%char) (list_ascii_of_string safe_name) /\
  PGVendorManager.character_file_path safe_name
  = PGVendorManager.character_file_path character_name.
Proof.
  intros Hslash safe.
  assert (Forall (fun c => c <> "/"%char) (list_ascii_of_string safe))
    as Hsafe.
  { apply rstrip_chars. eapply Forall_impl; [apply filter_chars_kept|].
    intros c Hc ->. simpl in Hc. by rewrite Hslash in Hc. }
  split; [|split; [exact Hsafe|]].
  - rewrite character_file_path_safe_name. apply DATA_DIR_join.
    by apply (prefix_slash (fun c => c <> "/"%char)).
  - rewrite !character_file_path_safe_name.
    by rewrite (safe_name_idempotent character_name).
Qed.

(** X15 on a name that tries to leave the directory. *)
Lemma character_file_in_data_dir_witness :
  @PGVendorManager.character_file_path Reference.runtime "../../etc/passwd "
  = (@PGVendorManager.DATA_DIR Reference.runtime
     ++ "/" ++ "etcpasswd" ++ "_vendors.json")%string.
Proof.
  apply (proj1 (@character_file_in_data_dir Reference.runtime
                  "../../etc/passwd " eq_refl)).
Defined.

(** X16.  The older record shapes [load_vendors] of [PGVendorManager.py]
    accepts.  An object with a non-empty list under ["vendors"], or,
    when ["vendors"] is missing or falsy, under ["vendor_list"], is loaded
    as that list alone; an object with neither key gives the empty
    collection without a diagnostic. *)
Theorem load_vendors_record_shapes `{Runtime} (files : gmap string file)
    (now : Z) (character_name : string) (d : list (string * pyval))
    (entries : list pyval) :
  let file_path := PGVendorManager.character_file_path character_name in
  files !! file_path = Some (JsonDocument (PDict d)) ->
  (entries <> [] ->
   dict_lookup d "vendors" = Some (PList entries) \/
   ((dict_lookup d "vendors" = None \/
     exists v, dict_lookup d "vendors" = Some v /\ truthy v = false) /\
    dict_lookup d "vendor_list" = Some (PList entries)) ->
   PGVendorManager.load_vendors files now character_name
   = PGVendorManager.load_vendors
       (<[file_path := JsonDocument (PList entries)]> files) now
       character_name) /\
  (dict_lookup d "vendors" = None -> dict_lookup d "vendor_list" = None ->
   PGVendorManager.load_vendors files now character_name = ([], Ok [])).
Proof.
  intros file_path Hfile. split.
  - intros Hne Hshape. unfold PGVendorManager.load_vendors.
    fold file_path. rewrite Hfile lookup_insert_eq.
    assert (or_ (or_ (dict_get d "vendors" PNone)
                   (dict_get d "vendor_list" PNone)) (PList [])
            = PList entries) as Hblob.
    { unfold dict_get. destruct entries as [|entry entries]; [done|].
      destruct Hshape as [Hv|[[Hv|(v & Hv & Hfalsy)] Hl]].
      - by rewrite Hv.
      - by rewrite Hv Hl.
      - rewrite Hv Hl. unfold or_. by rewrite Hfalsy. }
    simpl. by rewrite Hblob.
  - intros Hv Hl. unfold PGVendorManager.load_vendors.
    fold file_path. rewrite Hfile. simpl. unfold dict_get.
    by rewrite Hv Hl.
Qed.

(** X16 on [{"vendors": [], "vendor_list": [entry]}]. *)
Lemma load_vendors_record_shapes_witness :
  let entry :=
    PDict [("name", PStr "Joeh"); ("zone", PStr "Serbule");
           ("council_left", PInt 5000);
           ("last_reset", PStr "2024-02-29T13:05:09");
           ("reset_maximum", PInt 5000); ("categories", PList [])]%string in
  let file_path :=
    @PGVendorManager.character_file_path Reference.runtime "Default" in
  let files : gmap string file :=
    {[ file_path := JsonDocument (PDict [("vendors", PList []);
                                         ("vendor_list", PList [entry])]%string) ]} in
  @PGVendorManager.load_vendors Reference.runtime files 63844808709000042 "Default"
  = @PGVendorManager.load_vendors Reference.runtime
      (<[file_path := JsonDocument (PList [entry])]> files) 63844808709000042 "Default".
Proof.
  intros entry file_path files.
  apply (proj1 (@load_vendors_record_shapes Reference.runtime files 63844808709000042
                  "Default" _ [entry] (lookup_singleton_eq _ _))).
  - discriminate.
  - right. split; [|reflexivity]. right. by exists (PList []).
Defined.

Section Tracker7Files.
Context `{Runtime}.
Import vendor_tracker7.

Lemma tracker7_from_dict_to_dict (v : Vendor) n z cl rm cs :
  name v = PStr n -> zone v = PStr z ->
  council_left v = PInt cl -> reset_maximum v = PInt rm ->
  categories v = PList (map PStr cs) ->
  fromisoformat (isoformat (last_reset v)) = Some (last_reset v) ->
  from_dict (to_dict v)
  = Ok {| name := name v; zone := zone v; council_left := council_left v;
          last_reset := last_reset v;
          reset_maximum := PInt (Z.max cl rm);
          categories := categories v |}.
Proof.
  destruct v as [nm zn c lr r ct]. simpl. intros -> -> -> -> -> Hiso.
  unfold from_dict, to_dict, subscript, get, dict_get. simpl.
  unfold Vendor_init. rewrite Hiso. simpl.
  unfold py_max, py_gt. simpl.
  destruct (Z.gtb_spec rm cl); simpl; do 2 f_equal; try lia.
  all: f_equal; try lia; by destruct cs.
Qed.

Lemma tracker7_from_dicts_to_dict (vendors : list Vendor) :
  Forall (fun v =>
            (exists n z cl rm cs,
               name v = PStr n /\ zone v = PStr z /\
               council_left v = PInt cl /\ reset_maximum v = PInt rm /\
               cl <= rm /\ categories v = PList (map PStr cs)) /\
            fromisoformat (isoformat (last_reset v)) = Some (last_reset v))
    vendors ->
  from_dicts (map to_dict vendors) = Ok vendors.
Proof.
  induction 1 as [|v vendors [(n & z & cl & rm & cs & Hn & Hz & Hc & Hr
                               & Hle & Hcs) Hiso] _ IH]; [reflexivity|].
  change (map to_dict (v :: vendors))
    with (to_dict v :: map to_dict vendors).
  cbn [from_dicts].
  rewrite (tracker7_from_dict_to_dict v n z cl rm cs Hn Hz Hc Hr Hcs Hiso).
  rewrite IH. simpl. do 2 f_equal.
  destruct v as [nm zn c lr r ct]. simpl in *. subst.
  by rewrite Z.max_r.
Qed.

Lemma tracker7_to_dict_serializable (vendors : list Vendor) :
  Forall (fun v =>
            exists n z cl rm cs,
              name v = PStr n /\ zone v = PStr z /\
              council_left v = PInt cl /\ reset_maximum v = PInt rm /\
              categories v = PList (map PStr cs)) vendors ->
  json_serializable (PList (map to_dict vendors)) = true.
Proof.
  induction 1 as [|v vendors (n & z & cl & rm & cs & Hn & Hz & Hc & Hr & Hcs)
                    _ IH]; [reflexivity|].
  simpl in *. rewrite Hn Hz Hc Hr Hcs. simpl.
  by rewrite str_list_serializable IH.
Qed.

Lemma tracker7_save_then_load (files : gmap string file)
    (vendors : list Vendor) (character_name : string) :
  Forall (fun v =>
            (exists n z cl rm cs,
               name v = PStr n /\ zone v = PStr z /\
               council_left v = PInt cl /\ reset_maximum v = PInt rm /\
               cl <= rm /\ categories v = PList (map PStr cs)) /\
            fromisoformat (isoformat (last_reset v)) = Some (last_reset v))
    vendors ->
  save_vendors files vendors character_name
  = (<[file_path_of character_name
       := JsonDocument (PList (map to_dict vendors))]> files, Ok tt) /\
  forall files',
    files' !! file_path_of character_name
    = Some (JsonDocument (PList (map to_dict vendors))) ->
    load_vendors files' character_name = Ok vendors.
Proof.
  intros Hv. split.
  - unfold save_vendors. rewrite tracker7_to_dict_serializable; [|done].
    eapply Forall_impl; [exact Hv|].
    intros v [(n & z & cl & rm & cs & Hn & Hz & Hc & Hr & _ & Hcs) _].
    by exists n, z, cl, rm, cs.
  - intros files' Hfile. unfold load_vendors. rewrite Hfile. simpl.
    by rewrite (tracker7_from_dicts_to_dict vendors Hv).
Qed.

End Tracker7Files.

(** X17.  [vendor_tracker7.py]: for vendors as the data model types them
    whose amount left is within the maximum, [save_vendors] then
    [load_vendors] of the same character returns the collection that was
    saved.  A vendor whose amount left is above its maximum does not come
    back as it was: the constructor raises its maximum to the amount. *)
Theorem tracker7_save_load_round_trip `{Runtime} (files : gmap string file)
    (vendors : list vendor_tracker7.Vendor) (character_name : string) :
  (Forall (fun v =>
             (exists n z cl rm cs,
                vendor_tracker7.name v = PStr n /\
                vendor_tracker7.zone v = PStr z /\
                vendor_tracker7.council_left v = PInt cl /\
                vendor_tracker7.reset_maximum v = PInt rm /\
                cl <= rm /\
                vendor_tracker7.categories v = PList (map PStr cs)) /\
             fromisoformat (isoformat (vendor_tracker7.last_reset v))
             = Some (vendor_tracker7.last_reset v)) vendors ->
   exists files',
     vendor_tracker7.save_vendors files vendors character_name
     = (files', Ok tt) /\
     vendor_tracker7.load_vendors files' character_name = Ok vendors) /\
  (forall v n z cl rm cs,
     vendor_tracker7.name v = PStr n -> vendor_tracker7.zone v = PStr z ->
     vendor_tracker7.council_left v = PInt cl ->
     vendor_tracker7.reset_maximum v = PInt rm ->
     vendor_tracker7.categories v = PList (map PStr cs) ->
     fromisoformat (isoformat (vendor_tracker7.last_reset v))
     = Some (vendor_tracker7.last_reset v) ->
     rm < cl ->
     exists v',
       vendor_tracker7.from_dict (vendor_tracker7.to_dict v) = Ok v' /\
       vendor_tracker7.reset_maximum v' = PInt cl /\
       v' <> v).
Proof.
  split.
  - intros Hv.
    destruct (tracker7_save_then_load files vendors character_name Hv)
      as [Hsave Hload].
    eexists. split; [exact Hsave|]. apply Hload. apply lookup_insert_eq.
  - intros v n z cl rm cs Hn Hz Hc Hr Hcs Hiso Hlt.
    eexists. split.
    { apply (tracker7_from_dict_to_dict v n z cl rm cs Hn Hz Hc Hr Hcs Hiso). }
    simpl. split; [by rewrite Z.max_l; [lia|]|].
    intros E. apply (f_equal vendor_tracker7.reset_maximum) in E.
    simpl in E. rewrite Hr in E. injection E as E. lia.
Qed.

(** X17 on two vendors. *)
Lemma tracker7_save_load_round_trip_witness :
  let vendors :=
    [vendor_tracker7.Build_Vendor (PStr "Joeh") (PStr "Serbule") (PInt 0)
       63844808709000042 (PInt 5000) (PList [PStr "Armor"]);
     vendor_tracker7.Build_Vendor (PStr "Elahil") (PStr "Serbule")
       (PInt 1500) 63844808709000000 (PInt 1500) (PList [])] in
  exists files',
    @vendor_tracker7.save_vendors Reference.runtime ∅ vendors "Alice"
    = (files', Ok tt) /\
    @vendor_tracker7.load_vendors Reference.runtime files' "Alice"
    = Ok vendors.
Proof.
  intros vendors.
  apply (proj1 (@tracker7_save_load_round_trip Reference.runtime ∅ vendors
                  "Alice")).
  apply Forall_cons. split; [split|].
  - exists "Joeh"%string, "Serbule"%string, 0, 5000, ["Armor"%string].
    repeat split; try reflexivity; lia.
  - vm_compute. reflexivity.
  - apply Forall_cons. split; [split|apply Forall_nil_2].
    + exists "Elahil"%string, "Serbule"%string, 1500, 1500, [].
      repeat split; try reflexivity; lia.
    + vm_compute. reflexivity.
Defined.

(** ** Characters *)

Section CharacterFacts.
Context `{Runtime}.
Import PGVendorManager.

Lemma PGVM_load_saved (files : gmap string file) (now : Z)
    (character_name : string) (vendors : list Vendor) :
  files !! character_file_path character_name
  = Some (JsonDocument (PList (map to_dict vendors))) ->
  Forall (fun v =>
            (exists n z cs,
               name v = PStr n /\ zone v = PStr z /\
               categories v = PList (map PStr cs)) /\
            fromisoformat (isoformat (last_reset v)) = Some (last_reset v))
    vendors ->
  load_vendors files now character_name = ([], Ok vendors).
Proof.
  intros Hfile Hv. unfold load_vendors. rewrite Hfile. simpl.
  by rewrite (PGVM_load_entries_to_dict now vendors Hv []).
Qed.

End CharacterFacts.

(** X18.  [on_char_change] of [PGVendorManager.py] sets the current
    character before it loads.  When the load raises (the
    [AttributeError] of an entry that is not an object, the
    [UnicodeDecodeError] of a file that is not UTF-8, or whatever else)
    the error is printed and shown, but the collection in memory stays
    the one of the character left, under the name of the character
    chosen, and no file changes; closing the window then writes that
    collection over the file that could not be loaded. *)
Theorem char_change_failed_load `{Runtime} (now : Z) (selected : string)
    (app : PGVendorManager.App) (out : list event) (e : exn) :
  PGVendorManager.load_vendors (PGVendorManager.files app) now selected
  = (out, Raise e) ->
  let app' := fst (PGVendorManagerUI.on_char_change now selected app) in
  snd (PGVendorManagerUI.on_char_change now selected app)
  = [ui_print (ErrorChangingCharacter e);
     ui_showerror (ErrorChangingCharacter e)] /\
  PGVendorManager.current_character app' = selected /\
  PGVendorManager.vendors app' = PGVendorManager.vendors app /\
  PGVendorManager.files app' = PGVendorManager.files app /\
  (json_serializable
     (PList (map PGVendorManager.to_dict (PGVendorManager.vendors app)))
   = true ->
   PGVendorManager.files (fst (PGVendorManagerUI.on_closing app'))
     !! PGVendorManager.character_file_path selected
   = Some (JsonDocument
             (PList (map PGVendorManager.to_dict
                       (PGVendorManager.vendors app))))).
Proof.
  intros Hload app'.
  unfold app', PGVendorManagerUI.on_char_change. simpl. rewrite Hload. simpl.
  repeat split.
  intros Hjson. unfold PGVendorManagerUI.on_closing,
    PGVendorManager.save_vendors. simpl.
  rewrite Hjson. simpl. apply lookup_insert_eq.
Qed.

(** X18 on a file of the character Bob that is not UTF-8. *)
Lemma char_change_failed_load_witness :
  let joeh :=
    PGVendorManager.Build_Vendor (PStr "Joeh") (PStr "Serbule") 0
      63844808709000042 5000 (PList []) in
  let bob := @PGVendorManager.character_file_path Reference.runtime "Bob" in
  let app :=
    PGVendorManager.Build_App [joeh] "Alice" {[ bob := Undecodable ]} [] in
  let app' :=
    fst (@PGVendorManagerUI.on_char_change Reference.runtime
           63844808709000042 "Bob" app) in
  PGVendorManager.current_character app' = "Bob"%string /\
  PGVendorManager.vendors app' = [joeh].
Proof.
  intros joeh bob app app'.
  destruct (@char_change_failed_load Reference.runtime 63844808709000042
              "Bob" app [] UnicodeDecodeError ltac:(vm_compute; reflexivity))
    as (_ & Hchar & Hvendors & _).
  split; [exact Hchar|exact Hvendors].
Defined.

(** X19.  [add_new_character] of [PGVendorManager.py], for a new name
    while Default has a file of vendors: the character is switched to
    first, so the collection in memory is the empty one of a character
    without a file, and only then are the vendors of Default written to
    the file of the new character.  Loading that file would give them,
    but the window shows none, and closing it writes the empty collection
    over them. *)
Theorem new_character_seed_lost `{Runtime} (now : Z) (name : string)
    (characters : list string) (app : PGVendorManager.App)
    (default_vendors : list PGVendorManager.Vendor) :
  let safe_name :=
    strip (filter_chars
             (fun c => isalnum c || Ascii.eqb c " "
                       || Ascii.eqb c "-" || Ascii.eqb c "_") name) in
  let new_path := PGVendorManager.character_file_path safe_name in
  name <> ""%string -> strip name <> ""%string -> safe_name <> ""%string ->
  existsb (String.eqb safe_name) characters = false ->
  PGVendorManager.files app !! new_path = None ->
  PGVendorManager.files app
    !! PGVendorManager.character_file_path PGVendorManager.DEFAULT_CHARACTER
  = Some (JsonDocument
            (PList (map PGVendorManager.to_dict default_vendors))) ->
  Forall (fun v =>
            (exists n z cs,
               PGVendorManager.name v = PStr n /\
               PGVendorManager.zone v = PStr z /\
               PGVendorManager.categories v = PList (map PStr cs)) /\
            fromisoformat (isoformat (PGVendorManager.last_reset v))
            = Some (PGVendorManager.last_reset v)) default_vendors ->
  exists app',
    PGVendorManagerUI.add_new_character now (Some name) characters app
    = (sorted String.leb (characters ++ [safe_name]), app', []) /\
    PGVendorManager.current_character app' = safe_name /\
    PGVendorManager.vendors app' = [] /\
    PGVendorManager.files app' !! new_path
    = Some (JsonDocument
              (PList (map PGVendorManager.to_dict default_vendors))) /\
    PGVendorManager.load_vendors (PGVendorManager.files app') now safe_name
    = ([], Ok default_vendors) /\
    PGVendorManager.files (fst (PGVendorManagerUI.on_closing app'))
      !! new_path
    = Some (JsonDocument (PList [])).
Proof.
  intros safe_name new_path Hname Hstrip Hsafe Hnew Hnofile Hdefault Htyped.
  unfold PGVendorManagerUI.add_new_character.
  destruct (String.eqb_spec name "") as [|_]; [done|].
  destruct (String.eqb_spec (strip name) "") as [|_]; [done|].
  fold safe_name.
  destruct (String.eqb_spec safe_name "") as [|_]; [done|].
  rewrite Hnew.
  unfold PGVendorManagerUI.on_char_change. simpl.
  unfold PGVendorManager.load_vendors at 1. fold new_path.
  rewrite Hnofile. simpl. rewrite Hdefault.
  rewrite (PGVM_load_saved _ now PGVendorManager.DEFAULT_CHARACTER
             default_vendors Hdefault Htyped).
  unfold PGVendorManager.save_vendors. fold new_path.
  rewrite PGVM_to_dict_serializable.
  { eapply Forall_impl; [exact Htyped|]. by intros v [Hty _]. }
  eexists. split; [reflexivity|]. simpl.
  split; [reflexivity|]. split; [reflexivity|].
  split; [apply lookup_insert_eq|]. split.
  - apply PGVM_load_saved; [|exact Htyped]. apply lookup_insert_eq.
  - unfold PGVendorManagerUI.on_closing, PGVendorManager.save_vendors.
    simpl. fold new_path. apply lookup_insert_eq.
Qed.

(** X19 on the new character Alice. *)
Lemma new_character_seed_lost_witness :
  let joeh :=
    PGVendorManager.Build_Vendor (PStr "Joeh") (PStr "Serbule") 0
      63844808709000042 5000 (PList []) in
  let default_path :=
    @PGVendorManager.character_file_path Reference.runtime "Default" in
  let app :=
    PGVendorManager.Build_App [joeh] "Default"
      {[ default_path
           := JsonDocument (PList [@PGVendorManager.to_dict Reference.runtime
                                     joeh]) ]} [] in
  exists characters' app',
    @PGVendorManagerUI.add_new_character Reference.runtime 63844808709000042
      (Some " Alice! "%string) ["Default"%string] app
    = (characters', app', []) /\
    PGVendorManager.vendors app' = [].
Proof.
  intros joeh default_path app.
  destruct (@new_character_seed_lost Reference.runtime 63844808709000042 " Alice! "
              ["Default"%string] app [joeh])
    as (app' & E & _ & Hvendors & _).
  - discriminate.
  - vm_compute. discriminate.
  - vm_compute. discriminate.
  - reflexivity.
  - reflexivity.
  - reflexivity.
  - apply Forall_cons. split; [split|apply Forall_nil_2].
    + by exists "Joeh"%string, "Serbule"%string, [].
    + vm_compute. reflexivity.
  - eexists _, app'. split; [exact E|exact Hvendors].
Defined.

(** X20.  [add_new_character] of [vendor_tracker7.py] copies first and
    switches then.  When Default is among the characters and its vendors
    load, the new character gets a file with them, is switched to, and
    the collection in memory is loaded from that file.  When loading
    Default raises, the name has already been appended to the
    characters: nothing is written, the character is not switched to, and
    asking for the same name again is answered with "Character already
    exists". *)
Theorem tracker7_new_character `{Runtime} (new_char : string)
    (characters : list string) (app : vendor_tracker7.App) :
  new_char <> ""%string ->
  forallb isalnum (list_ascii_of_string new_char) = true ->
  existsb (String.eqb new_char) characters = false ->
  existsb (String.eqb "Default") characters = true ->
  (forall default_vendors,
     vendor_tracker7.load_vendors (vendor_tracker7.files app) "Default"
     = Ok default_vendors ->
     Forall (fun v =>
               (exists n z cl rm cs,
                  vendor_tracker7.name v = PStr n /\
                  vendor_tracker7.zone v = PStr z /\
                  vendor_tracker7.council_left v = PInt cl /\
                  vendor_tracker7.reset_maximum v = PInt rm /\
                  cl <= rm /\
                  vendor_tracker7.categories v = PList (map PStr cs)) /\
               fromisoformat (isoformat (vendor_tracker7.last_reset v))
               = Some (vendor_tracker7.last_reset v)) default_vendors ->
     exists app' r,
       vendor_tracker7UI.add_new_character (Some new_char) characters app
       = (characters ++ [new_char], app', [], r) /\
       vendor_tracker7.current_character app' = new_char /\
       vendor_tracker7.vendors app' = default_vendors /\
       vendor_tracker7.files app'
       = <[vendor_tracker7.file_path_of new_char
           := JsonDocument
                (PList (map vendor_tracker7.to_dict default_vendors))]>
           (vendor_tracker7.files app)) /\
  (forall e,
     vendor_tracker7.load_vendors (vendor_tracker7.files app) "Default"
     = Raise e ->
     vendor_tracker7UI.add_new_character (Some new_char) characters app
     = (characters ++ [new_char], app, [], Raise e) /\
     vendor_tracker7UI.add_new_character (Some new_char)
       (characters ++ [new_char]) app
     = (characters ++ [new_char], app, [ui_showerror CharacterExists],
        Ok tt)).
Proof.
  intros Hname Halnum Hnew Hdefault.
  assert (String.eqb new_char "Default" = false) as Hne.
  { destruct (String.eqb_spec new_char "Default") as [->|]; [|done].
    by rewrite Hdefault in Hnew. }
  assert (existsb (String.eqb "Default") (characters ++ [new_char])
          && negb (String.eqb new_char "Default") = true) as Hseed.
  { by rewrite existsb_app Hdefault Hne. }
  split.
  - intros default_vendors Hload Htyped.
    unfold vendor_tracker7UI.add_new_character.
    destruct (String.eqb_spec new_char "") as [|_]; [done|].
    rewrite Halnum Hnew Hseed Hload. simpl.
    destruct (tracker7_save_then_load (vendor_tracker7.files app)
                default_vendors new_char Htyped) as [Hsave Hreload].
    rewrite Hsave. unfold vendor_tracker7UI.on_char_change. simpl.
    rewrite (Hreload _ (lookup_insert_eq _ _ _)).
    by eexists _, _.
  - intros e Hload. split.
    + unfold vendor_tracker7UI.add_new_character.
      destruct (String.eqb_spec new_char "") as [|_]; [done|].
      by rewrite Halnum Hnew Hseed Hload.
    + unfold vendor_tracker7UI.add_new_character.
      destruct (String.eqb_spec new_char "") as [|_]; [done|].
      rewrite Halnum. simpl.
      assert (existsb (String.eqb new_char) (characters ++ [new_char])
              = true) as ->; [|done].
      rewrite existsb_app. simpl. rewrite String.eqb_refl.
      by rewrite orb_true_r.
Qed.

(** X20 on the new character Alice. *)
Lemma tracker7_new_character_witness :
  let joeh :=
    vendor_tracker7.Build_Vendor (PStr "Joeh") (PStr "Serbule") (PInt 0)
      63844808709000042 (PInt 5000) (PList [PStr "Armor"]) in
  let app :=
    vendor_tracker7.Build_App [] "Default"
      {[ vendor_tracker7.file_path_of "Default"
           := JsonDocument (PList [@vendor_tracker7.to_dict Reference.runtime
                                     joeh]) ]} [] in
  exists characters' app' shown r,
    @vendor_tracker7UI.add_new_character Reference.runtime (Some "Alice")
      ["Default"%string] app
    = (characters', app', shown, r) /\
    vendor_tracker7.vendors app' = [joeh].
Proof.
  intros joeh app.
  destruct (proj1 (@tracker7_new_character Reference.runtime "Alice"
                     ["Default"%string] app ltac:(discriminate)
                     eq_refl eq_refl eq_refl) [joeh])
    as (app' & r & E & _ & Hvendors & _).
  - vm_compute. reflexivity.
  - apply Forall_cons. split; [split|apply Forall_nil_2].
    + exists "Joeh"%string, "Serbule"%string, 0, 5000, ["Armor"%string].
      repeat split; try reflexivity; lia.
    + vm_compute. reflexivity.
  - eexists _, app', _, r. split; [exact E|exact Hvendors].
Defined.

(** ** The add dialog of [vendor_tracker7.py] *)

Section Tracker7Dialog.
Context `{Runtime}.
Import vendor_tracker7.

Lemma str_field (s : string) :
  py_int (or_ (PStr s) (PInt 0))
  = if String.eqb s "" then Ok 0
    else match int_of_str s with
         | Some z => Ok z
         | None => Raise ValueError
         end.
Proof. unfold or_. simpl. by destruct (String.eqb s ""). Qed.

Lemma tracker7_clamp_range (days hours minutes : pyval) d h m :
  _clamp_reset_inputs days hours minutes = Ok (d, h, m) ->
  0 <= d <= 6 /\ 0 <= h <= 23 /\ 0 <= m <= 59.
Proof.
  intros E.
  destruct (tracker7_clamp_cases days hours minutes)
    as [E'|[E'|(a & b & c & E')]]; rewrite E' in E.
  - injection E as <- <- <-. lia.
  - discriminate.
  - rewrite tracker7_clamp_ints in E. injection E as <- <- <-. lia.
Qed.

Lemma tracker7_add_accepted now (name zone : string) council
    (d_raw h_raw m_raw : string) cats (app : App) d h m :
  name <> ""%string ->
  _clamp_reset_inputs (PStr d_raw) (PStr h_raw) (PStr m_raw) = Ok (d, h, m) ->
  vendors (fst (add_and_save now name zone council d_raw h_raw m_raw cats
                  app))
  = vendors app ++
    [{| vendor_tracker7.name := PStr name; zone := PStr zone;
        council_left := PInt council;
        last_reset := now - (timedelta 7 0 0 - timedelta d h m);
        reset_maximum := PInt council;
        categories := PList (map PStr cats) |}].
Proof.
  intros Hname E. unfold add_and_save.
  destruct (String.eqb_spec name "") as [|_]; [done|].
  rewrite E. simpl. unfold calculate_last_reset.
  destruct (tracker7_clamp_range _ _ _ _ _ _ E) as (Hd & Hh & Hm).
  rewrite tracker7_clamp_ints. simpl.
  rewrite (Z.min_r 6 d); [lia|]. rewrite (Z.min_r 23 h); [lia|].
  rewrite (Z.min_r 59 m); [lia|]. rewrite !Z.max_r; try lia.
  unfold Vendor_init, py_max, py_gt. simpl.
  replace (council >? council) with false
    by (symmetry; rewrite Z.gtb_ltb; apply Z.ltb_irrefl).
  simpl. rewrite tracker7_save_and_report_vendors. simpl.
  by destruct cats.
Qed.

End Tracker7Dialog.

(** X21.  The add dialog of [vendor_tracker7.py] refuses no time.  Three
    numbers are capped field by field (days at 6, hours at 23, minutes at
    59, none below 0) and the vendor is stored with the capped time; and
    when one of the fields holds text that is no number, all three count
    as 0, so the vendor is stored as due now. *)
Theorem tracker7_add_clamps `{Runtime} (now : Z) (name zone : string)
    (council : Z) (d_raw h_raw m_raw : string) (cats : list string)
    (app : vendor_tracker7.App) :
  name <> ""%string ->
  let app' :=
    fst (vendor_tracker7.add_and_save now name zone council d_raw h_raw
           m_raw cats app) in
  (forall d h m,
     d_raw <> ""%string -> h_raw <> ""%string -> m_raw <> ""%string ->
     int_of_str d_raw = Some d -> int_of_str h_raw = Some h ->
     int_of_str m_raw = Some m ->
     exists v,
       vendor_tracker7.vendors app' = vendor_tracker7.vendors app ++ [v] /\
       vendor_tracker7.next_reset v - now
       = timedelta (Z.max 0 (Z.min 6 d)) (Z.max 0 (Z.min 23 h))
           (Z.max 0 (Z.min 59 m))) /\
  ((d_raw <> ""%string /\ int_of_str d_raw = None) \/
   (h_raw <> ""%string /\ int_of_str h_raw = None) \/
   (m_raw <> ""%string /\ int_of_str m_raw = None) ->
   exists v,
     vendor_tracker7.vendors app' = vendor_tracker7.vendors app ++ [v] /\
     vendor_tracker7.next_reset v = now).
Proof.
  intros Hname app'. split.
  - intros d h m Hd Hh Hm Ed Eh Em.
    assert (vendor_tracker7._clamp_reset_inputs (PStr d_raw) (PStr h_raw)
              (PStr m_raw)
            = Ok (Z.max 0 (Z.min 6 d), Z.max 0 (Z.min 23 h),
                  Z.max 0 (Z.min 59 m))) as E.
    { unfold vendor_tracker7._clamp_reset_inputs. rewrite !str_field.
      destruct (String.eqb_spec d_raw "") as [|_]; [done|].
      destruct (String.eqb_spec h_raw "") as [|_]; [done|].
      destruct (String.eqb_spec m_raw "") as [|_]; [done|].
      by rewrite Ed Eh Em. }
    eexists. split.
    { apply (tracker7_add_accepted now name zone council d_raw h_raw m_raw
               cats app _ _ _ Hname E). }
    unfold vendor_tracker7.next_reset. simpl. lia.
  - intros Hbad.
    assert (vendor_tracker7._clamp_reset_inputs (PStr d_raw) (PStr h_raw)
              (PStr m_raw) = Ok (0, 0, 0)) as E.
    { unfold vendor_tracker7._clamp_reset_inputs. rewrite !str_field.
      destruct Hbad as [[Hd Ed]|[[Hh Eh]|[Hm Em]]].
      - destruct (String.eqb_spec d_raw "") as [|_]; [done|]. by rewrite Ed.
      - destruct (String.eqb_spec h_raw "") as [|_]; [done|]. rewrite Eh.
        destruct (String.eqb d_raw ""); [done|].
        by destruct (int_of_str d_raw).
      - destruct (String.eqb_spec m_raw "") as [|_]; [done|]. rewrite Em.
        destruct (String.eqb d_raw ""); simpl;
          [|destruct (int_of_str d_raw); simpl; [|done]];
          (destruct (String.eqb h_raw ""); simpl;
           [|destruct (int_of_str h_raw); simpl]); done. }
    eexists. split.
    { apply (tracker7_add_accepted now name zone council d_raw h_raw m_raw
               cats app _ _ _ Hname E). }
    unfold vendor_tracker7.next_reset, timedelta. simpl. lia.
Qed.

(** X21 on 9 days and 30 hours, stored as 6 days and 23 hours. *)
Lemma tracker7_add_clamps_witness :
  let app := vendor_tracker7.Build_App [] "Default" ∅ [] in
  exists v,
    vendor_tracker7.vendors
      (fst (@vendor_tracker7.add_and_save Reference.runtime 63844808709000042 "Joeh"
              "Serbule" 5000 "9" "30" "0" [] app)) = [v] /\
    vendor_tracker7.next_reset v - 63844808709000042 = timedelta 6 23 0.
Proof.
  intros app.
  apply (proj1 (@tracker7_add_clamps Reference.runtime 63844808709000042 "Joeh" "Serbule"
                  5000 "9" "30" "0" [] app ltac:(discriminate)) 9 30 0);
    (discriminate || reflexivity).
Defined.

(** X22.  An entry without ["last_reset"].  [PGVendorManager.py] builds
    the vendor all the same, without a diagnostic, and gives it the time
    of loading as its last reset, so its countdown starts anew at every
    load; [vendor_tracker7.py] raises [KeyError]. *)
Theorem entry_without_last_reset `{Runtime} (now : Z)
    (d : list (string * pyval)) :
  dict_lookup d "last_reset" = None ->
  fromisoformat (isoformat now) = Some now ->
  (forall out v,
     PGVendorManager.from_dict now (PDict d) = (out, Ok v) ->
     out = [] /\ PGVendorManager.last_reset v = now /\
     PGVendorManager.next_reset v - now = timedelta 7 0 0) /\
  (forall council_left reset_maximum,
     py_int (dict_get d "council_left" (PInt 0)) = Ok council_left ->
     py_int (dict_get d "reset_maximum" (PInt 0)) = Ok reset_maximum ->
     exists v, PGVendorManager.from_dict now (PDict d) = ([], Ok v)) /\
  vendor_tracker7.from_dict (PDict d) = Raise KeyError.
Proof.
  intros Hmissing Hiso.
  assert (dict_get d "last_reset" (PStr (isoformat now))
          = PStr (isoformat now)) as Hget
    by (unfold dict_get; by rewrite Hmissing).
  split; [|split].
  - intros out v. unfold PGVendorManager.from_dict,
      PGVendorManager.Vendor_init. rewrite Hget Hiso.
    destruct (py_int (dict_get d "council_left" (PInt 0))) as [c|e]; simpl;
      [|discriminate].
    destruct (py_int (dict_get d "reset_maximum" (PInt 0))) as [r|e]; simpl;
      [|discriminate].
    intros [= <- <-]. unfold PGVendorManager.next_reset. simpl.
    repeat split. lia.
  - intros c r Hc Hr. unfold PGVendorManager.from_dict,
      PGVendorManager.Vendor_init. rewrite Hget Hiso Hc Hr. simpl.
    by eexists.
  - unfold vendor_tracker7.from_dict, vendor_tracker7.subscript,
      vendor_tracker7.get.
    destruct (dict_lookup d "name"); simpl; [|done].
    destruct (dict_lookup d "zone"); simpl; [|done].
    by rewrite Hmissing.
Qed.

(** X22 on the empty object. *)
Lemma entry_without_last_reset_witness :
  exists v,
    @PGVendorManager.from_dict Reference.runtime 63844808709000042 (PDict [])
    = ([], Ok v) /\
  @vendor_tracker7.from_dict Reference.runtime (PDict []) = Raise KeyError.
Proof.
  destruct (@entry_without_last_reset Reference.runtime 63844808709000042 []
              eq_refl ltac:(vm_compute; reflexivity))
    as (_ & Hbuilt & Hraise).
  destruct (Hbuilt 0 0 eq_refl eq_refl) as [v Hv].
  exists v. split; [exact Hv|exact Hraise].
Defined.
